(** * smart-run: the recommendation engine (package [internal/engine]) and
      what feeds it and serves it

    A shallow embedding of [engine.go], [practical.go] and [smart.go], with
    the data shapes of [types.go], and the properties of the engine that the
    specification states.  Around the engine: the slot sort of package
    [prices], the nearest weather slot and the daily forecast of package
    [weather], and the two recommendation handlers of [uiapi/server.go].

    Modelling conventions.
    - Go [float64] is Rocq's primitive binary64 float; every operation is
      rounded on its own (no fused multiply-add).
    - Go [int] is [Z].  No arithmetic of the modelled code can leave the
      64-bit range for slices that fit in memory, except the [Duration]
      product of [generateCoupledRecommendation], whose wrap-around is
      written out.
    - [time.Time] is an instant (nanoseconds since the Unix epoch) together
      with a location that has a fixed offset from UTC.
    - [time.Now()] is an explicit clock argument.
    - The sorting routine of package [sort] is an argument of
      [BestWindows]; [SortSliceSpec] is its documented contract and
      [GoSort.Slice] an executable model of the library routine.
    - maps are [gmap]s keyed by the date strings the code formats.
    - A pointer the code dereferences without a nil check is the value it
      points to; one it checks ([coupledAppliance], [FinishBy], ...) is an
      [option].
    - [time.Local], the zone of the process, is an explicit argument too.
    - A text built by [fmt.Sprintf] is kept as its format (a constructor)
      and its arguments; the rendering of a [float64] by [%.0f] or [%.2f] is
      left to package [fmt].
    - What the network and the store return to a handler is an argument of
      the handler: the value, or the text of the error.  The decoded body of
      a forecast reply is an argument of the conversion that follows it.
    - A loop inside a function is a recursive function of its own, named
      after the function.
    - An index out of range, on which the Go run time panics, is [None]. *)

#[local] Set Warnings "-inexact-float".
From Stdlib Require Import ZArith List Bool Lia Permutation Sorted.
From Stdlib Require Import Floats Ascii.
From Stdlib Require Uint63.
From stdpp Require Import base gmap strings.
Import ListNotations.
Open Scope Z_scope.

(* ================================================================== *)
(** * Part I: the program *)
(* ================================================================== *)

(* ================================================================== *)
(** * float64 *)
(* ================================================================== *)

Module F64.

Definition float64 : Set := float.

(** Go's [a > b], [a < b], [a <= b] on [float64]. *)
Definition gt (a b : float64) : bool := PrimFloat.ltb b a.
Definition lt (a b : float64) : bool := PrimFloat.ltb a b.
Definition le (a b : float64) : bool := PrimFloat.leb a b.

Definition isNaN (a : float64) : bool := PrimFloat.is_nan a.

(** Go's conversion [float64(n)] of an [int]. *)
Definition of_int (n : Z) : float64 :=
  if n <? 0 then PrimFloat.opp (PrimFloat.of_uint63 (Uint63.of_Z (- n)))
  else PrimFloat.of_uint63 (Uint63.of_Z n).

(** Two amounts are the same number: equal under [==], or both NaN. *)
Definition sameAmount (a b : float64) : bool :=
  PrimFloat.eqb a b || (isNaN a && isNaN b).

(** ** The order of binary64, through the specification floats *)

(** Position of a (non-NaN) float in the order: class, then exponent, then
    mantissa, read lexicographically. *)
Definition rank (f : spec_float) : option (Z * Z * Z) :=
  match f with
  | S754_nan => None
  | S754_zero _ => Some (0, 0, 0)
  | S754_infinity false => Some (2, 0, 0)
  | S754_infinity true => Some (-2, 0, 0)
  | S754_finite false m e => Some (1, e, Zpos m)
  | S754_finite true m e => Some (-1, - e, Zneg m)
  end.

Definition lexlt (a b : Z * Z * Z) : Prop :=
  let '(a1, a2, a3) := a in
  let '(b1, b2, b3) := b in
  a1 < b1 \/ (a1 = b1 /\ (a2 < b2 \/ (a2 = b2 /\ a3 < b3))).

Definition lexle (a b : Z * Z * Z) : Prop :=
  let '(a1, a2, a3) := a in
  let '(b1, b2, b3) := b in
  a1 < b1 \/ (a1 = b1 /\ (a2 < b2 \/ (a2 = b2 /\ a3 <= b3))).

Definition lexeq (a b : Z * Z * Z) : Prop :=
  let '(a1, a2, a3) := a in
  let '(b1, b2, b3) := b in
  a1 = b1 /\ a2 = b2 /\ a3 = b3.

End F64.

(* ================================================================== *)
(** * Package [time], as far as the engine uses it *)
(* ================================================================== *)

Module GoTime.

(** A [time.Duration] is a count of nanoseconds. *)
Definition Nanosecond : Z := 1.
Definition Second : Z := 1000000000 * Nanosecond.
Definition Minute : Z := 60 * Second.
Definition Hour : Z := 60 * Minute.

Definition secondsPerDay : Z := 86400.

(** An instant, and the fixed offset (seconds east of UTC) of its location.
    Locations whose offset changes over the year are outside the model. *)
Record Time : Set := mkTime { unixNano : Z; zoneOffset : Z }.

Definition UTC : Z := 0.

(** [t.Equal(u)], [t.After(u)], [t.Before(u)] compare instants only. *)
Definition Equal (t u : Time) : bool := unixNano t =? unixNano u.
Definition After (t u : Time) : bool := unixNano u <? unixNano t.
Definition Before (t u : Time) : bool := unixNano t <? unixNano u.

(** [t.Add(d)] *)
Definition Add (t : Time) (d : Z) : Time :=
  mkTime (unixNano t + d) (zoneOffset t).

(** Wall-clock seconds since 1970-01-01 00:00:00 in the time's location. *)
Definition localSeconds (t : Time) : Z := unixNano t / Second + zoneOffset t.
Definition localDays (t : Time) : Z := localSeconds t / secondsPerDay.
Definition secondOfDay (t : Time) : Z := localSeconds t mod secondsPerDay.

(** [t.Weekday()]: Sunday = 0, ..., Saturday = 6 (1970-01-01 was a
    Thursday). *)
Definition Weekday (t : Time) : Z := (localDays t + 4) mod 7.

(** The proleptic Gregorian calendar: day count since 1970-01-01 to civil
    date and back. *)
Definition civilFromDays (z : Z) : Z * Z * Z :=
  let z := z + 719468 in
  let era := z / 146097 in
  let doe := z - era * 146097 in
  let yoe := (doe - doe / 1460 + doe / 36524 - doe / 146096) / 365 in
  let y := yoe + era * 400 in
  let doy := doe - (365 * yoe + yoe / 4 - yoe / 100) in
  let mp := (5 * doy + 2) / 153 in
  let d := doy - (153 * mp + 2) / 5 + 1 in
  let m := if mp <? 10 then mp + 3 else mp - 9 in
  (if m <=? 2 then y + 1 else y, m, d).

Definition daysFromCivil (y m d : Z) : Z :=
  let y := if m <=? 2 then y - 1 else y in
  let era := y / 400 in
  let yoe := y - era * 400 in
  let doy := (153 * (if 2 <? m then m - 3 else m + 9) + 2) / 5 + d - 1 in
  let doe := yoe * 365 + yoe / 4 - yoe / 100 + doy in
  era * 146097 + doe - 719468.

Definition Year (t : Time) : Z := fst (fst (civilFromDays (localDays t))).
Definition Month (t : Time) : Z := snd (fst (civilFromDays (localDays t))).
Definition Day (t : Time) : Z := snd (civilFromDays (localDays t)).
Definition HourOf (t : Time) : Z := secondOfDay t / 3600.
Definition MinuteOf (t : Time) : Z := (secondOfDay t mod 3600) / 60.
Definition SecondOf (t : Time) : Z := secondOfDay t mod 60.
Definition NanosecondOf (t : Time) : Z := unixNano t mod Second.

(** [time.Date(year, month, day, hour, min, sec, nsec, loc)].  Values out
    of their usual range are normalised: the month carries into the year,
    everything else is a linear offset from the first of the month. *)
Definition Date (year month day hour min sec nsec loc : Z) : Time :=
  let m0 := month - 1 in
  let y := year + m0 / 12 in
  let m := m0 mod 12 + 1 in
  let days := daysFromCivil y m 1 + (day - 1) in
  let secs := days * secondsPerDay + hour * 3600 + min * 60 + sec - loc in
  mkTime (secs * Second + nsec) loc.

(** [t.AddDate(years, months, days)] *)
Definition AddDate (t : Time) (years months days : Z) : Time :=
  Date (Year t + years) (Month t + months) (Day t + days)
       (HourOf t) (MinuteOf t) (SecondOf t) (NanosecondOf t) (zoneOffset t).

(** ** Formatting *)

Definition digitChar (n : Z) : ascii := ascii_of_nat (48 + Z.to_nat n).

Fixpoint utoa (fuel : nat) (n : Z) (acc : string) : string :=
  match fuel with
  | O => acc
  | S fuel' =>
      let acc' := String (digitChar (n mod 10)) acc in
      if n / 10 =? 0 then acc' else utoa fuel' (n / 10) acc'
  end.

Fixpoint zeros (n : nat) : string :=
  match n with O => EmptyString | S n' => String "0"%char (zeros n') end.

(** [appendInt]: decimal, zero-padded to [width], with a sign when
    negative. *)
Definition appendInt (x : Z) (width : nat) : string :=
  let u := utoa 20 (Z.abs x) EmptyString in
  let padded := (zeros (width - String.length u) ++ u)%string in
  if x <? 0 then String "-"%char padded else padded.

(** [t.Format("2006-01-02")] *)
Definition FormatDate (t : Time) : string :=
  (appendInt (Year t) 4 ++ "-" ++ appendInt (Month t) 2 ++ "-"
     ++ appendInt (Day t) 2)%string.

(** [t.Format("15:04")] *)
Definition FormatClock (t : Time) : string :=
  (appendInt (HourOf t) 2 ++ ":" ++ appendInt (MinuteOf t) 2)%string.

(** [t.Local()]: the same instant in the zone [time.Local]. *)
Definition Local (localZone : Z) (t : Time) : Time :=
  mkTime (unixNano t) localZone.

(** [t.Format("Monday")] *)
Definition FormatWeekday (t : Time) : string :=
  match Weekday t with
  | 0 => "Sunday"
  | 1 => "Monday"
  | 2 => "Tuesday"
  | 3 => "Wednesday"
  | 4 => "Thursday"
  | 5 => "Friday"
  | _ => "Saturday"
  end%string.

(** ** Parsing *)

Definition isDigit (c : ascii) : bool :=
  let n := nat_of_ascii c in (48 <=? n)%nat && (n <=? 57)%nat.

Definition digitVal (c : ascii) : Z := Z.of_nat (nat_of_ascii c) - 48.

(** [getnum(s, fixed)]: one or two leading digits ([fixed] demands two). *)
Definition getnum (s : string) (fixed : bool) : option (Z * string) :=
  match s with
  | EmptyString => None
  | String c1 rest =>
      if isDigit c1 then
        match rest with
        | String c2 rest' =>
            if isDigit c2 then Some (digitVal c1 * 10 + digitVal c2, rest')
            else if fixed then None else Some (digitVal c1, rest)
        | EmptyString => if fixed then None else Some (digitVal c1, rest)
        end
      else None
  end.

(** [time.Parse("15:04", s)]: hour ([stdHour]: one or two digits, below
    24), the literal colon, minute ([stdZeroMinute]: two digits, below 60),
    and nothing after.  The result is that time of day on 1 January of
    year 0, UTC. *)
Definition ParseClock (s : string) : option Time :=
  match getnum s false with
  | None => None
  | Some (hour, s1) =>
      match s1 with
      | String ":"%char s2 =>
          match getnum s2 true with
          | None => None
          | Some (min, s3) =>
              match s3 with
              | EmptyString =>
                  if (24 <=? hour) || (60 <=? min) then None
                  else Some (Date 0 1 1 hour min 0 0 UTC)
              | String _ _ => None
              end
          end
      | _ => None
      end
  end.

(** The range of a [time.Duration] (an [int64]). *)
Definition minDuration : Z := - 2 ^ 63.
Definition maxDuration : Z := 2 ^ 63 - 1.

(** [t.Sub(u)]: the duration [t - u], or the least or greatest Duration when
    the difference does not fit.  (Neither time carries a reading of the
    monotonic clock.) *)
Definition Sub (t u : Time) : Z :=
  let d := unixNano t - unixNano u in
  if d <? minDuration then minDuration
  else if maxDuration <? d then maxDuration
  else d.

Definition isLeap (year : Z) : bool :=
  (year mod 4 =? 0) && (negb (year mod 100 =? 0) || (year mod 400 =? 0)).

(** [daysIn(m, year)] *)
Definition daysIn (month year : Z) : Z :=
  if (month =? 2) && isLeap year then 29
  else
    match month with
    | 2 => 28
    | 4 | 6 | 9 | 11 => 30
    | _ => 31
    end.

(** The four digits of [stdLongYear]. *)
Definition getyear (s : string) : option (Z * string) :=
  match s with
  | String a (String b (String c (String d rest))) =>
      if isDigit a && isDigit b && isDigit c && isDigit d
      then Some (digitVal a * 1000 + digitVal b * 100 + digitVal c * 10
                 + digitVal d, rest)
      else None
  | _ => None
  end.

(** [time.Parse("2006-01-02", s)]: a four-digit year, a two-digit month from
    01 to 12 and a two-digit day that the month has, with hyphens between
    them and nothing after.  The result is midnight UTC of that day. *)
Definition ParseDate (s : string) : option Time :=
  match getyear s with
  | None => None
  | Some (year, s1) =>
      match s1 with
      | String "-"%char s2 =>
          match getnum s2 true with
          | None => None
          | Some (month, s3) =>
              match s3 with
              | String "-"%char s4 =>
                  match getnum s4 true with
                  | None => None
                  | Some (day, s5) =>
                      match s5 with
                      | EmptyString =>
                          if (month <? 1) || (12 <? month) || (day <? 1)
                             || (daysIn month year <? day)
                          then None
                          else Some (Date year month day 0 0 0 0 UTC)
                      | String _ _ => None
                      end
                  end
              | _ => None
              end
          end
      | _ => None
      end
  end.

End GoTime.

(* ================================================================== *)
(** * Package [sort]: [sort.Slice] *)
(* ================================================================== *)

Module GoSort.

Section Pdqsort.
Context {A : Type}.
Variable less : A -> A -> bool.

(** The [lessSwap] pair of [sort.Slice]: [Less(i, j)] compares the elements
    now at [i] and [j], [Swap(i, j)] exchanges them. *)
Definition Less (data : list A) (i j : Z) : bool :=
  match data !! Z.to_nat i, data !! Z.to_nat j with
  | Some x, Some y => less x y
  | _, _ => false
  end.

Definition Swap (data : list A) (i j : Z) : list A :=
  match data !! Z.to_nat i, data !! Z.to_nat j with
  | Some x, Some y => <[Z.to_nat i := y]> (<[Z.to_nat j := x]> data)
  | _, _ => data
  end.

(** [insertionSort_func(data, a, b)] *)
Fixpoint insertionSort_inner (fuel : nat) (data : list A) (a j : Z) : list A :=
  match fuel with
  | O => data
  | S fuel' =>
      if (a <? j) && Less data j (j - 1)
      then insertionSort_inner fuel' (Swap data j (j - 1)) a (j - 1)
      else data
  end.

Fixpoint insertionSort_outer (fuel : nat) (data : list A) (a b i : Z) : list A :=
  match fuel with
  | O => data
  | S fuel' =>
      if i <? b
      then insertionSort_outer fuel'
             (insertionSort_inner (Z.to_nat (i - a)) data a i) a b (i + 1)
      else data
  end.

Definition insertionSort_func (data : list A) (a b : Z) : list A :=
  insertionSort_outer (Z.to_nat (b - a)) data a b (a + 1).

(** [siftDown_func(data, lo, hi, first)] *)
Fixpoint siftDown_loop (fuel : nat) (data : list A) (root hi first : Z) : list A :=
  match fuel with
  | O => data
  | S fuel' =>
      let child := 2 * root + 1 in
      if hi <=? child then data
      else
        let child :=
          if (child + 1 <? hi) && Less data (first + child) (first + child + 1)
          then child + 1 else child in
        if negb (Less data (first + root) (first + child)) then data
        else siftDown_loop fuel' (Swap data (first + root) (first + child))
               child hi first
  end.

Definition siftDown_func (data : list A) (lo hi first : Z) : list A :=
  siftDown_loop (Z.to_nat hi) data lo hi first.

(** [heapSort_func(data, a, b)] *)
Fixpoint heapSort_build (fuel : nat) (data : list A) (i hi first : Z) : list A :=
  match fuel with
  | O => data
  | S fuel' =>
      if 0 <=? i
      then heapSort_build fuel' (siftDown_func data i hi first) (i - 1) hi first
      else data
  end.

Fixpoint heapSort_pop (fuel : nat) (data : list A) (i lo first : Z) : list A :=
  match fuel with
  | O => data
  | S fuel' =>
      if 0 <=? i
      then heapSort_pop fuel'
             (siftDown_func (Swap data first (first + i)) lo i first)
             (i - 1) lo first
      else data
  end.

Definition heapSort_func (data : list A) (a b : Z) : list A :=
  let first := a in
  let lo := 0 in
  let hi := b - a in
  let data := heapSort_build (Z.to_nat hi) data (Z.quot (hi - 1) 2) hi first in
  heapSort_pop (Z.to_nat hi) data (hi - 1) lo first.

(** [order2_func], [median_func], [medianAdjacent_func]: they only read. *)
Definition order2_func (data : list A) (a b swaps : Z) : Z * Z * Z :=
  if Less data b a then (b, a, swaps + 1) else (a, b, swaps).

Definition median_func (data : list A) (a b c swaps : Z) : Z * Z :=
  let '(a, b, swaps) := order2_func data a b swaps in
  let '(b, c, swaps) := order2_func data b c swaps in
  let '(a, b, swaps) := order2_func data a b swaps in
  (b, swaps).

Definition medianAdjacent_func (data : list A) (a swaps : Z) : Z * Z :=
  median_func data (a - 1) a (a + 1) swaps.

Inductive sortedHint : Set := unknownHint | increasingHint | decreasingHint.

(** [choosePivot_func(data, a, b)] *)
Definition choosePivot_func (data : list A) (a b : Z) : Z * sortedHint :=
  let shortestNinther := 50 in
  let maxSwaps := 4 * 3 in
  let l := b - a in
  let swaps := 0 in
  let i := a + Z.quot l 4 * 1 in
  let j := a + Z.quot l 4 * 2 in
  let k := a + Z.quot l 4 * 3 in
  let '(j, swaps) :=
    if 8 <=? l then
      let '(i, j, k, swaps) :=
        if shortestNinther <=? l then
          let '(i, swaps) := medianAdjacent_func data i swaps in
          let '(j, swaps) := medianAdjacent_func data j swaps in
          let '(k, swaps) := medianAdjacent_func data k swaps in
          (i, j, k, swaps)
        else (i, j, k, swaps) in
      median_func data i j k swaps
    else (j, swaps) in
  if swaps =? 0 then (j, increasingHint)
  else if swaps =? maxSwaps then (j, decreasingHint)
  else (j, unknownHint).

(** [reverseRange_func(data, a, b)] *)
Fixpoint reverseRange_loop (fuel : nat) (data : list A) (i j : Z) : list A :=
  match fuel with
  | O => data
  | S fuel' =>
      if i <? j then reverseRange_loop fuel' (Swap data i j) (i + 1) (j - 1)
      else data
  end.

Definition reverseRange_func (data : list A) (a b : Z) : list A :=
  reverseRange_loop (Z.to_nat (b - a)) data a (b - 1).

(** [partialInsertionSort_func(data, a, b)] *)
Fixpoint scanInOrder (fuel : nat) (data : list A) (i b : Z) : Z :=
  match fuel with
  | O => i
  | S fuel' =>
      if (i <? b) && negb (Less data i (i - 1))
      then scanInOrder fuel' data (i + 1) b else i
  end.

Fixpoint shiftLeft (fuel : nat) (data : list A) (j : Z) : list A :=
  match fuel with
  | O => data
  | S fuel' =>
      if 1 <=? j then
        if negb (Less data j (j - 1)) then data
        else shiftLeft fuel' (Swap data j (j - 1)) (j - 1)
      else data
  end.

Fixpoint shiftRight (fuel : nat) (data : list A) (j b : Z) : list A :=
  match fuel with
  | O => data
  | S fuel' =>
      if j <? b then
        if negb (Less data j (j - 1)) then data
        else shiftRight fuel' (Swap data j (j - 1)) (j + 1) b
      else data
  end.

Fixpoint partialInsertionSort_steps (steps : nat) (data : list A) (a b i : Z)
  : list A * bool :=
  match steps with
  | O => (data, false)
  | S steps' =>
      let shortestShifting := 50 in
      let i := scanInOrder (Z.to_nat (b - i)) data i b in
      if i =? b then (data, true)
      else if b - a <? shortestShifting then (data, false)
      else
        let data := Swap data i (i - 1) in
        let data :=
          if 2 <=? i - a then shiftLeft (Z.to_nat i) data (i - 1) else data in
        let data :=
          if 2 <=? b - i then shiftRight (Z.to_nat (b - i)) data (i + 1) b
          else data in
        partialInsertionSort_steps steps' data a b i
  end.

Definition partialInsertionSort_func (data : list A) (a b : Z) : list A * bool :=
  let maxSteps := 5%nat in
  partialInsertionSort_steps maxSteps data a b (a + 1).

(** [partition_func(data, a, b, pivot)] *)
Fixpoint skipLess (fuel : nat) (data : list A) (a i j : Z) : Z :=
  match fuel with
  | O => i
  | S fuel' =>
      if (i <=? j) && Less data i a then skipLess fuel' data a (i + 1) j else i
  end.

Fixpoint skipNotLess (fuel : nat) (data : list A) (a i j : Z) : Z :=
  match fuel with
  | O => j
  | S fuel' =>
      if (i <=? j) && negb (Less data j a)
      then skipNotLess fuel' data a i (j - 1) else j
  end.

Fixpoint partition_loop (fuel : nat) (data : list A) (a i j : Z) : list A * Z :=
  match fuel with
  | O => (data, j)
  | S fuel' =>
      let i := skipLess (Z.to_nat (j + 1 - i)) data a i j in
      let j := skipNotLess (Z.to_nat (j + 1 - i)) data a i j in
      if j <? i then (data, j)
      else partition_loop fuel' (Swap data i j) a (i + 1) (j - 1)
  end.

Definition partition_func (data : list A) (a b pivot : Z) : list A * Z * bool :=
  let data := Swap data a pivot in
  let i := a + 1 in
  let j := b - 1 in
  let i := skipLess (Z.to_nat (j + 1 - i)) data a i j in
  let j := skipNotLess (Z.to_nat (j + 1 - i)) data a i j in
  if j <? i then (Swap data j a, j, true)
  else
    let data := Swap data i j in
    let '(data, j) := partition_loop (Z.to_nat (b - a)) data a (i + 1) (j - 1) in
    (Swap data j a, j, false).

(** [partitionEqual_func(data, a, b, pivot)] *)
Fixpoint skipNotGreater (fuel : nat) (data : list A) (a i j : Z) : Z :=
  match fuel with
  | O => i
  | S fuel' =>
      if (i <=? j) && negb (Less data a i)
      then skipNotGreater fuel' data a (i + 1) j else i
  end.

Fixpoint skipGreater (fuel : nat) (data : list A) (a i j : Z) : Z :=
  match fuel with
  | O => j
  | S fuel' =>
      if (i <=? j) && Less data a j then skipGreater fuel' data a i (j - 1) else j
  end.

Fixpoint partitionEqual_loop (fuel : nat) (data : list A) (a i j : Z) : list A * Z :=
  match fuel with
  | O => (data, i)
  | S fuel' =>
      let i := skipNotGreater (Z.to_nat (j + 1 - i)) data a i j in
      let j := skipGreater (Z.to_nat (j + 1 - i)) data a i j in
      if j <? i then (data, i)
      else partitionEqual_loop fuel' (Swap data i j) a (i + 1) (j - 1)
  end.

Definition partitionEqual_func (data : list A) (a b pivot : Z) : list A * Z :=
  let data := Swap data a pivot in
  partitionEqual_loop (S (Z.to_nat (b - a))) data a (a + 1) (b - 1).

(** [bits.Len(uint(n))] for [n >= 0] *)
Definition bitsLen (n : Z) : Z := if n <=? 0 then 0 else Z.log2 n + 1.

(** [xorshift.Next] on [uint64] *)
Definition uint64 (x : Z) : Z := x mod 2 ^ 64.

Definition xorshiftNext (r : Z) : Z :=
  let r := Z.lxor r (uint64 (Z.shiftl r 13)) in
  let r := Z.lxor r (Z.shiftr r 7) in
  let r := Z.lxor r (uint64 (Z.shiftl r 17)) in
  r.

Definition nextPowerOfTwo (length : Z) : Z := Z.shiftl 1 (bitsLen length).

(** [breakPatterns_func(data, a, b)] *)
Fixpoint breakPatterns_loop (n : nat) (data : list A) (a length idx i random modulus : Z)
  : list A :=
  match n with
  | O => data
  | S n' =>
      let random := xorshiftNext random in
      let other := Z.land random (modulus - 1) in
      let other := if length <=? other then other - length else other in
      breakPatterns_loop n' (Swap data (idx - 1 + i) (a + other))
        a length idx (i + 1) random modulus
  end.

Definition breakPatterns_func (data : list A) (a b : Z) : list A :=
  let length := b - a in
  if 8 <=? length then
    let random := length in
    let modulus := nextPowerOfTwo length in
    let idx := a + Z.quot length 4 * 2 - 1 in
    breakPatterns_loop 3 data a length idx 0 random modulus
  else data.

(** [pdqsort_func(data, a, b, limit)].  One unit of fuel is one round of
    its loop or one recursive call; every round shrinks [b - a], so
    [b - a + 1] units are never used up. *)
Fixpoint pdqsort_loop (fuel : nat) (data : list A) (a b limit : Z)
  (wasBalanced wasPartitioned : bool) : list A :=
  match fuel with
  | O => data
  | S fuel' =>
      let maxInsertion := 12 in
      let length := b - a in
      if length <=? maxInsertion then insertionSort_func data a b
      else if limit =? 0 then heapSort_func data a b
      else
        let '(data, limit) :=
          if negb wasBalanced then (breakPatterns_func data a b, limit - 1)
          else (data, limit) in
        let '(pivot, hint) := choosePivot_func data a b in
        let '(data, pivot, hint) :=
          match hint with
          | decreasingHint =>
              (reverseRange_func data a b, (b - 1) - (pivot - a), increasingHint)
          | _ => (data, pivot, hint)
          end in
        let '(data, done) :=
          match hint with
          | increasingHint =>
              if wasBalanced && wasPartitioned
              then partialInsertionSort_func data a b
              else (data, false)
          | _ => (data, false)
          end in
        if done then data
        else if (0 <? a) && negb (Less data (a - 1) pivot) then
          let '(data, mid) := partitionEqual_func data a b pivot in
          pdqsort_loop fuel' data mid b limit wasBalanced wasPartitioned
        else
          let '(data, mid, alreadyPartitioned) := partition_func data a b pivot in
          let wasPartitioned := alreadyPartitioned in
          let leftLen := mid - a in
          let rightLen := b - mid in
          let balanceThreshold := Z.quot length 8 in
          if leftLen <? rightLen then
            let wasBalanced := balanceThreshold <=? leftLen in
            let data := pdqsort_loop fuel' data a mid limit true true in
            pdqsort_loop fuel' data (mid + 1) b limit wasBalanced wasPartitioned
          else
            let wasBalanced := balanceThreshold <=? rightLen in
            let data := pdqsort_loop fuel' data (mid + 1) b limit true true in
            pdqsort_loop fuel' data a mid limit wasBalanced wasPartitioned
  end.

Definition pdqsort_func (data : list A) (a b limit : Z) : list A :=
  pdqsort_loop (S (Z.to_nat (b - a))) data a b limit true true.

(** [sort.Slice(x, less)] *)
Definition Slice (x : list A) : list A :=
  let length := Z.of_nat (List.length x) in
  let limit := bitsLen length in
  pdqsort_func x 0 length limit.

End Pdqsort.

End GoSort.

(* ================================================================== *)
(** * The contract of [sort.Slice] *)
(* ================================================================== *)

(** What the documentation of package [sort] asks of [less] on the elements
    being sorted: a strict weak ordering. *)
Definition StrictWeakOn {A : Type} (less : A -> A -> bool) (l : list A) : Prop :=
  (forall x, In x l -> less x x = false)
  /\ (forall x y z, In x l -> In y l -> In z l ->
        less x y = true -> less y z = true -> less x z = true)
  /\ (forall x y z, In x l -> In y l -> In z l ->
        less x y = false -> less y z = false -> less x z = false).

(** No element is strictly less than one before it. *)
Definition SortedBy {A : Type} (less : A -> A -> bool) (l : list A) : Prop :=
  StronglySorted (fun x y => less y x = false) l.

Definition SliceSorter : Type :=
  forall A : Type, (A -> A -> bool) -> list A -> list A.

(** The slice is rearranged, never changed otherwise. *)
Definition SortPermutes (sortSlice : SliceSorter) : Prop :=
  forall (A : Type) (less : A -> A -> bool) (l : list A),
    Permutation (sortSlice A less l) l.

(** The slice comes out in the order of [less], when [less] is a strict weak
    ordering on it.  Nothing is promised about elements that [less] does not
    tell apart: "The sort is not guaranteed to be stable". *)
Definition SortOrders (sortSlice : SliceSorter) : Prop :=
  forall (A : Type) (less : A -> A -> bool) (l : list A),
    StrictWeakOn less l -> SortedBy less (sortSlice A less l).

Definition SortSliceSpec (sortSlice : SliceSorter) : Prop :=
  SortPermutes sortSlice /\ SortOrders sortSlice.

(** The library routine as a [SliceSorter]. *)
Definition goSortSlice : SliceSorter := fun A less l => GoSort.Slice less l.

(** A reference sorter that meets the contract: insertion from the right,
    each element put before the first one that is not strictly less. *)
Fixpoint insertBefore {A : Type} (less : A -> A -> bool) (x : A) (l : list A)
  : list A :=
  match l with
  | [] => [x]
  | y :: r => if less y x then y :: insertBefore less x r else x :: y :: r
  end.

Fixpoint insertionSorted {A : Type} (less : A -> A -> bool) (l : list A) : list A :=
  match l with
  | [] => []
  | x :: r => insertBefore less x (insertionSorted less r)
  end.

Definition refSortSlice : SliceSorter := @insertionSorted.

(* ================================================================== *)
(** * [types.go] *)
(* ================================================================== *)

Import F64 GoTime.

Inductive result (E A : Type) : Type :=
  | Ok (a : A)
  | Err (e : E).
Arguments Ok {E A} a.
Arguments Err {E A} e.

(** A 30-minute electricity pricing period. *)
Record PriceSlot : Set := mkPriceSlot {
  slot_Start : Time;
  slot_End : Time;
  slot_PencePerKWh : float64;
  slot_IncludesVAT : bool
}.

(** Daily weather summary. *)
Record WeatherForecast : Set := mkWeatherForecast {
  wf_Date : Time;
  wf_SunshineHours : float64;
  wf_MaxTempC : float64;
  wf_MinTempC : float64;
  wf_PrecipProb : float64;
  wf_IsSunny : bool
}.

(** A time range with optional day-of-week filtering: [Start] and [End] in
    HH:mm format, days 1 = Monday ... 7 = Sunday, empty = all days. *)
Record TimeWindow : Set := mkTimeWindow {
  tw_Start : string;
  tw_End : string;
  tw_DaysOfWeek : list Z
}.

Record Constraints : Set := mkConstraints {
  c_Allowed : list TimeWindow;
  c_Blocked : list TimeWindow;
  c_QuietHours : list TimeWindow;
  c_FinishBy : option Time;
  c_StartBy : option Time;
  c_PriceCapPence : option float64;
  c_NoiseLevel : Z
}.

Record Options : Set := mkOptions {
  o_EstKWh : float64;
  o_CarbonWeight : float64;
  o_PVWeight : float64
}.

(** The [Reason] of a Recommendation: the empty string, or one of the four
    texts of [generateReason] with the percentage it prints. *)
Inductive Reason : Set :=
  | NoReason
  | ExcellentPrice (percent : float64)
  | GoodPrice (percent : float64)
  | ModeratePricing
  | HigherPrice (percent : float64).

(** A suggested start window. *)
Record Recommendation : Set := mkRecommendation {
  rec_Start : Time;
  rec_End : Time;
  rec_CostGBP : float64;
  rec_Reason : Reason;
  rec_Score : float64
}.

(** The human-readable recommendation of an option: one of the three
    sentences of [smart.go], with the clock times and amounts it prints. *)
Inductive OptionText : Set :=
  | BestTimeText (start finish : string)
  | TumbleDryText (start finish dryEnd : string) (total : float64)
  | LineDryText (start finish : string) (cost savings : float64).

(** One possible scheduling option. *)
Record RecommendationOption : Set := mkRecommendationOption {
  ro_Day : string;
  ro_Date : Time;
  ro_PrimarySlot : Recommendation;
  ro_CoupledSlot : option Recommendation;
  ro_TotalCostGBP : float64;
  ro_Weather : option WeatherForecast;
  ro_UsesNaturalDry : bool;
  ro_SavingsVsToday : float64;
  ro_Recommendation : OptionText
}.

Record SmartRecommendation : Set := mkSmartRecommendation {
  sr_ApplianceName : string;
  sr_Options : list RecommendationOption;
  sr_BestOptionIndex : Z
}.

Definition ControlType : Set := string.
Definition ControlManual : ControlType := "manual".
Definition ControlSmart : ControlType := "smart".

Definition UsageFrequency : Set := string.
Definition FrequencyDaily : UsageFrequency := "daily".
Definition Frequency3xWeek : UsageFrequency := "3x_week".
Definition FrequencyWeekly : UsageFrequency := "weekly".
Definition FrequencyOnDemand : UsageFrequency := "on_demand".

Definition ApplianceClass : Set := string.
Definition ClassStandalone : ApplianceClass := "standalone".
Definition ClassCoupled : ApplianceClass := "coupled".
Definition ClassWeatherDependent : ApplianceClass := "weather_dependent".

Record Appliance : Set := mkAppliance {
  a_ID : string;
  a_Name : string;
  a_CycleMinutes : Z;
  a_ToleranceMinutes : Z;
  a_AllowedWindows : list TimeWindow;
  a_BlockedWindows : list TimeWindow;
  a_FinishBy : option Time;
  a_StartBy : option Time;
  a_NoiseLevel : Z;
  a_PriceCapPencePerKWh : option float64;
  a_Priority : Z;
  a_EstKWh : float64;
  a_Enabled : bool;
  a_ControlType : ControlType;
  a_UsageFrequency : UsageFrequency;
  a_Class : ApplianceClass;
  a_CoupledApplianceID : string;
  a_CanWaitDays : Z
}.

Record Household : Set := mkHousehold {
  h_ID : string;
  h_Name : string;
  h_Region : string;
  h_Latitude : float64;
  h_Longitude : float64;
  h_QuietHours : list TimeWindow;
  h_BlockedWindows : list TimeWindow;
  h_AvailableHours : list TimeWindow;
  h_StaggerHeavyLoads : bool;
  h_CarbonWeight : float64
}.

(** Weather conditions at a point in time. *)
Record WeatherSlot : Set := mkWeatherSlot {
  ws_Time : Time;
  ws_TempC : float64;
  ws_Humidity : float64;
  ws_WindMps : float64;
  ws_PrecipProb : float64
}.

(* ================================================================== *)
(** * [engine.go] *)
(* ================================================================== *)

Inductive EngineError : Set := ErrNoFeasibleSlots | ErrInvalidInput.

(** [parseTimeOfDay] parses HH:mm format. *)
Definition parseTimeOfDay (s : string) : option Time := ParseClock s.

(** [matchesTimeWindow] checks if a time matches a specific time window. *)
Definition matchesTimeWindow (t : Time) (window : TimeWindow) : bool :=
  let dayOk :=
    if (0 <? length (tw_DaysOfWeek window))%nat then
      let weekday := Weekday t in
      let weekday := if weekday =? 0 then 7 else weekday in
      existsb (fun d => d =? weekday) (tw_DaysOfWeek window)
    else true in
  if negb dayOk then false
  else
    match parseTimeOfDay (tw_Start window) with
    | None => false
    | Some startTime =>
        match parseTimeOfDay (tw_End window) with
        | None => false
        | Some endTime =>
            let todayStart :=
              Date (Year t) (Month t) (Day t)
                   (HourOf startTime) (MinuteOf startTime) 0 0 (zoneOffset t) in
            let todayEnd :=
              Date (Year t) (Month t) (Day t)
                   (HourOf endTime) (MinuteOf endTime) 0 0 (zoneOffset t) in
            let todayEnd :=
              if Before todayEnd todayStart then Add todayEnd (24 * Hour)
              else todayEnd in
            (Equal t todayStart || After t todayStart) && Before t todayEnd
        end
    end.

(** [isInTimeWindows] checks if a time falls within any of the windows. *)
Fixpoint isInTimeWindows (t : Time) (windows : list TimeWindow) : bool :=
  match windows with
  | [] => false
  | w :: rest => if matchesTimeWindow t w then true else isInTimeWindows t rest
  end.

(** [filterByConstraints] returns only slots that meet all constraints:
    one round of the loop per slot, each [continue] a skipped slot. *)
Fixpoint filterByConstraints (slots : list PriceSlot) (c : Constraints)
  : list PriceSlot :=
  match slots with
  | [] => []
  | slot :: rest =>
      if match c_PriceCapPence c with
         | Some cap => gt (slot_PencePerKWh slot) cap
         | None => false
         end
      then filterByConstraints rest c
      else if (0 <? length (c_Allowed c))%nat
              && negb (isInTimeWindows (slot_Start slot) (c_Allowed c))
      then filterByConstraints rest c
      else if (0 <? length (c_Blocked c))%nat
              && isInTimeWindows (slot_Start slot) (c_Blocked c)
      then filterByConstraints rest c
      else if (3 <=? c_NoiseLevel c) && (0 <? length (c_QuietHours c))%nat
              && isInTimeWindows (slot_Start slot) (c_QuietHours c)
      then filterByConstraints rest c
      else if match c_StartBy c with
              | Some startBy => After (slot_Start slot) startBy
              | None => false
              end
      then filterByConstraints rest c
      else if match c_FinishBy c with
              | Some finishBy => After (slot_End slot) finishBy
              | None => false
              end
      then filterByConstraints rest c
      else slot :: filterByConstraints rest c
  end.

(** [isContiguous] verifies that slots are continuous 30-minute periods. *)
Fixpoint isContiguous (slots : list PriceSlot) : bool :=
  match slots with
  | prev :: ((cur :: _) as rest) =>
      if negb (Equal (slot_Start cur) (slot_End prev)) then false
      else isContiguous rest
  | _ => true
  end.

(** [int(math.Ceil(float64(runMinutes) / 30.0))], the number of contiguous
    30-minute slots needed.  The model takes the exact ceiling of the
    quotient.  Below 30 * 2^48 minutes the binary64 quotient is less than a
    thirtieth away from the exact one and its ceiling is the exact ceiling
    ([requiredSlotsFloat], the binary64 computation read back through its
    specification float, is compared on every run length up to 2000 minutes
    in [requiredSlots_agrees]); from there on both counts exceed the length
    of any slice, and [BestWindows] fails for lack of feasible slots either
    way. *)
Definition requiredSlotsFor (runMinutes : Z) : Z := (runMinutes + 29) / 30.

Definition ceilOfFloat (f : float64) : option Z :=
  match Prim2SF f with
  | S754_zero _ => Some 0
  | S754_finite s m e =>
      let v := if s then Zneg m else Zpos m in
      Some (if 0 <=? e then v * 2 ^ e else - ((- v) / 2 ^ (- e)))
  | _ => None
  end.

Definition requiredSlotsFloat (runMinutes : Z) : option Z :=
  ceilOfFloat (PrimFloat.div (of_int runMinutes) 30%float).

Section Engine.

(** The sorting routine of package [sort] the engine is linked with. *)
Variable sortSlice : SliceSorter.

(** [Float64Slice.Less]: ascending, not-a-number values first. *)
Definition float64Less (x y : float64) : bool :=
  lt x y || (isNaN x && negb (isNaN y)).

(** [sort.Float64s(x)] sorts with that order. *)
Definition sortFloat64s (x : list float64) : list float64 :=
  sortSlice float64 float64Less x.

(** The percentile loop of [generateReason]: at the first price, in
    position [i], that the average does not exceed. *)
Fixpoint percentileOf (allPrices : list float64) (avgPence : float64)
  (i count : Z) : float64 :=
  match allPrices with
  | [] => 0%float
  | p :: rest =>
      if le avgPence p then PrimFloat.div (of_int i) (of_int count)
      else percentileOf rest avgPence (i + 1) count
  end.

(** [generateReason] creates a human-readable explanation. *)
Definition generateReason (window : list PriceSlot) (totalPence : float64)
  (allSlots : list PriceSlot) : Reason :=
  let allPrices := sortFloat64s (map slot_PencePerKWh allSlots) in
  let avgPence := PrimFloat.div totalPence (of_int (Z.of_nat (length window))) in
  let percentile :=
    percentileOf allPrices avgPence 0 (Z.of_nat (length allPrices)) in
  if lt percentile 0.2%float
  then ExcellentPrice (PrimFloat.mul percentile 100%float)
  else if lt percentile 0.4%float
  then GoodPrice (PrimFloat.mul percentile 100%float)
  else if lt percentile 0.6%float then ModeratePricing
  else HigherPrice (PrimFloat.mul percentile 100%float).

(** The cost loop of [BestWindows]: [totalPence += slot.PencePerKWh *
    (opts.EstKWh / float64(requiredSlots))] over the window. *)
Definition windowTotalPence (window : list PriceSlot) (opts : Options)
  (requiredSlots : Z) : float64 :=
  fold_left
    (fun totalPence slot =>
       PrimFloat.add totalPence
         (PrimFloat.mul (slot_PencePerKWh slot)
            (PrimFloat.div (o_EstKWh opts) (of_int requiredSlots))))
    window 0%float.

(** The candidate loop of [BestWindows], at [i = len(feasible) - len(rest)]:
    [rest] is [feasible[i:]], the window is [feasible[i:i+requiredSlots]].
    With [requiredSlots >= 1] a window is never empty, so the branch for an
    empty window is never taken. *)
Fixpoint scanWindows (slots rest : list PriceSlot) (opts : Options)
  (requiredSlots : Z) : list Recommendation :=
  match rest with
  | [] => []
  | _ :: tail =>
      if requiredSlots <=? Z.of_nat (length rest) then
        let window := firstn (Z.to_nat requiredSlots) rest in
        if negb (isContiguous window)
        then scanWindows slots tail opts requiredSlots
        else
          let totalPence := windowTotalPence window opts requiredSlots in
          let costGBP := PrimFloat.div totalPence 100%float in
          let score := totalPence in
          match window, last window with
          | first :: _, Some final =>
              mkRecommendation (slot_Start first) (slot_End final) costGBP
                (generateReason window totalPence slots) score
                :: scanWindows slots tail opts requiredSlots
          | _, _ => scanWindows slots tail opts requiredSlots
          end
      else []
  end.

Definition lessByScore (x y : Recommendation) : bool :=
  lt (rec_Score x) (rec_Score y).

(** [BestWindows] finds the top N optimal start windows for an appliance
    given price slots and constraints. *)
Definition BestWindows (slots : list PriceSlot) (runMinutes : Z)
  (constraints : Constraints) (opts : Options) (topN : Z)
  : result EngineError (list Recommendation) :=
  if (length slots =? 0)%nat then Err ErrInvalidInput
  else if runMinutes <=? 0 then Err ErrInvalidInput
  else
    let topN := if topN <=? 0 then 3 else topN in
    let requiredSlots := requiredSlotsFor runMinutes in
    let feasible := filterByConstraints slots constraints in
    if Z.of_nat (length feasible) <? requiredSlots then Err ErrNoFeasibleSlots
    else
      let candidates := scanWindows slots feasible opts requiredSlots in
      if (length candidates =? 0)%nat then Err ErrNoFeasibleSlots
      else
        let candidates := sortSlice Recommendation lessByScore candidates in
        let candidates :=
          if topN <? Z.of_nat (length candidates)
          then firstn (Z.to_nat topN) candidates else candidates in
        Ok candidates.

End Engine.

(* ================================================================== *)
(** * [practical.go] *)
(* ================================================================== *)

(** The assignment [constraints.Allowed = ...] through the pointer. *)
Definition set_Allowed (c : Constraints) (allowed : list TimeWindow) : Constraints :=
  mkConstraints allowed (c_Blocked c) (c_QuietHours c) (c_FinishBy c)
    (c_StartBy c) (c_PriceCapPence c) (c_NoiseLevel c).

Definition defaultAvailable : list TimeWindow :=
  [mkTimeWindow "07:00" "23:30" [1; 2; 3; 4; 5; 6; 7]].

(** [ApplyPracticalConstraints] adjusts constraints based on appliance
    control type; the result is the value [*constraints] holds on return. *)
Definition ApplyPracticalConstraints (appliance : Appliance)
  (household : Household) (constraints : Constraints) : Constraints :=
  if String.eqb (a_ControlType appliance) ControlManual then
    if (0 <? length (h_AvailableHours household))%nat
    then set_Allowed constraints (h_AvailableHours household)
    else set_Allowed constraints defaultAvailable
  else constraints.

(** [ShouldShowRecommendation] *)
Definition ShouldShowRecommendation (appliance : Appliance)
  (lastRunDate currentDate : string) : bool :=
  if String.eqb (a_UsageFrequency appliance) FrequencyDaily then true
  else if String.eqb (a_UsageFrequency appliance) Frequency3xWeek then true
  else if String.eqb (a_UsageFrequency appliance) FrequencyWeekly then true
  else if String.eqb (a_UsageFrequency appliance) FrequencyOnDemand then false
  else false.

(* ================================================================== *)
(** * [smart.go] *)
(* ================================================================== *)

(** The wall clock: [clock k] is what the [k]-th call of [time.Now()]
    during one invocation returns. *)
Definition Clock : Set := nat -> Time.

(** The errors of [smart.go] are [fmt.Errorf] messages. *)
Definition SmartError : Set := string.

(** [int64] wrap-around, for [time.Duration(minutes) * time.Minute]. *)
Definition wrapInt64 (z : Z) : Z := (z + 2 ^ 63) mod 2 ^ 64 - 2 ^ 63.

(** The slot test of [estimateCost]:
    [(p.Start.Equal(start) || p.Start.After(start)) && p.Start.Before(end)] *)
Definition startsWithin (p : PriceSlot) (start end_ : Time) : bool :=
  (Equal (slot_Start p) start || After (slot_Start p) start)
  && Before (slot_Start p) end_.

Fixpoint countMatching (prices : list PriceSlot) (start end_ : Time) (slots : Z) : Z :=
  match prices with
  | [] => slots
  | p :: rest =>
      if startsWithin p start end_ then countMatching rest start end_ (slots + 1)
      else countMatching rest start end_ slots
  end.

Fixpoint sumMatching (prices : list PriceSlot) (start end_ : Time)
  (kwhPerSlot totalCostPence : float64) : float64 :=
  match prices with
  | [] => totalCostPence
  | p :: rest =>
      if startsWithin p start end_
      then sumMatching rest start end_ kwhPerSlot
             (PrimFloat.add totalCostPence
                (PrimFloat.mul (slot_PencePerKWh p) kwhPerSlot))
      else sumMatching rest start end_ kwhPerSlot totalCostPence
  end.

(** [estimateCost] *)
Definition estimateCost (prices : list PriceSlot) (start end_ : Time)
  (kwh : float64) : float64 :=
  let slots := countMatching prices start end_ 0 in
  if slots =? 0 then 0%float
  else
    let kwhPerSlot := PrimFloat.div kwh (of_int slots) in
    let totalCostPence := sumMatching prices start end_ kwhPerSlot 0%float in
    PrimFloat.div totalCostPence 100%float.

(** [getDayName]; its own reading of the clock is passed in. *)
Definition getDayName (now : Time) (dayOffset : Z) : string :=
  match dayOffset with
  | 0 => "Today"
  | 1 => "Tomorrow"
  | _ => FormatWeekday (AddDate now 0 0 dayOffset)
  end.

(** [options[i].TotalCostGBP] *)
Definition totalCostAt (options : list RecommendationOption) (i : Z) : float64 :=
  match options !! Z.to_nat i with
  | Some o => ro_TotalCostGBP o
  | None => 0%float
  end.

(** The loop that finds the best option (lowest cost), from index [i] on. *)
Fixpoint bestOptionLoop (fuel : nat) (options : list RecommendationOption)
  (i bestIdx : Z) : Z :=
  match fuel with
  | O => bestIdx
  | S fuel' =>
      if i <? Z.of_nat (length options) then
        if lt (totalCostAt options i) (totalCostAt options bestIdx)
        then bestOptionLoop fuel' options (i + 1) i
        else bestOptionLoop fuel' options (i + 1) bestIdx
      else bestIdx
  end.

Definition bestOptionIndex (options : list RecommendationOption) : Z :=
  bestOptionLoop (length options) options 1 0.

Section Smart.

Variable sortSlice : SliceSorter.

(** The zone [time.Local] of the process: its offset from UTC. *)
Variable localZone : Z.

(** [generateStandaloneRecommendation] *)
Definition generateStandaloneRecommendation (clock : Clock)
  (appliance : Appliance) (pricesByDay : gmap string (list PriceSlot))
  (household : Household) (constraints : Constraints) (opts : Options)
  : result SmartError SmartRecommendation :=
  let today := FormatDate (clock 0%nat) in
  let options :=
    match pricesByDay !! today with
    | Some prices =>
        match BestWindows sortSlice prices (a_CycleMinutes appliance)
                constraints opts 1 with
        | Ok (rec0 :: _) =>
            [mkRecommendationOption "Today" (rec_Start rec0) rec0 None
               (rec_CostGBP rec0) None false 0%float
               (BestTimeText (FormatClock (rec_Start rec0))
                  (FormatClock (rec_End rec0)))]
        | _ => []
        end
    | None => []
    end in
  if (length options =? 0)%nat then Err "no feasible slots found"%string
  else Ok (mkSmartRecommendation (a_Name appliance) options 0).

(** One round of the day loop of [generateCoupledRecommendation]: the
    options after the round for [dayOffset]. *)
Definition coupledDay (clock : Clock) (washer : Appliance) (dryer : option Appliance)
  (pricesByDay : gmap string (list PriceSlot))
  (weatherByDay : gmap string WeatherForecast)
  (washerConstraints : Constraints) (washerOpts : Options)
  (options : list RecommendationOption) (dayOffset : Z)
  : list RecommendationOption :=
  let now := clock 0%nat in
  let checkDate := AddDate now 0 0 dayOffset in
  let dateStr := FormatDate checkDate in
  match pricesByDay !! dateStr with
  | None => options
  | Some prices =>
      match BestWindows sortSlice prices (a_CycleMinutes washer)
              washerConstraints washerOpts 1 with
      | Ok (washerSlot :: _) =>
          let dayName := getDayName (clock 1%nat) dayOffset in
          let weather := weatherByDay !! dateStr in
          (* Option 1: tumble dry *)
          let options :=
            match dryer with
            | Some dryer =>
                let dryerStart := rec_End washerSlot in
                let dryerEnd :=
                  Add dryerStart (wrapInt64 (a_CycleMinutes dryer * Minute)) in
                let dryerCost :=
                  estimateCost prices dryerStart dryerEnd (a_EstKWh dryer) in
                let totalCost := PrimFloat.add (rec_CostGBP washerSlot) dryerCost in
                let savings :=
                  match options with
                  | first :: _ => PrimFloat.sub (ro_TotalCostGBP first) totalCost
                  | [] => 0%float
                  end in
                options ++
                  [mkRecommendationOption dayName checkDate washerSlot
                     (Some (mkRecommendation dryerStart dryerEnd dryerCost
                              NoReason 0%float))
                     totalCost weather false savings
                     (TumbleDryText
                        (FormatClock (Local localZone (rec_Start washerSlot)))
                        (FormatClock (Local localZone (rec_End washerSlot)))
                        (FormatClock (Local localZone dryerEnd)) totalCost)]
            | None => options
            end in
          (* Option 2: line dry *)
          match weather, dryer with
          | Some w, Some dryer =>
              if wf_IsSunny w && String.eqb (a_Class dryer) ClassWeatherDependent
              then
                let savings :=
                  match options with
                  | first :: _ =>
                      PrimFloat.sub (ro_TotalCostGBP first) (rec_CostGBP washerSlot)
                  | [] => 0%float
                  end in
                options ++
                  [mkRecommendationOption dayName checkDate washerSlot None
                     (rec_CostGBP washerSlot) weather true savings
                     (LineDryText
                        (FormatClock (Local localZone (rec_Start washerSlot)))
                        (FormatClock (Local localZone (rec_End washerSlot)))
                        (rec_CostGBP washerSlot) savings)]
              else options
          | _, _ => options
          end
      | _ => options
      end
  end.

Fixpoint coupledDays (rounds : nat) (clock : Clock) (washer : Appliance)
  (dryer : option Appliance) (pricesByDay : gmap string (list PriceSlot))
  (weatherByDay : gmap string WeatherForecast)
  (washerConstraints : Constraints) (washerOpts : Options)
  (options : list RecommendationOption) (dayOffset : Z)
  : list RecommendationOption :=
  match rounds with
  | O => options
  | S rounds' =>
      coupledDays rounds' clock washer dryer pricesByDay weatherByDay
        washerConstraints washerOpts
        (coupledDay clock washer dryer pricesByDay weatherByDay
           washerConstraints washerOpts options dayOffset)
        (dayOffset + 1)
  end.

(** [daysToCheck]: at least today, at most 3 days. *)
Definition daysToCheckOf (washer : Appliance) : Z :=
  let daysToCheck := a_CanWaitDays washer in
  let daysToCheck := if daysToCheck =? 0 then 1 else daysToCheck in
  if 3 <? daysToCheck then 3 else daysToCheck.

(** [generateCoupledRecommendation].  The weather map holds a forecast (a
    non-nil pointer) for each of its keys. *)
Definition generateCoupledRecommendation (clock : Clock)
  (washer : Appliance) (dryer : option Appliance)
  (pricesByDay : gmap string (list PriceSlot))
  (weatherByDay : gmap string WeatherForecast)
  (household : Household) (washerConstraints : Constraints) (washerOpts : Options)
  : result SmartError SmartRecommendation :=
  let options :=
    coupledDays (Z.to_nat (daysToCheckOf washer)) clock washer dryer
      pricesByDay weatherByDay washerConstraints washerOpts [] 0 in
  if (length options =? 0)%nat then Err "no feasible options found"%string
  else Ok (mkSmartRecommendation (a_Name washer) options (bestOptionIndex options)).

(** [GenerateSmartRecommendations] *)
Definition GenerateSmartRecommendations (clock : Clock)
  (appliance : Appliance) (coupledAppliance : option Appliance)
  (pricesByDay : gmap string (list PriceSlot))
  (weatherByDay : gmap string WeatherForecast)
  (household : Household) (constraints : Constraints) (opts : Options)
  : result SmartError SmartRecommendation :=
  if String.eqb (a_Class appliance) ClassStandalone then
    generateStandaloneRecommendation clock appliance pricesByDay household
      constraints opts
  else
    match coupledAppliance with
    | Some dryer =>
        if String.eqb (a_Class appliance) ClassCoupled then
          generateCoupledRecommendation clock appliance (Some dryer) pricesByDay
            weatherByDay household constraints opts
        else Err "unsupported appliance class or missing coupled appliance"%string
    | None => Err "unsupported appliance class or missing coupled appliance"%string
    end.

End Smart.

(* ================================================================== *)
(** * [prices/octopus.go] *)
(* ================================================================== *)

(** The inner loop of [sortSlotsByTime], from [j] on, in pass [i]:
    [if slots[j].Start.After(slots[j+1].Start)] the two are exchanged. *)
Fixpoint sortSlotsByTime_inner (fuel : nat) (slots : list PriceSlot) (i j : Z)
  : list PriceSlot :=
  match fuel with
  | O => slots
  | S fuel' =>
      if j <? Z.of_nat (length slots) - i - 1 then
        let slots :=
          match slots !! Z.to_nat j, slots !! Z.to_nat (j + 1) with
          | Some a, Some b =>
              if After (slot_Start a) (slot_Start b)
              then GoSort.Swap slots j (j + 1)
              else slots
          | _, _ => slots
          end in
        sortSlotsByTime_inner fuel' slots i (j + 1)
      else slots
  end.

(** Its outer loop, from [i] on. *)
Fixpoint sortSlotsByTime_outer (fuel : nat) (slots : list PriceSlot) (i : Z)
  : list PriceSlot :=
  match fuel with
  | O => slots
  | S fuel' =>
      if i <? Z.of_nat (length slots) - 1 then
        sortSlotsByTime_outer fuel'
          (sortSlotsByTime_inner (length slots) slots i 0) (i + 1)
      else slots
  end.

(** [sortSlotsByTime] sorts price slots in ascending time order ("simple
    bubble sort"); the result is the slice after the call. *)
Definition sortSlotsByTime (slots : list PriceSlot) : list PriceSlot :=
  sortSlotsByTime_outer (length slots) slots 0.

(* ================================================================== *)
(** * [weather/openmeteo.go] *)
(* ================================================================== *)

(** [absDuration]; the negation is that of an [int64]. *)
Definition absDuration (d : Z) : Z :=
  if d <? 0 then wrapInt64 (- d) else d.

(** The loop of [GetWeatherForTime] over [slots[i:]]. *)
Fixpoint closestLoop (rest : list WeatherSlot) (t : Time)
  (i closest minDiff : Z) : Z :=
  match rest with
  | [] => closest
  | slot :: rest' =>
      let diff := absDuration (Sub (ws_Time slot) t) in
      if diff <? minDiff then closestLoop rest' t (i + 1) i diff
      else closestLoop rest' t (i + 1) closest minDiff
  end.

(** [GetWeatherForTime] finds the weather slot closest to a given time;
    [None] is the nil pointer. *)
Definition GetWeatherForTime (slots : list WeatherSlot) (t : Time)
  : option WeatherSlot :=
  match slots with
  | [] => None
  | first :: rest =>
      let closest :=
        closestLoop rest t 1 0 (absDuration (Sub (ws_Time first) t)) in
      slots !! Z.to_nat closest
  end.

(* ================================================================== *)
(** * Package [weather]: the daily forecast *)
(* ================================================================== *)

(** The [Daily] part of a decoded response. *)
Record dailyForecastResponse : Set := mkDailyForecastResponse {
  d_Time : list string;
  d_MaxTemp : list float64;
  d_MinTemp : list float64;
  d_PrecipProb : list float64;
  d_SunshineHours : list float64
}.

(** The conversion loop of [GetForecast] over [data.Daily.Time[i:]].  A
    date that does not parse is skipped; [None] is the run-time panic of an
    index out of range in [MaxTemp] or [MinTemp]. *)
Fixpoint dailyForecasts (data : dailyForecastResponse) (times : list string)
  (i : Z) : option (list WeatherForecast) :=
  match times with
  | [] => Some []
  | s :: rest =>
      match ParseDate s with
      | None => dailyForecasts data rest (i + 1)
      | Some date =>
          let sunshineHours :=
            match d_SunshineHours data !! Z.to_nat i with
            | Some seconds => PrimFloat.div seconds 3600%float
            | None => 0%float
            end in
          let precipProb :=
            match d_PrecipProb data !! Z.to_nat i with
            | Some p => p
            | None => 0%float
            end in
          match d_MaxTemp data !! Z.to_nat i, d_MinTemp data !! Z.to_nat i with
          | Some maxTemp, Some minTemp =>
              let isSunny :=
                gt sunshineHours 3%float && lt precipProb 30%float
                && gt maxTemp 12%float in
              match dailyForecasts data rest (i + 1) with
              | Some forecasts =>
                  Some (mkWeatherForecast date sunshineHours maxTemp minTemp
                          precipProb isSunny :: forecasts)
              | None => None
              end
          | _, _ => None
          end
      end
  end.

(** What [GetForecast] makes of a response it has fetched and decoded. *)
Definition GetForecast_decoded (data : dailyForecastResponse)
  : option (list WeatherForecast) :=
  dailyForecasts data (d_Time data) 0.

(* ================================================================== *)
(** * [uiapi/server.go] *)
(* ================================================================== *)

(** What a handler writes: [respondJSON(w, status, data)], or
    [respondError(w, status, message)]. *)
Inductive Response (A : Type) : Type :=
  | RespondJSON (status : Z) (data : A)
  | RespondError (status : Z) (message : string).
Arguments RespondJSON {A} status data.
Arguments RespondError {A} status message.

Record RecommendationResponse : Set := mkRecommendationResponse {
  rr_Appliance : string;
  rr_Recommendations : list Recommendation
}.

(** The [engine.Constraints] literal the handlers build for an appliance. *)
Definition constraintsOf (a : Appliance) (household : Household) : Constraints :=
  mkConstraints (a_AllowedWindows a) (a_BlockedWindows a)
    (h_QuietHours household) (a_FinishBy a) (a_StartBy a)
    (a_PriceCapPencePerKWh a) (a_NoiseLevel a).

(** Their [engine.Options] literal. *)
Definition optionsOf (a : Appliance) (household : Household) : Options :=
  mkOptions (a_EstKWh a) (h_CarbonWeight household) 0%float.

(** [todayEnd]: 23:59:59 of the day of [now], in its location. *)
Definition todayEndOf (now : Time) : Time :=
  Date (Year now) (Month now) (Day now) 23 59 59 0 (zoneOffset now).

(** The loop that splits the slots into today's and tomorrow's. *)
Fixpoint splitSlots (priceSlots : list PriceSlot) (now todayEnd : Time)
  : list PriceSlot * list PriceSlot :=
  match priceSlots with
  | [] => ([], [])
  | slot :: rest =>
      let '(todaySlots, tomorrowSlots) := splitSlots rest now todayEnd in
      if After (slot_Start slot) now && Before (slot_Start slot) todayEnd
      then (slot :: todaySlots, tomorrowSlots)
      else if After (slot_Start slot) todayEnd
      then (todaySlots, slot :: tomorrowSlots)
      else (todaySlots, tomorrowSlots)
  end.

(** "Map forecasts by date": a later forecast of a date replaces an
    earlier one. *)
Definition weatherByDayOf (forecasts : list WeatherForecast)
  : gmap string WeatherForecast :=
  fold_left (fun m f => <[FormatDate (wf_Date f) := f]> m) forecasts ∅.

(** The search for the coupled appliance (the dryer) of [a]. *)
Definition findCoupled (appliances : list Appliance) (a : Appliance)
  : option Appliance :=
  if negb (String.eqb (a_CoupledApplianceID a) "")
  then List.find (fun ca => String.eqb (a_ID ca) (a_CoupledApplianceID a))
         appliances
  else None.

(** "Filter out past options", and the new best index: what is appended to
    the results for [smartRec], if anything. *)
Definition keepFutureOptions (now : Time) (smartRec : SmartRecommendation)
  : option SmartRecommendation :=
  let futureOptions :=
    List.filter (fun opt => After (rec_Start (ro_PrimarySlot opt)) now)
      (sr_Options smartRec) in
  if (0 <? length futureOptions)%nat then
    Some (mkSmartRecommendation (sr_ApplianceName smartRec) futureOptions
            (if Z.of_nat (length futureOptions) <=? sr_BestOptionIndex smartRec
             then 0 else sr_BestOptionIndex smartRec))
  else None.

(** The readings of the clock in one round of the appliance loop of
    [handleSmartRecommendations]: for [currentDate], inside the engine, and
    for [now] afterwards. *)
Record Readings : Set := mkReadings {
  rd_today : Time;
  rd_engine : Clock;
  rd_after : Time
}.

Section Server.

Variable sortSlice : SliceSorter.
Variable localZone : Z.

(** The best windows of one appliance in [handleGetRecommendations]: the
    best of what is left of today, then the best of tomorrow.  [now] is the
    reading of the clock in this round of the loop. *)
Definition bestRecsFor (now : Time) (priceSlots : list PriceSlot)
  (household : Household) (a : Appliance) : list Recommendation :=
  let constraints :=
    ApplyPracticalConstraints a household (constraintsOf a household) in
  let opts := optionsOf a household in
  let todayEnd := todayEndOf now in
  let '(todaySlots, tomorrowSlots) := splitSlots priceSlots now todayEnd in
  let bestRecs := [] in
  let bestRecs :=
    if (0 <? length todaySlots)%nat then
      match BestWindows sortSlice todaySlots (a_CycleMinutes a) constraints
              opts 1 with
      | Ok todayRecs =>
          if (0 <? length todayRecs)%nat then bestRecs ++ todayRecs
          else bestRecs
      | Err _ => bestRecs
      end
    else bestRecs in
  let bestRecs :=
    if (0 <? length tomorrowSlots)%nat then
      match BestWindows sortSlice tomorrowSlots (a_CycleMinutes a) constraints
              opts 1 with
      | Ok tomorrowRecs =>
          if (0 <? length tomorrowRecs)%nat then bestRecs ++ tomorrowRecs
          else bestRecs
      | Err _ => bestRecs
      end
    else bestRecs in
  bestRecs.

(** The appliance loop of [handleGetRecommendations]; [clock k] is the
    reading of the clock in the next round that gets as far as reading
    it. *)
Fixpoint recommendationResults (clock : Clock) (k : nat) (currentDate : string)
  (priceSlots : list PriceSlot) (household : Household)
  (appliances : list Appliance) : list RecommendationResponse :=
  match appliances with
  | [] => []
  | a :: rest =>
      if negb (a_Enabled a)
      then recommendationResults clock k currentDate priceSlots household rest
      else if negb (ShouldShowRecommendation a "" currentDate)
      then recommendationResults clock k currentDate priceSlots household rest
      else
        let bestRecs := bestRecsFor (clock k) priceSlots household a in
        if (length bestRecs =? 0)%nat
        then recommendationResults clock (S k) currentDate priceSlots
               household rest
        else mkRecommendationResponse (a_Name a) bestRecs
               :: recommendationResults clock (S k) currentDate priceSlots
                    household rest
  end.

(** [handleGetRecommendations], given what the price client and the store
    return: the prices of today and tomorrow, the default household and its
    appliances, each with the text of its error when it fails.  [clock 0]
    is the reading for [currentDate]. *)
Definition handleGetRecommendations (clock : Clock)
  (fetched : result string (list PriceSlot))
  (storedHousehold : result string Household)
  (storedAppliances : result string (list Appliance))
  : Response (list RecommendationResponse) :=
  match fetched with
  | Err e => RespondError 500 ("failed to fetch prices: " ++ e)
  | Ok priceSlots =>
      match storedHousehold with
      | Err _ => RespondError 404 "household not found"
      | Ok household =>
          match storedAppliances with
          | Err e => RespondError 500 e
          | Ok appliances =>
              let currentDate := FormatDate (clock 0%nat) in
              RespondJSON 200
                (recommendationResults clock 1 currentDate priceSlots
                   household appliances)
          end
      end
  end.

(** One round of the appliance loop of [handleSmartRecommendations]: what
    is appended to the results for [a]. *)
Definition smartResultFor (rd : Readings) (appliances : list Appliance)
  (household : Household) (pricesByDay : gmap string (list PriceSlot))
  (weatherByDay : gmap string WeatherForecast) (a : Appliance)
  : option SmartRecommendation :=
  if negb (a_Enabled a) || negb (String.eqb (a_Class a) ClassCoupled) then None
  else if negb (ShouldShowRecommendation a "" (FormatDate (rd_today rd)))
  then None
  else
    let coupledAppliance := findCoupled appliances a in
    let constraints :=
      ApplyPracticalConstraints a household (constraintsOf a household) in
    let opts := optionsOf a household in
    match GenerateSmartRecommendations sortSlice localZone (rd_engine rd) a
            coupledAppliance pricesByDay weatherByDay household constraints
            opts with
    | Ok smartRec => keepFutureOptions (rd_after rd) smartRec
    | Err _ => None
    end.

(** The loop, over [rest]; [readings n] are the readings of round [n]. *)
Fixpoint smartResults (readings : nat -> Readings) (n : nat)
  (appliances : list Appliance) (household : Household)
  (pricesByDay : gmap string (list PriceSlot))
  (weatherByDay : gmap string WeatherForecast) (rest : list Appliance)
  : list SmartRecommendation :=
  match rest with
  | [] => []
  | a :: rest' =>
      match smartResultFor (readings n) appliances household pricesByDay
              weatherByDay a with
      | Some smartRec =>
          smartRec :: smartResults readings (S n) appliances household
                        pricesByDay weatherByDay rest'
      | None =>
          smartResults readings (S n) appliances household pricesByDay
            weatherByDay rest'
      end
  end.

End Server.

(* ================================================================== *)
(** * Part II: what the specification says, and the inputs of the examples *)
(* ================================================================== *)

(* ================================================================== *)
(** * The constraint filter: what it keeps *)
(* ================================================================== *)

(** [t <= u] on instants. *)
Definition NotAfter (t u : Time) : bool := unixNano t <=? unixNano u.

(** The part of the keep-condition that does not involve the price cap, as
    the code tests it: a slot lies in a window when [isInTimeWindows] says
    so. *)
Definition keepsByTime (c : Constraints) (s : PriceSlot) : bool :=
  ((length (c_Allowed c) =? 0)%nat || isInTimeWindows (slot_Start s) (c_Allowed c))
  && ((length (c_Blocked c) =? 0)%nat
      || negb (isInTimeWindows (slot_Start s) (c_Blocked c)))
  && implb ((3 <=? c_NoiseLevel c) && negb (length (c_QuietHours c) =? 0)%nat)
           (negb (isInTimeWindows (slot_Start s) (c_QuietHours c)))
  && match c_StartBy c with
     | Some startBy => NotAfter (slot_Start s) startBy
     | None => true
     end
  && match c_FinishBy c with
     | Some finishBy => NotAfter (slot_End s) finishBy
     | None => true
     end.

(** The keep-condition as the code tests it; its condition on the price is
    "priceCap absent OR NOT s.price > priceCap". *)
Definition codeKeeps (c : Constraints) (s : PriceSlot) : bool :=
  match c_PriceCapPence c with
  | Some cap => negb (gt (slot_PencePerKWh s) cap)
  | None => true
  end
  && keepsByTime c s.

(* ================================================================== *)
(** * Window search: the candidates *)
(* ================================================================== *)

(** Go's [feasible[i : i+requiredSlots]]. *)
Definition windowAt (feasible : list PriceSlot) (i : nat) (requiredSlots : Z)
  : list PriceSlot :=
  firstn (Z.to_nat requiredSlots) (skipn i feasible).

(** The Recommendation [BestWindows] builds from a window. *)
Definition recommendationOf (sortSlice : SliceSorter) (slots window : list PriceSlot)
  (opts : Options) (requiredSlots : Z) : option Recommendation :=
  match window, last window with
  | first :: _, Some final =>
      Some (mkRecommendation (slot_Start first) (slot_End final)
              (PrimFloat.div (windowTotalPence window opts requiredSlots) 100%float)
              (generateReason sortSlice window
                 (windowTotalPence window opts requiredSlots) slots)
              (windowTotalPence window opts requiredSlots))
  | _, _ => None
  end.

(** The candidates of [BestWindows], before they are sorted. *)
Definition candidateWindows (sortSlice : SliceSorter) (slots : list PriceSlot)
  (runMinutes : Z) (constraints : Constraints) (opts : Options)
  : list Recommendation :=
  scanWindows sortSlice slots (filterByConstraints slots constraints) opts
    (requiredSlotsFor runMinutes).

(** Sorted non-decreasing by score. *)
Definition ScoresAscend (recs : list Recommendation) : Prop :=
  StronglySorted (fun x y => le (rec_Score x) (rec_Score y) = true) recs.

(* ================================================================== *)
(** * The smart orchestrator: options and the best index *)
(* ================================================================== *)

(** What every option of the coupled path looks like: a line-dry option
    costs the primary slot alone; a tumble-dry option runs the successor
    from the end of the primary slot and adds its estimated cost, taken over
    the price slots of the option's own day. *)
Definition optionShape (dryer : option Appliance)
  (pricesByDay : gmap string (list PriceSlot)) (o : RecommendationOption) : Prop :=
  if ro_UsesNaturalDry o then
    ro_CoupledSlot o = None
    /\ ro_TotalCostGBP o = rec_CostGBP (ro_PrimarySlot o)
  else
    exists (d : Appliance) (prices : list PriceSlot),
      dryer = Some d
      /\ pricesByDay !! FormatDate (ro_Date o) = Some prices
      /\ let dryerStart := rec_End (ro_PrimarySlot o) in
         let dryerEnd := Add dryerStart (wrapInt64 (a_CycleMinutes d * Minute)) in
         let dryerCost := estimateCost prices dryerStart dryerEnd (a_EstKWh d) in
         ro_CoupledSlot o
           = Some (mkRecommendation dryerStart dryerEnd dryerCost NoReason 0%float)
         /\ ro_TotalCostGBP o
            = PrimFloat.add (rec_CostGBP (ro_PrimarySlot o)) dryerCost.

(** The best index, read on the costs: nothing is cheaper, and nothing
    before it is as cheap. *)
Definition firstCheapest (options : list RecommendationOption) (best : Z) : Prop :=
  0 <= best < Z.of_nat (length options)
  /\ (forall j, 0 <= j < Z.of_nat (length options) ->
        lt (totalCostAt options j) (totalCostAt options best) = false)
  /\ (forall j, 0 <= j < best ->
        le (totalCostAt options j) (totalCostAt options best) = false).

(** The index of the first option that attains the minimal total cost: no
    option costs less, and every option before it costs more. *)
Definition firstMinimalTotalCost (options : list RecommendationOption)
  (best : Z) : Prop :=
  0 <= best < Z.of_nat (length options)
  /\ (forall j, 0 <= j < Z.of_nat (length options) ->
        le (totalCostAt options best) (totalCostAt options j) = true)
  /\ (forall j, 0 <= j < best ->
        lt (totalCostAt options best) (totalCostAt options j) = true).

(* ================================================================== *)
(** * Inputs *)
(* ================================================================== *)

(** The slots of the repository's [TestBestWindows]: 48 half-hour slots from
    2024-12-01 00:00 UTC. *)
Definition baseTime : Time := Date 2024 12 1 0 0 0 0 UTC.

Fixpoint slotsFrom (i : Z) (prices : list float64) : list PriceSlot :=
  match prices with
  | [] => []
  | price :: rest =>
      mkPriceSlot (Add baseTime (i * 30 * Minute))
                  (Add baseTime ((i + 1) * 30 * Minute)) price true
        :: slotsFrom (i + 1) rest
  end.

Definition testPrices : list float64 :=
  [15; 14; 13; 12; 11; 10; 9; 8; 12; 13; 15; 18;
   20; 22; 24; 26; 25; 24; 23; 22; 21; 20; 19; 18;
   17; 16; 15; 14; 13; 12; 11; 10; 15; 18; 20; 25;
   30; 35; 40; 38; 35; 30; 25; 20; 18; 16; 15; 14]%float.

Definition testSlots : list PriceSlot := slotsFrom 0 testPrices.

Definition noConstraints : Constraints :=
  mkConstraints [] [] [] None None None 1.

(** Its case "60 minute run with quiet hours". *)
Definition quietConstraints : Constraints :=
  mkConstraints [] [] [mkTimeWindow "22:00" "07:00" []] None None None 4.

Definition oneKWh : Options := mkOptions 1%float 0%float 0%float.

(** Four morning slots, for small runs. *)
Definition fourSlots : list PriceSlot :=
  slotsFrom 16 [10; 25; 15; 12]%float.

(** The starts of what [BestWindows] returned. *)
Definition startsOf (r : result EngineError (list Recommendation)) : list Time :=
  match r with
  | Ok recs => map rec_Start recs
  | Err _ => []
  end.

(** Start and score of what [BestWindows] returned. *)
Definition startsAndScores (r : result EngineError (list Recommendation))
  : list (Time * float64) :=
  match r with
  | Ok recs => map (fun rec => (rec_Start rec, rec_Score rec)) recs
  | Err _ => []
  end.

(** Thirteen slots with the price 5 at the first and the seventh. *)
Definition thirteenSlots : list PriceSlot :=
  slotsFrom 0 [5; 9; 9; 1; 9; 9; 5; 9; 9; 9; 9; 9; 9]%float.

(** A clock that always reads the same time. *)
Definition fixedClock (t : Time) : Clock := fun _ => t.

(** Scenario: a washing machine that can wait three days, its tumble dryer,
    four priced slots (08:00-10:00) on each of 1, 2 and 3 December 2024, and
    a sunny forecast for the third day. *)
Definition washingMachine : Appliance :=
  mkAppliance "washer" "Washing Machine" 60 0 [] [] None None 4 None 1
    1%float true ControlSmart Frequency3xWeek ClassCoupled "dryer" 3.

Definition tumbleDryer : Appliance :=
  mkAppliance "dryer" "Tumble Dryer" 60 0 [] [] None None 4 None 1
    2%float true ControlSmart Frequency3xWeek ClassWeatherDependent "" 0.

Definition dishwasher : Appliance :=
  mkAppliance "dish" "Dishwasher" 60 0 [] [] None None 3 None 1
    1%float true ControlSmart FrequencyDaily ClassStandalone "" 0.

Definition threeDays : gmap string (list PriceSlot) :=
  <["2024-12-01"%string := slotsFrom 16 [10; 25; 15; 12]%float]>
    (<["2024-12-02"%string := slotsFrom 64 [20; 8; 9; 30]%float]>
       (<["2024-12-03"%string := slotsFrom 112 [14; 11; 13; 16]%float]> ∅)).

Definition sunnyThird : gmap string WeatherForecast :=
  <["2024-12-03"%string :=
      mkWeatherForecast (Date 2024 12 3 0 0 0 0 UTC) 6%float 14%float 5%float
        10%float true]> ∅.

Definition anyHousehold : Household :=
  mkHousehold "home" "Home" "C" 51.5%float 0%float [] [] [] false 0%float.

Definition morningOf (day : Z) : Time := Date 2024 12 day 7 0 0 0 UTC.

(** A clock that reads [t] twice and [u] from then on. *)
Definition clockThen (t u : Time) : Clock :=
  fun k => if (k <? 2)%nat then t else u.

(** The scenario's outcome on the morning of 1 December, and the first of
    its options (tumble dry today). *)
Definition scenarioResult : result SmartError SmartRecommendation :=
  Eval vm_compute in
    generateCoupledRecommendation goSortSlice UTC (fixedClock (morningOf 1))
      washingMachine (Some tumbleDryer) threeDays sunnyThird anyHousehold
      noConstraints oneKWh.

Definition scenarioOptions : list RecommendationOption :=
  match scenarioResult with
  | Ok sr => sr_Options sr
  | Err _ => []
  end.

Definition tumbleToday : RecommendationOption :=
  Eval vm_compute in
    match scenarioOptions with
    | o :: _ => o
    | [] => mkRecommendationOption "" baseTime
              (mkRecommendation baseTime baseTime 0%float NoReason 0%float)
              None 0%float None false 0%float (BestTimeText "" "")
    end.

(** The best window of the third day: 08:30-09:30, 11 * 0.5 + 13 * 0.5. *)
Definition thirdDayWindow : Recommendation :=
  mkRecommendation (Add baseTime (113 * 30 * Minute))
    (Add baseTime (115 * 30 * Minute)) (PrimFloat.div 12%float 100%float)
    (ExcellentPrice 0%float) 12%float.

(** The wash start each option's text prints. *)
Definition textStarts (r : result SmartError SmartRecommendation) : list string :=
  match r with
  | Ok sr =>
      map (fun o =>
             match ro_Recommendation o with
             | BestTimeText start _ => start
             | TumbleDryText start _ _ _ => start
             | LineDryText start _ _ _ => start
             end)
          (sr_Options sr)
  | Err _ => []
  end.

(** The dishwasher's only option on 1 December. *)
Definition dishwasherToday : SmartRecommendation :=
  mkSmartRecommendation "Dishwasher"
    [mkRecommendationOption "Today" (Add baseTime (18 * 30 * Minute))
       (mkRecommendation (Add baseTime (18 * 30 * Minute))
          (Add baseTime (20 * 30 * Minute))
          (PrimFloat.div 13.5%float 100%float) (ExcellentPrice 0%float)
          13.5%float)
       None (PrimFloat.div 13.5%float 100%float) None false 0%float
       (BestTimeText "09:00" "10:00")]
    0.

(* ================================================================== *)
(** * Clock times, slot order, drying options and forecasts *)
(* ================================================================== *)

(** Minutes since midnight on the wall clock of the time's location. *)
Definition minuteOfDay (t : Time) : Z := 60 * HourOf t + MinuteOf t.

(** The day test of [matchesTimeWindow]: no days listed, or the weekday of
    [t] (1 = Monday ... 7 = Sunday) among them. *)
Definition dayListed (t : Time) (window : TimeWindow) : bool :=
  match tw_DaysOfWeek window with
  | [] => true
  | days => existsb (fun d => d =? (if Weekday t =? 0 then 7 else Weekday t)) days
  end.

(** Time-window membership in the words of the specification: the day of
    the week is listed (or none is) and the time of day lies in
    [[start, end)], where an end before the start is that time on the next
    day: the span wraps past midnight, so that 22:00-07:00 holds the times
    from 22:00 to midnight and those from midnight to 07:00.  (A window
    whose start or end is no clock time holds nothing.) *)
Definition specMatchesTimeWindow (t : Time) (window : TimeWindow) : bool :=
  match parseTimeOfDay (tw_Start window), parseTimeOfDay (tw_End window) with
  | Some startTime, Some endTime =>
      dayListed t window
      && (if minuteOfDay endTime <? minuteOfDay startTime
          then (minuteOfDay startTime <=? minuteOfDay t)
               || (minuteOfDay t <? minuteOfDay endTime)
          else (minuteOfDay startTime <=? minuteOfDay t)
               && (minuteOfDay t <? minuteOfDay endTime))
  | _, _ => false
  end.

(** "falls in at least one window" *)
Definition specInTimeWindows (t : Time) (windows : list TimeWindow) : bool :=
  existsb (specMatchesTimeWindow t) windows.

(** The keep-condition in the words of the specification, conditions 1 to
    6. *)
Definition specKeeps (c : Constraints) (s : PriceSlot) : bool :=
  match c_PriceCapPence c with
  | Some cap => le (slot_PencePerKWh s) cap
  | None => true
  end
  && ((length (c_Allowed c) =? 0)%nat
      || specInTimeWindows (slot_Start s) (c_Allowed c))
  && ((length (c_Blocked c) =? 0)%nat
      || negb (specInTimeWindows (slot_Start s) (c_Blocked c)))
  && implb ((3 <=? c_NoiseLevel c) && negb (length (c_QuietHours c) =? 0)%nat)
           (negb (specInTimeWindows (slot_Start s) (c_QuietHours c)))
  && match c_StartBy c with
     | Some startBy => NotAfter (slot_Start s) startBy
     | None => true
     end
  && match c_FinishBy c with
     | Some finishBy => NotAfter (slot_End s) finishBy
     | None => true
     end.

(** A window that ends before it starts. *)
Definition wrapsMidnight (window : TimeWindow) : bool :=
  match parseTimeOfDay (tw_Start window), parseTimeOfDay (tw_End window) with
  | Some startTime, Some endTime => minuteOfDay endTime <? minuteOfDay startTime
  | _, _ => false
  end.

(** A window whose start or end is not a clock time [parseTimeOfDay]
    accepts. *)
Definition malformed (w : TimeWindow) : Prop :=
  parseTimeOfDay (tw_Start w) = None \/ parseTimeOfDay (tw_End w) = None.

(** The constraints with another price cap, and with other quiet hours. *)
Definition withPriceCap (c : Constraints) (cap : float64) : Constraints :=
  mkConstraints (c_Allowed c) (c_Blocked c) (c_QuietHours c) (c_FinishBy c)
    (c_StartBy c) (Some cap) (c_NoiseLevel c).

Definition withQuietHours (c : Constraints) (quiet : list TimeWindow) : Constraints :=
  mkConstraints (c_Allowed c) (c_Blocked c) quiet (c_FinishBy c)
    (c_StartBy c) (c_PriceCapPence c) (c_NoiseLevel c).

(** The [topN] that [BestWindows] works with. *)
Definition effectiveTopN (topN : Z) : Z := if topN <=? 0 then 3 else topN.

(** A slot that lasts thirty minutes. *)
Definition halfHour (s : PriceSlot) : Prop :=
  unixNano (slot_End s) = unixNano (slot_Start s) + 30 * Minute.

(** The options of the coupled path come day by day: a tumble-dry option,
    followed or not by the line-dry option of the same wash. *)
Inductive DryingPairs : list RecommendationOption -> Prop :=
  | pairs_none : DryingPairs []
  | pairs_tumble (t : RecommendationOption) (l : list RecommendationOption) :
      ro_UsesNaturalDry t = false -> DryingPairs l -> DryingPairs (t :: l)
  | pairs_both (t o : RecommendationOption) (l : list RecommendationOption) :
      ro_UsesNaturalDry t = false ->
      ro_UsesNaturalDry o = true ->
      ro_PrimarySlot o = ro_PrimarySlot t ->
      ro_Date o = ro_Date t ->
      ro_Day o = ro_Day t ->
      ro_Weather o = ro_Weather t ->
      DryingPairs l -> DryingPairs (t :: o :: l).

(** [SavingsVsToday] as the day loop fills it in: nothing for the first
    option, and for every later one the first option's total less its
    own. *)
Definition SavingsAgainstFirst (options : list RecommendationOption) : Prop :=
  match options with
  | [] => True
  | first :: later =>
      ro_SavingsVsToday first = 0%float
      /\ Forall (fun o => ro_SavingsVsToday o
                          = PrimFloat.sub (ro_TotalCostGBP first) (ro_TotalCostGBP o))
           later
  end.

(** Where a line-dry option can come from: a weather-dependent successor and
    a sunny forecast under the option's date. *)
Definition lineDryGrounds (dryer : option Appliance)
  (weatherByDay : gmap string WeatherForecast) (o : RecommendationOption) : Prop :=
  ro_UsesNaturalDry o = true ->
  exists (d : Appliance) (forecast : WeatherForecast),
    dryer = Some d
    /\ a_Class d = ClassWeatherDependent
    /\ weatherByDay !! FormatDate (ro_Date o) = Some forecast
    /\ ro_Weather o = Some forecast
    /\ wf_IsSunny forecast = true.

(** Ascending by start: no slot starts after a later one. *)
Definition StartsAscend (slots : list PriceSlot) : Prop :=
  StronglySorted (fun a b => NotAfter (slot_Start a) (slot_Start b) = true) slots.

(** One pass over [a :: r], carrying the latest slot seen so far. *)
Fixpoint bubbleFrom (a : PriceSlot) (r : list PriceSlot) : list PriceSlot :=
  match r with
  | [] => [a]
  | b :: r' =>
      if After (slot_Start a) (slot_Start b) then b :: bubbleFrom a r'
      else a :: bubbleFrom b r'
  end.

(** The state of the outer loop: a front still to be sorted, and a sorted
    back that starts no earlier than anything in the front. *)
Definition bubbleState (front back : list PriceSlot) : Prop :=
  StartsAscend back
  /\ Forall (fun x =>
       Forall (fun y => NotAfter (slot_Start x) (slot_Start y) = true) back)
       front.

(** How far a slot is from [t], as [GetWeatherForTime] measures it. *)
Definition distanceTo (t : Time) (slot : WeatherSlot) : Z :=
  absDuration (Sub (ws_Time slot) t).

(** Good drying conditions, on the fields of a forecast: more than three
    hours of sunshine, less than 30% probability of rain, more than 12
    degrees. *)
Definition goodDrying (f : WeatherForecast) : bool :=
  gt (wf_SunshineHours f) 3%float && lt (wf_PrecipProb f) 30%float
  && gt (wf_MaxTempC f) 12%float.

(** The dates of [times] that parse, in order. *)
Definition parsedDates (times : list string) : list Time :=
  flat_map (fun s => match ParseDate s with
                     | Some date => [date]
                     | None => []
                     end) times.

(* ================================================================== *)
(** * Further inputs *)
(* ================================================================== *)

(** Three in the morning, and the overnight window of the quiet hours. *)
Definition threeAM : Time := Date 2024 12 1 3 0 0 0 UTC.
Definition overnight : TimeWindow := mkTimeWindow "22:00" "07:00" [].

(** The slot of the test day that starts at three in the morning. *)
Definition threeAMSlot : PriceSlot :=
  mkPriceSlot (Date 2024 12 1 3 0 0 0 UTC) (Date 2024 12 1 3 30 0 0 UTC)
    9%float true.

(** Allowed hours written the way [parseTimeOfDay] does not read. *)
Definition amPmConstraints : Constraints :=
  mkConstraints [mkTimeWindow "7am" "11pm" []] [] [] None None None 1.

(** What [BestWindows] returns for the four morning slots, a 60 minute run,
    1 kWh and the top three. *)
Definition fourSlotsTop3 : list Recommendation :=
  Eval vm_compute in
    match BestWindows goSortSlice fourSlots 60 noConstraints oneKWh 3 with
    | Ok recs => recs
    | Err _ => []
    end.

(** The first Recommendation of a result (a zero Recommendation if there is
    none). *)
Definition firstOf (r : result EngineError (list Recommendation)) : Recommendation :=
  match r with
  | Ok (rec :: _) => rec
  | _ => mkRecommendation baseTime baseTime 0%float NoReason 0%float
  end.

(** The Recommendations after the first. *)
Definition restOf (r : result EngineError (list Recommendation))
  : list Recommendation :=
  match r with
  | Ok (_ :: rest) => rest
  | _ => []
  end.

(** The best of the four morning slots, with the library sort and with
    the reference sort. *)
Definition fourSlotsBest : Recommendation :=
  Eval vm_compute in
    firstOf (BestWindows goSortSlice fourSlots 60 noConstraints oneKWh 3).

Definition refBest : Recommendation :=
  Eval vm_compute in
    firstOf (BestWindows refSortSlice fourSlots 60 noConstraints oneKWh 3).

Definition refOthers : list Recommendation :=
  Eval vm_compute in
    restOf (BestWindows refSortSlice fourSlots 60 noConstraints oneKWh 3).

(** The four morning slots with a deadline: finish by 09:30. *)
Definition finishByHalfNine : Constraints :=
  mkConstraints [] [] [] (Some (Add baseTime (19 * 30 * Minute))) None None 1.

(** What [BestWindows] returns under it: the first, and the others. *)
Definition earlyBest : Recommendation :=
  Eval vm_compute in
    firstOf (BestWindows goSortSlice fourSlots 60 finishByHalfNine oneKWh 3).

Definition earlyOthers : list Recommendation :=
  Eval vm_compute in
    restOf (BestWindows goSortSlice fourSlots 60 finishByHalfNine oneKWh 3).

(** A dishwasher that is started by hand. *)
Definition manualDishwasher : Appliance :=
  mkAppliance "dish" "Dishwasher" 60 0 [] [] None None 3 None 1
    1%float true ControlManual FrequencyDaily ClassStandalone "" 0.

(** What [BestWindows] returns for it on the test day, in a household that
    has set no available hours: the first, and the others. *)
Definition manualBest : Recommendation :=
  Eval vm_compute in
    firstOf (BestWindows goSortSlice testSlots 60
               (ApplyPracticalConstraints manualDishwasher anyHousehold
                  noConstraints) oneKWh 3).

Definition manualOthers : list Recommendation :=
  Eval vm_compute in
    restOf (BestWindows goSortSlice testSlots 60
              (ApplyPracticalConstraints manualDishwasher anyHousehold
                 noConstraints) oneKWh 3).

(** The last option of the scenario: line drying on the third day. *)
Definition lineDryThird : RecommendationOption :=
  Eval vm_compute in
    match skipn 3 scenarioOptions with
    | o :: _ => o
    | [] => tumbleToday
    end.

(** Weather at 09:00, 11:00 and 13:00 on 1 December, and the time half way
    between the first two. *)
Definition noonSlots : list WeatherSlot :=
  [mkWeatherSlot (Date 2024 12 1 9 0 0 0 UTC) 5%float 80%float 3%float 10%float;
   mkWeatherSlot (Date 2024 12 1 11 0 0 0 UTC) 7%float 70%float 3%float 10%float;
   mkWeatherSlot (Date 2024 12 1 13 0 0 0 UTC) 8%float 65%float 4%float 20%float].

Definition tenOClock : Time := Date 2024 12 1 10 0 0 0 UTC.

(** A reply for the three days of the scenario: six hours of sunshine and
    14 degrees on the third. *)
Definition threeDayReply : dailyForecastResponse :=
  mkDailyForecastResponse ["2024-12-01"; "2024-12-02"; "2024-12-03"]%string
    [9; 14; 14]%float [2; 5; 5]%float [60; 40; 10]%float
    [3600; 21600; 21600]%float.

(** What [GetForecast] makes of it, and the forecast of its third day. *)
Definition threeDayForecasts : list WeatherForecast :=
  Eval vm_compute in
    match GetForecast_decoded threeDayReply with
    | Some forecasts => forecasts
    | None => []
    end.

Definition sunnyThirdForecast : WeatherForecast :=
  mkWeatherForecast (Date 2024 12 3 0 0 0 0 UTC) 6%float 14%float 5%float
    10%float true.

(** The same reply without [sunshine_duration]. *)
Definition noSunshineReply : dailyForecastResponse :=
  mkDailyForecastResponse ["2024-12-01"; "2024-12-02"; "2024-12-03"]%string
    [9; 14; 14]%float [2; 5; 5]%float [60; 40; 10]%float [].

Definition noSunshineForecasts : list WeatherForecast :=
  Eval vm_compute in
    match GetForecast_decoded noSunshineReply with
    | Some forecasts => forecasts
    | None => []
    end.

(** Its third day: no sunshine known, so not sunny. *)
Definition cloudyThirdForecast : WeatherForecast :=
  mkWeatherForecast (Date 2024 12 3 0 0 0 0 UTC) 0%float 14%float 5%float
    10%float false.

(** A reply with a date that does not parse. *)
Definition oddReply : dailyForecastResponse :=
  mkDailyForecastResponse ["2024-12-01"; "tomorrow"; "2024-12-03"]%string
    [9; 14; 14]%float [2; 5; 5]%float [60; 40; 10]%float
    [3600; 21600; 21600]%float.

(** The scenario with the weather map built from [threeDayReply]. *)
Definition forecastScenario : result SmartError SmartRecommendation :=
  Eval vm_compute in
    generateCoupledRecommendation goSortSlice UTC (fixedClock (morningOf 1))
      washingMachine (Some tumbleDryer) threeDays
      (weatherByDayOf threeDayForecasts) anyHousehold noConstraints oneKWh.

Definition forecastOptions : list RecommendationOption :=
  match forecastScenario with
  | Ok sr => sr_Options sr
  | Err _ => []
  end.

(** Its last option: line drying on the third day. *)
Definition forecastLineDry : RecommendationOption :=
  Eval vm_compute in
    match skipn 3 forecastOptions with
    | o :: _ => o
    | [] => tumbleToday
    end.

(** A load of 1e308 kWh; a first day priced 5 and -5 and a second priced 1
    and 1, from 08:00 to 09:00 each. *)
Definition hugeLoad : Options := mkOptions 1e308%float 0%float 0%float.

Definition swingDays : gmap string (list PriceSlot) :=
  <["2024-12-01"%string := slotsFrom 16 [5; -5]%float]>
    (<["2024-12-02"%string := slotsFrom 64 [1; 1]%float]> ∅).

(** What the orchestrator makes of them on the morning of 1 December. *)
Definition swingResult : result SmartError SmartRecommendation :=
  Eval vm_compute in
    GenerateSmartRecommendations goSortSlice UTC (fixedClock (morningOf 1))
      washingMachine (Some tumbleDryer) swingDays ∅ anyHousehold noConstraints
      hugeLoad.

Definition swingOptions : list RecommendationOption :=
  match swingResult with
  | Ok sr => sr_Options sr
  | Err _ => []
  end.

(** The appliances of the household, and a clock that stands still on
    the morning of 1 December. *)
Definition laundry : list Appliance := [washingMachine; tumbleDryer; dishwasher].

Definition morningReadings : nat -> Readings :=
  fun _ => mkReadings (morningOf 1) (fixedClock (morningOf 1)) (morningOf 1).

(** What the recommendation loop lists for them from the slots of the test
    day, and its first entry. *)
Definition laundryAnswer : list RecommendationResponse :=
  Eval vm_compute in
    recommendationResults goSortSlice (fixedClock (morningOf 1)) 1 "2024-12-01"
      testSlots anyHousehold laundry.

Definition washerAnswer : RecommendationResponse :=
  Eval vm_compute in
    match laundryAnswer with
    | r :: _ => r
    | [] => mkRecommendationResponse "" []
    end.

(** What the smart loop lists for them in the scenario, and its first
    entry. *)
Definition smartAnswer : list SmartRecommendation :=
  Eval vm_compute in
    smartResults goSortSlice UTC morningReadings 0 laundry anyHousehold
      threeDays sunnyThird laundry.

Definition washerSmartAnswer : SmartRecommendation :=
  Eval vm_compute in
    match smartAnswer with
    | sr :: _ => sr
    | [] => mkSmartRecommendation "" [] 0
    end.

(* ================================================================== *)
(** * Part III: facts *)
(* ================================================================== *)

(* ================================================================== *)
(** * The order of float64 *)
(* ================================================================== *)

Module F64Facts.

Lemma SFcompare_rank (f1 f2 : spec_float) :
  match rank f1, rank f2 with
  | Some k1, Some k2 =>
      exists c, SFcompare f1 f2 = Some c /\
        (c = Lt <-> lexlt k1 k2) /\ (c = Eq <-> lexeq k1 k2)
  | _, _ => SFcompare f1 f2 = None
  end.
Proof.
  destruct f1 as [s1|s1| |s1 m1 e1], f2 as [s2|s2| |s2 m2 e2];
    try destruct s1; try destruct s2; cbn [rank SFcompare];
    try reflexivity;
    (eexists; split; [reflexivity|]); unfold lexlt, lexeq;
    repeat match goal with
      | |- context [PosDef.Pos.compare_cont Eq ?a ?b] =>
          change (PosDef.Pos.compare_cont Eq a b) with (Pos.compare a b)
      end;
    try match goal with
      | |- context [Z.compare ?a ?b] => destruct (Z.compare_spec a b)
      end;
    try match goal with
      | |- context [Pos.compare ?a ?b] => destruct (Pos.compare_spec a b)
      end;
    subst; cbn [CompOpp];
    (split; split; intros Hc; try discriminate Hc; try reflexivity;
     try (exfalso; lia); try lia).
Qed.

(** Every comparison of two floats, read on their ranks. *)
Lemma cmp_cases (a b : float64) :
  ((rank (Prim2SF a) = None \/ rank (Prim2SF b) = None) /\
   PrimFloat.ltb a b = false /\ PrimFloat.leb a b = false /\
   PrimFloat.eqb a b = false)
  \/ (exists k1 k2,
        rank (Prim2SF a) = Some k1 /\ rank (Prim2SF b) = Some k2 /\
        (PrimFloat.ltb a b = true <-> lexlt k1 k2) /\
        (PrimFloat.leb a b = true <-> lexle k1 k2) /\
        (PrimFloat.eqb a b = true <-> lexeq k1 k2)).
Proof.
  rewrite FloatAxioms.ltb_spec, FloatAxioms.leb_spec, FloatAxioms.eqb_spec.
  unfold SFltb, SFleb, SFeqb.
  pose proof (SFcompare_rank (Prim2SF a) (Prim2SF b)) as H.
  destruct (rank (Prim2SF a)) as [k1|] eqn:E1;
    [destruct (rank (Prim2SF b)) as [k2|] eqn:E2|].
  - right. exists k1, k2. destruct H as (c & -> & HLt & HEq).
    assert (HLe : lexle k1 k2 <-> lexlt k1 k2 \/ lexeq k1 k2).
    { destruct k1 as [[? ?] ?], k2 as [[? ?] ?].
      unfold lexlt, lexle, lexeq. lia. }
    repeat split; try reflexivity; destruct c;
      rewrite ?HLe; intuition congruence.
  - left. rewrite H. auto.
  - left. rewrite H. auto.
Qed.

Ltac cmp_split a b :=
  let H := fresh "Hcmp" in
  pose proof (cmp_cases a b) as H;
  destruct H as [(? & ? & ? & ?) | (? & ? & ? & ? & ? & ? & ?)].

Ltac cmp_close :=
  repeat match goal with
    | H1 : rank ?x = Some ?k, H2 : rank ?x = Some ?k' |- _ =>
        rewrite H1 in H2; injection H2 as <-
    | H1 : rank ?x = Some _, H2 : rank ?x = None |- _ =>
        rewrite H1 in H2; discriminate H2
    | H : _ \/ _ |- _ => destruct H
    end;
  repeat match goal with
    | k : (Z * Z * Z)%type |- _ => destruct k as [[? ?] ?]
    end;
  unfold lexlt, lexle, lexeq in *;
  try match goal with
    | |- _ = false => apply not_true_is_false; intros ?
    end;
  try congruence;
  repeat match goal with
    | Hi : ?x = true <-> _, H : ?x = true |- _ => apply (proj1 Hi) in H
    | Hi : ?x = true <-> ?P, H : ?x = false |- _ =>
        assert (~ P) by (intros HP; apply (proj2 Hi) in HP; congruence);
        clear H
    end;
  try match goal with
    | Hi : ?x = true <-> _ |- ?x = true => apply (proj2 Hi)
    end;
  repeat match goal with
    | Hi : _ <-> _ |- _ => clear Hi
    end;
  first [ lia | congruence ].

Lemma isNaN_rank (a : float64) :
  isNaN a = true <-> rank (Prim2SF a) = None.
Proof.
  unfold isNaN, PrimFloat.is_nan. rewrite negb_true_iff.
  cmp_split a a; (split; intros ?); cmp_close.
Qed.

Lemma isNaN_false_rank (a : float64) :
  isNaN a = false -> exists k, rank (Prim2SF a) = Some k.
Proof.
  intros H. destruct (rank (Prim2SF a)) as [k|] eqn:E; [eauto|].
  apply isNaN_rank in E. congruence.
Qed.

Lemma lt_irrefl (a : float64) : lt a a = false.
Proof. unfold lt. cmp_split a a; cmp_close. Qed.

Lemma lt_trans (a b c : float64) :
  lt a b = true -> lt b c = true -> lt a c = true.
Proof.
  unfold lt. intros Hab Hbc.
  cmp_split a b; cmp_split b c; cmp_split a c; cmp_close.
Qed.

Lemma le_lt_trans (a b c : float64) :
  le a b = true -> lt b c = true -> lt a c = true.
Proof.
  unfold lt, le. intros Hab Hbc.
  cmp_split a b; cmp_split b c; cmp_split a c; cmp_close.
Qed.

Lemma le_trans (a b c : float64) :
  le a b = true -> le b c = true -> le a c = true.
Proof.
  unfold le. intros Hab Hbc.
  cmp_split a b; cmp_split b c; cmp_split a c; cmp_close.
Qed.

Lemma lt_le_incl (a b : float64) : lt a b = true -> le a b = true.
Proof. unfold lt, le. intros Hab. cmp_split a b; cmp_close. Qed.

Lemma le_not_gt (a b : float64) : le a b = true -> lt b a = false.
Proof.
  unfold lt, le. intros Hab. cmp_split a b; cmp_split b a; cmp_close.
Qed.

Lemma lt_not_ge (a b : float64) : lt a b = true -> le b a = false.
Proof.
  unfold lt, le. intros Hab. cmp_split a b; cmp_split b a; cmp_close.
Qed.

(** Without NaN the order is total. *)
Lemma not_gt_le (a b : float64) :
  isNaN a = false -> isNaN b = false -> lt b a = false -> le a b = true.
Proof.
  unfold lt, le. intros Ha Hb Hba.
  apply isNaN_false_rank in Ha as [ka Ha], Hb as [kb Hb].
  cmp_split a b; cmp_split b a; cmp_close.
Qed.

Lemma not_le_gt (a b : float64) :
  isNaN a = false -> isNaN b = false -> le a b = false -> lt b a = true.
Proof.
  unfold lt, le. intros Ha Hb Hab.
  apply isNaN_false_rank in Ha as [ka Ha], Hb as [kb Hb].
  cmp_split a b; cmp_split b a; cmp_close.
Qed.

Lemma lt_not_NaN (a b : float64) :
  lt a b = true -> isNaN a = false /\ isNaN b = false.
Proof.
  unfold lt. intros Hab.
  split; apply not_true_is_false; intros Hn; apply isNaN_rank in Hn;
    cmp_split a b; cmp_close.
Qed.

Lemma le_not_NaN (a b : float64) :
  le a b = true -> isNaN a = false /\ isNaN b = false.
Proof.
  unfold le. intros Hab.
  split; apply not_true_is_false; intros Hn; apply isNaN_rank in Hn;
    cmp_split a b; cmp_close.
Qed.

(** [x + 0] is the amount [x]: the same float, except that [-0 + 0] is
    [+0], which [==] does not tell apart. *)
Lemma add_zero_sameAmount (x : float64) :
  sameAmount (PrimFloat.add x 0%float) x = true.
Proof.
  unfold sameAmount, isNaN, PrimFloat.is_nan.
  rewrite !FloatAxioms.eqb_spec, FloatAxioms.add_spec.
  change (Prim2SF 0%float) with (S754_zero false).
  destruct (Prim2SF x) as [[|]|[|]| |[|] m e]; cbn; try reflexivity;
    unfold SFeqb, SFcompare; rewrite ?Z.compare_refl;
    change (PosDef.Pos.compare_cont Eq m m) with (Pos.compare m m);
    rewrite ?Pos.compare_refl; reflexivity.
Qed.

End F64Facts.
Import F64Facts.

(* ================================================================== *)
(** * Calendar and clock parsing, on examples *)
(* ================================================================== *)

Example civil_2024_12_01 :
  FormatDate (mkTime (1733011200 * Second) UTC) = "2024-12-01"%string
  /\ Weekday (mkTime (1733011200 * Second) UTC) = 0
  /\ Date 2024 12 1 0 0 0 0 UTC = mkTime (1733011200 * Second) UTC
  /\ FormatDate (mkTime (951782400 * Second) UTC) = "2000-02-29"%string
  /\ FormatDate (mkTime (-1) UTC) = "1969-12-31"%string
  /\ FormatDate (mkTime (1733011200 * Second) (-3600)) = "2024-11-30"%string.
Proof. vm_compute. repeat split. Qed.

Example parse_clock_examples :
  option_map (fun t => (HourOf t, MinuteOf t)) (ParseClock "22:00") = Some (22, 0)
  /\ option_map (fun t => (HourOf t, MinuteOf t)) (ParseClock "07:00") = Some (7, 0)
  /\ option_map (fun t => (HourOf t, MinuteOf t)) (ParseClock "7:05") = Some (7, 5)
  /\ option_map (fun t => (HourOf t, MinuteOf t)) (ParseClock "23:30") = Some (23, 30)
  /\ ParseClock "24:00" = None
  /\ ParseClock "07:0" = None
  /\ ParseClock "0700" = None
  /\ ParseClock "07:00 " = None.
Proof. vm_compute. repeat split. Qed.

(* ================================================================== *)
(** * [sort.Slice] rearranges *)
(* ================================================================== *)

Module GoSortFacts.
Import GoSort.

Example Slice_small :
  Slice Z.ltb [5; 3; 9; 1; 3; 7] = [1; 3; 3; 5; 7; 9].
Proof. vm_compute. reflexivity. Qed.

Example Slice_larger :
  Slice Z.ltb [20; 3; 19; 1; 18; 7; 17; 2; 16; 4; 15; 6; 14; 5; 13; 8; 12; 9; 11; 10]
  = [1; 2; 3; 4; 5; 6; 7; 8; 9; 10; 11; 12; 13; 14; 15; 16; 17; 18; 19; 20].
Proof. vm_compute. reflexivity. Qed.

Lemma insert_head_perm {A : Type} (l : list A) (j : nat) (x y : A) :
  l !! j = Some y -> Permutation (y :: <[j := x]> l) (x :: l).
Proof.
  revert j. induction l as [|a l IH]; intros j Hj; [discriminate|].
  destruct j as [|j]; cbn in *.
  - injection Hj as ->. apply perm_swap.
  - rewrite perm_swap. rewrite (IH j Hj). apply perm_swap.
Qed.

Lemma insert_swap_perm {A : Type} (l : list A) (i j : nat) (x y : A) :
  l !! i = Some x -> l !! j = Some y ->
  Permutation (<[i := y]> (<[j := x]> l)) l.
Proof.
  revert i j. induction l as [|a l IH]; intros i j Hi Hj; [discriminate|].
  destruct i as [|i], j as [|j]; cbn in *.
  - injection Hi as ->. injection Hj as ->. reflexivity.
  - injection Hi as ->. apply insert_head_perm. exact Hj.
  - injection Hj as ->. apply insert_head_perm. exact Hi.
  - constructor. apply IH; assumption.
Qed.

Section Permutes.
Context {A : Type}.
Variable less : A -> A -> bool.

Lemma Swap_perm (data : list A) (i j : Z) : Permutation (Swap data i j) data.
Proof.
  unfold Swap.
  destruct (data !! Z.to_nat i) as [x|] eqn:Ei; [|reflexivity].
  destruct (data !! Z.to_nat j) as [y|] eqn:Ej; [|reflexivity].
  apply insert_swap_perm; assumption.
Qed.

Ltac loop_perm f :=
  let fuel := fresh "fuel" in
  let IH := fresh "IH" in
  intros fuel; induction fuel as [|fuel IH]; intros; cbn [f];
  [reflexivity|];
  repeat match goal with
    | |- context [if ?b then _ else _] => destruct b
    end;
  rewrite ?IH, ?Swap_perm; reflexivity.

Lemma insertionSort_inner_perm :
  forall (fuel : nat) (data : list A) (a j : Z),
    Permutation (insertionSort_inner less fuel data a j) data.
Proof. loop_perm (@insertionSort_inner). Qed.

Lemma insertionSort_outer_perm :
  forall (fuel : nat) (data : list A) (a b i : Z),
    Permutation (insertionSort_outer less fuel data a b i) data.
Proof.
  intros fuel; induction fuel as [|fuel IH]; intros; cbn [insertionSort_outer];
    [reflexivity|].
  destruct (i <? b); [|reflexivity].
  rewrite IH. apply insertionSort_inner_perm.
Qed.

Lemma insertionSort_func_perm (data : list A) (a b : Z) :
  Permutation (insertionSort_func less data a b) data.
Proof. apply insertionSort_outer_perm. Qed.

Lemma siftDown_loop_perm :
  forall (fuel : nat) (data : list A) (root hi first : Z),
    Permutation (siftDown_loop less fuel data root hi first) data.
Proof. loop_perm (@siftDown_loop). Qed.

Lemma heapSort_build_perm :
  forall (fuel : nat) (data : list A) (i hi first : Z),
    Permutation (heapSort_build less fuel data i hi first) data.
Proof.
  intros fuel; induction fuel as [|fuel IH]; intros; cbn [heapSort_build];
    [reflexivity|].
  destruct (0 <=? i); [|reflexivity].
  rewrite IH. apply siftDown_loop_perm.
Qed.

Lemma heapSort_pop_perm :
  forall (fuel : nat) (data : list A) (i lo first : Z),
    Permutation (heapSort_pop less fuel data i lo first) data.
Proof.
  intros fuel; induction fuel as [|fuel IH]; intros; cbn [heapSort_pop];
    [reflexivity|].
  destruct (0 <=? i); [|reflexivity].
  rewrite IH. unfold siftDown_func. rewrite siftDown_loop_perm.
  apply Swap_perm.
Qed.

Lemma heapSort_func_perm (data : list A) (a b : Z) :
  Permutation (heapSort_func less data a b) data.
Proof.
  unfold heapSort_func. rewrite heapSort_pop_perm. apply heapSort_build_perm.
Qed.

Lemma reverseRange_loop_perm :
  forall (fuel : nat) (data : list A) (i j : Z),
    Permutation (reverseRange_loop fuel data i j) data.
Proof. loop_perm (@reverseRange_loop). Qed.

Lemma shiftLeft_perm :
  forall (fuel : nat) (data : list A) (j : Z),
    Permutation (shiftLeft less fuel data j) data.
Proof. loop_perm (@shiftLeft). Qed.

Lemma shiftRight_perm :
  forall (fuel : nat) (data : list A) (j b : Z),
    Permutation (shiftRight less fuel data j b) data.
Proof. loop_perm (@shiftRight). Qed.

Lemma partialInsertionSort_steps_perm :
  forall (steps : nat) (data : list A) (a b i : Z),
    Permutation (fst (partialInsertionSort_steps less steps data a b i)) data.
Proof.
  intros steps; induction steps as [|steps IH]; intros;
    cbn [partialInsertionSort_steps]; [reflexivity|].
  cbv zeta.
  repeat match goal with
    | |- context [if ?b then _ else _] => destruct b
    end; cbn [fst]; try reflexivity;
  rewrite IH, ?shiftRight_perm, ?shiftLeft_perm, ?Swap_perm; reflexivity.
Qed.

Lemma partition_loop_perm :
  forall (fuel : nat) (data : list A) (a i j : Z),
    Permutation (fst (partition_loop less fuel data a i j)) data.
Proof.
  intros fuel; induction fuel as [|fuel IH]; intros; cbn [partition_loop];
    [reflexivity|].
  cbv zeta.
  match goal with |- context [if ?b then _ else _] => destruct b end;
    [reflexivity|].
  rewrite IH. apply Swap_perm.
Qed.

Lemma partition_func_perm (data : list A) (a b pivot : Z) :
  Permutation (fst (fst (partition_func less data a b pivot))) data.
Proof.
  unfold partition_func. cbv zeta.
  match goal with |- context [if ?b then _ else _] => destruct b end.
  - cbn [fst]. rewrite !Swap_perm. reflexivity.
  - match goal with |- context [partition_loop ?l ?f ?d ?a ?i ?j] =>
      pose proof (partition_loop_perm f d a i j) as H;
      destruct (partition_loop l f d a i j) as [data' j']
    end.
    cbn [fst] in *. rewrite Swap_perm, H, !Swap_perm. reflexivity.
Qed.

Lemma partitionEqual_loop_perm :
  forall (fuel : nat) (data : list A) (a i j : Z),
    Permutation (fst (partitionEqual_loop less fuel data a i j)) data.
Proof.
  intros fuel; induction fuel as [|fuel IH]; intros; cbn [partitionEqual_loop];
    [reflexivity|].
  cbv zeta.
  match goal with |- context [if ?b then _ else _] => destruct b end;
    [reflexivity|].
  rewrite IH. apply Swap_perm.
Qed.

Lemma partitionEqual_func_perm (data : list A) (a b pivot : Z) :
  Permutation (fst (partitionEqual_func less data a b pivot)) data.
Proof.
  unfold partitionEqual_func. rewrite partitionEqual_loop_perm.
  apply Swap_perm.
Qed.

Lemma breakPatterns_loop_perm :
  forall (n : nat) (data : list A) (a length idx i random modulus : Z),
    Permutation (breakPatterns_loop n data a length idx i random modulus) data.
Proof.
  intros n; induction n as [|n IH]; intros; cbn [breakPatterns_loop];
    [reflexivity|].
  cbv zeta. rewrite IH. apply Swap_perm.
Qed.

Lemma breakPatterns_func_perm (data : list A) (a b : Z) :
  Permutation (breakPatterns_func data a b) data.
Proof.
  unfold breakPatterns_func. destruct (8 <=? b - a); [|reflexivity].
  apply breakPatterns_loop_perm.
Qed.

Lemma pdqsort_loop_perm :
  forall (fuel : nat) (data : list A) (a b limit : Z)
         (wasBalanced wasPartitioned : bool),
    Permutation
      (pdqsort_loop less fuel data a b limit wasBalanced wasPartitioned) data.
Proof.
  intros fuel; induction fuel as [|fuel IH]; intros; cbn [pdqsort_loop];
    [reflexivity|].
  cbv zeta.
  destruct (b - a <=? 12); [apply insertionSort_func_perm|].
  destruct (limit =? 0); [apply heapSort_func_perm|].
  set (bp := if negb wasBalanced then (breakPatterns_func data a b, limit - 1)
             else (data, limit)).
  assert (Hbp : Permutation (fst bp) data).
  { subst bp. destruct (negb wasBalanced); cbn [fst];
      [apply breakPatterns_func_perm|reflexivity]. }
  destruct bp as [data1 limit1]. cbn [fst] in Hbp.
  destruct (choosePivot_func less data1 a b) as [pivot hint].
  set (rv := match hint with
             | decreasingHint =>
                 (reverseRange_func data1 a b, b - 1 - (pivot - a), increasingHint)
             | _ => (data1, pivot, hint)
             end).
  assert (Hrv : Permutation (fst (fst rv)) data).
  { subst rv. destruct hint; cbn [fst]; try exact Hbp.
    unfold reverseRange_func. rewrite reverseRange_loop_perm. exact Hbp. }
  destruct rv as [[data2 pivot2] hint2]. cbn [fst] in Hrv.
  set (pi := match hint2 with
             | increasingHint =>
                 if wasBalanced && wasPartitioned
                 then partialInsertionSort_func less data2 a b
                 else (data2, false)
             | _ => (data2, false)
             end).
  assert (Hpi : Permutation (fst pi) data).
  { subst pi. destruct hint2; cbn [fst]; try exact Hrv.
    destruct (wasBalanced && wasPartitioned); cbn [fst]; [|exact Hrv].
    unfold partialInsertionSort_func.
    rewrite partialInsertionSort_steps_perm. exact Hrv. }
  destruct pi as [data3 done]. cbn [fst] in Hpi.
  destruct done; [exact Hpi|].
  destruct ((0 <? a) && negb (Less less data3 (a - 1) pivot2)).
  - pose proof (partitionEqual_func_perm data3 a b pivot2) as Hpe.
    destruct (partitionEqual_func less data3 a b pivot2) as [data4 mid].
    cbn [fst] in Hpe. rewrite IH, Hpe. exact Hpi.
  - pose proof (partition_func_perm data3 a b pivot2) as Hpf.
    destruct (partition_func less data3 a b pivot2) as [[data4 mid] already].
    cbn [fst] in Hpf.
    destruct (mid - a <? b - mid); rewrite !IH, Hpf; exact Hpi.
Qed.

Lemma Slice_perm (x : list A) : Permutation (Slice less x) x.
Proof. apply pdqsort_loop_perm. Qed.

End Permutes.

End GoSortFacts.

(* ================================================================== *)
(** * Sorters that meet the contract *)
(* ================================================================== *)

Lemma insertBefore_perm {A : Type} (less : A -> A -> bool) (x : A) (l : list A) :
  Permutation (insertBefore less x l) (x :: l).
Proof.
  induction l as [|y r IH]; cbn [insertBefore]; [reflexivity|].
  destruct (less y x); [|reflexivity].
  rewrite IH. apply perm_swap.
Qed.

Lemma insertionSorted_perm {A : Type} (less : A -> A -> bool) (l : list A) :
  Permutation (insertionSorted less l) l.
Proof.
  induction l as [|x r IH]; cbn [insertionSorted]; [reflexivity|].
  rewrite insertBefore_perm. now constructor.
Qed.

Lemma StrictWeakOn_incl {A : Type} (less : A -> A -> bool) (l l' : list A) :
  (forall x, In x l' -> In x l) -> StrictWeakOn less l -> StrictWeakOn less l'.
Proof.
  intros Hin (Hirr & Htr & Hneg). repeat split.
  - intros x Hx. apply Hirr; auto.
  - intros x y z Hx Hy Hz. apply Htr; auto.
  - intros x y z Hx Hy Hz. apply Hneg; auto.
Qed.

Lemma insertBefore_sorted {A : Type} (less : A -> A -> bool) (x : A) (l : list A) :
  StrictWeakOn less (x :: l) -> SortedBy less l ->
  SortedBy less (insertBefore less x l).
Proof.
  unfold SortedBy. intros HW HS.
  induction HS as [|y r HS IH Hy]; cbn [insertBefore].
  - constructor; constructor.
  - destruct HW as (Hirr & Htr & Hneg).
    destruct (less y x) eqn:Eyx.
    + constructor.
      * apply IH. apply (StrictWeakOn_incl less (x :: y :: r)).
        { intros z [->|Hz]; [left|right; right]; auto. }
        repeat split; assumption.
      * apply List.Forall_forall. intros z Hz.
        apply (Permutation_in _ (insertBefore_perm less x r)) in Hz.
        destruct Hz as [<-|Hz].
        -- destruct (less x y) eqn:Exy; [|reflexivity].
           assert (less x x = true) as Hxx
             by (apply (Htr x y x); cbn; auto).
           rewrite Hirr in Hxx by (cbn; auto). discriminate.
        -- rewrite List.Forall_forall in Hy. auto.
    + constructor; [constructor; assumption|].
      constructor; [assumption|].
      apply List.Forall_forall. intros z Hz.
      rewrite List.Forall_forall in Hy.
      apply (Hneg z y x); cbn; auto.
Qed.

Lemma insertionSorted_sorted {A : Type} (less : A -> A -> bool) (l : list A) :
  StrictWeakOn less l -> SortedBy less (insertionSorted less l).
Proof.
  induction l as [|x r IH]; intros HW; cbn [insertionSorted].
  - constructor.
  - apply insertBefore_sorted.
    + apply (StrictWeakOn_incl less (x :: r)); [|assumption].
      intros z [->|Hz]; [left; reflexivity|right].
      apply (Permutation_in _ (insertionSorted_perm less r)); assumption.
    + apply IH. apply (StrictWeakOn_incl less (x :: r)); [|assumption].
      intros z Hz; right; assumption.
Qed.

Lemma refSortSlice_spec : SortSliceSpec refSortSlice.
Proof.
  split.
  - intros A less l. apply insertionSorted_perm.
  - intros A less l. apply insertionSorted_sorted.
Qed.

(** The model of the library routine meets the first half. *)
Lemma goSortSlice_permutes : SortPermutes goSortSlice.
Proof. intros A less l. apply GoSortFacts.Slice_perm. Qed.

(* ================================================================== *)
(** * The constraint filter *)
(* ================================================================== *)

Example requiredSlots_agrees :
  forallb (fun m => match requiredSlotsFloat m with
                    | Some n => n =? requiredSlotsFor m
                    | None => false
                    end)
          (map Z.of_nat (seq 1 2000)) = true.
Proof. vm_compute. reflexivity. Qed.

Lemma After_NotAfter (t u : Time) : After t u = negb (NotAfter t u).
Proof. unfold After, NotAfter. lia. Qed.

Lemma filterByConstraints_filter (slots : list PriceSlot) (c : Constraints) :
  filterByConstraints slots c = List.filter (codeKeeps c) slots.
Proof.
  induction slots as [|slot rest IH]; [reflexivity|].
  cbn [filterByConstraints List.filter]. rewrite IH.
  unfold codeKeeps, keepsByTime.
  destruct (c_PriceCapPence c) as [cap|];
    [destruct (gt (slot_PencePerKWh slot) cap)|]; cbn [negb andb];
    try reflexivity;
    (destruct (length (c_Allowed c)) as [|na];
     cbn [Nat.ltb Nat.leb Nat.eqb orb andb];
     [|destruct (isInTimeWindows (slot_Start slot) (c_Allowed c));
       cbn [negb andb]; try reflexivity]);
    (destruct (length (c_Blocked c)) as [|nb];
     cbn [Nat.ltb Nat.leb Nat.eqb orb andb];
     [|destruct (isInTimeWindows (slot_Start slot) (c_Blocked c));
       cbn [negb andb]; try reflexivity]);
    (destruct (3 <=? c_NoiseLevel c); cbn [andb implb negb];
     [destruct (length (c_QuietHours c)) as [|nq];
      cbn [Nat.ltb Nat.leb Nat.eqb orb andb implb negb];
      [|destruct (isInTimeWindows (slot_Start slot) (c_QuietHours c));
        cbn [negb andb implb]; try reflexivity]|]);
    (destruct (c_StartBy c) as [sb|];
     [rewrite After_NotAfter; destruct (NotAfter (slot_Start slot) sb);
      cbn [negb andb]; try reflexivity|]);
    (destruct (c_FinishBy c) as [fb|];
     [rewrite After_NotAfter; destruct (NotAfter (slot_End slot) fb);
      cbn [negb andb]; try reflexivity|]);
    reflexivity.
Qed.

Lemma filterByConstraints_In (slots : list PriceSlot) (c : Constraints) (s : PriceSlot) :
  In s (filterByConstraints slots c) <-> In s slots /\ codeKeeps c s = true.
Proof. rewrite filterByConstraints_filter. apply filter_In. Qed.

Lemma filter_filter_same {A : Type} (p : A -> bool) (l : list A) :
  List.filter p (List.filter p l) = List.filter p l.
Proof.
  induction l as [|x l IH]; [reflexivity|].
  cbn [List.filter]. destruct (p x) eqn:E; [|assumption].
  cbn [List.filter]. rewrite E, IH. reflexivity.
Qed.

(** C2 fails on the code.  On the repository's test case "60 minute run with
    quiet hours" (noise level 4, quiet hours 22:00-07:00) the slot that
    starts at 03:00 lies in the quiet hours, so the subsequence that the
    specification describes leaves it out, with the other slots from
    midnight to 07:00 and those from 22:00 on: there remain the thirty slots
    from 07:00 to 21:30.
    [filterByConstraints] keeps the slot of 03:00 and returns the forty-four
    slots from 00:00 to 21:30: [matchesTimeWindow] does not find in a window
    that wraps past midnight the times after midnight. *)
Theorem C2_filter_keeps_quiet_hours_slot :
  In threeAMSlot testSlots
  /\ c_NoiseLevel quietConstraints = 4
  /\ c_QuietHours quietConstraints = [overnight]
  /\ specMatchesTimeWindow (slot_Start threeAMSlot) overnight = true
  /\ List.filter (specKeeps quietConstraints) [threeAMSlot] = []
  /\ filterByConstraints [threeAMSlot] quietConstraints = [threeAMSlot]
  /\ List.filter (specKeeps quietConstraints) testSlots
     = firstn 30 (skipn 14 testSlots)
  /\ filterByConstraints testSlots quietConstraints = firstn 44 testSlots.
Proof.
  split; [vm_compute; do 6 right; left; reflexivity|].
  repeat split; vm_compute; reflexivity.
Qed.

(** C8: [filterByConstraints] is idempotent. *)
Theorem C8_filterByConstraints_idempotent :
  forall (slots : list PriceSlot) (c : Constraints),
    filterByConstraints (filterByConstraints slots c) c
    = filterByConstraints slots c.
Proof.
  intros slots c. rewrite !filterByConstraints_filter.
  apply filter_filter_same.
Qed.

(* ================================================================== *)
(** * The practical constraint adapter *)
(* ================================================================== *)

(** C7: for a manual-control appliance [ApplyPracticalConstraints] sets the
    allowed windows to the household's available hours when there are any,
    and otherwise to the single window 07:00-23:30 on every day of the week,
    and leaves the other six fields as they were; for a smart-control
    appliance it leaves the constraints as they were. *)
Theorem C7_ApplyPracticalConstraints_frame :
  forall (appliance : Appliance) (household : Household) (c : Constraints),
    let c' := ApplyPracticalConstraints appliance household c in
    (a_ControlType appliance = ControlManual ->
       c_Allowed c' =
         match h_AvailableHours household with
         | [] => [mkTimeWindow "07:00" "23:30" [1; 2; 3; 4; 5; 6; 7]]
         | _ :: _ => h_AvailableHours household
         end
       /\ c_Blocked c' = c_Blocked c
       /\ c_QuietHours c' = c_QuietHours c
       /\ c_FinishBy c' = c_FinishBy c
       /\ c_StartBy c' = c_StartBy c
       /\ c_PriceCapPence c' = c_PriceCapPence c
       /\ c_NoiseLevel c' = c_NoiseLevel c)
    /\ (a_ControlType appliance = ControlSmart -> c' = c).
Proof.
  intros appliance household c c'. subst c'. unfold ApplyPracticalConstraints.
  split; intros ->.
  - change (String.eqb ControlManual ControlManual) with true. cbv iota.
    destruct (h_AvailableHours household) as [|w ws]; cbn; repeat split.
  - change (String.eqb ControlSmart ControlManual) with false. reflexivity.
Qed.

(* ================================================================== *)
(** * Window search *)
(* ================================================================== *)

Lemma requiredSlotsFor_ceiling (runMinutes : Z) :
  30 * (requiredSlotsFor runMinutes - 1) < runMinutes
  /\ runMinutes <= 30 * requiredSlotsFor runMinutes.
Proof.
  unfold requiredSlotsFor.
  pose proof (Z.div_mod (runMinutes + 29) 30 ltac:(lia)) as H.
  pose proof (Z.mod_pos_bound (runMinutes + 29) 30 ltac:(lia)) as H'.
  lia.
Qed.

Lemma requiredSlotsFor_pos (runMinutes : Z) :
  0 < runMinutes -> 1 <= requiredSlotsFor runMinutes.
Proof. pose proof (requiredSlotsFor_ceiling runMinutes). lia. Qed.

Lemma recommendationOf_nonempty (sortSlice : SliceSorter)
  (slots window : list PriceSlot) (opts : Options) (req : Z) :
  window <> [] -> exists r, recommendationOf sortSlice slots window opts req = Some r.
Proof.
  intros Hne. unfold recommendationOf.
  destruct window as [|first rest]; [congruence|].
  destruct (last (first :: rest)) as [final|] eqn:E; [eauto|].
  apply last_None in E. discriminate.
Qed.

Lemma scanWindows_step (sortSlice : SliceSorter) (slots : list PriceSlot)
  (x : PriceSlot) (tail : list PriceSlot) (opts : Options) (req : Z) :
  scanWindows sortSlice slots (x :: tail) opts req =
  if req <=? Z.of_nat (length (x :: tail)) then
    match (if isContiguous (windowAt (x :: tail) 0 req)
           then recommendationOf sortSlice slots (windowAt (x :: tail) 0 req)
                  opts req
           else None) with
    | Some r => r :: scanWindows sortSlice slots tail opts req
    | None => scanWindows sortSlice slots tail opts req
    end
  else [].
Proof.
  cbn [scanWindows]. unfold windowAt, recommendationOf. cbn [skipn].
  destruct (req <=? Z.of_nat (length (x :: tail))); [|reflexivity].
  destruct (isContiguous (firstn (Z.to_nat req) (x :: tail))); cbn [negb];
    [|reflexivity].
  destruct (firstn (Z.to_nat req) (x :: tail)) as [|first rest];
    [reflexivity|].
  destruct (last (first :: rest)); reflexivity.
Qed.

Lemma windowAt_nonempty (feasible : list PriceSlot) (i : nat) (req : Z) :
  1 <= req -> Z.of_nat i + req <= Z.of_nat (length feasible) ->
  windowAt feasible i req <> [].
Proof.
  intros Hreq Hlen Hnil. unfold windowAt in Hnil.
  apply (f_equal (@length PriceSlot)) in Hnil.
  rewrite length_firstn, length_skipn in Hnil. cbn in Hnil. lia.
Qed.

(** The candidates are the Recommendations of the contiguous windows. *)
Lemma scanWindows_In (sortSlice : SliceSorter) (slots rest : list PriceSlot)
  (opts : Options) (req : Z) (r : Recommendation) :
  1 <= req ->
  (In r (scanWindows sortSlice slots rest opts req) <->
   exists i : nat,
     Z.of_nat i + req <= Z.of_nat (length rest)
     /\ isContiguous (windowAt rest i req) = true
     /\ recommendationOf sortSlice slots (windowAt rest i req) opts req = Some r).
Proof.
  intros Hreq. induction rest as [|x tail IH].
  - cbn [scanWindows In length]. split; [tauto|].
    intros (i & Hi & _). lia.
  - rewrite scanWindows_step.
    destruct (req <=? Z.of_nat (length (x :: tail))) eqn:Elen.
    + apply Z.leb_le in Elen.
      assert (Hshift : forall i, windowAt (x :: tail) (S i) req = windowAt tail i req)
        by reflexivity.
      split.
      * intros Hin.
        assert (Hcase :
          (isContiguous (windowAt (x :: tail) 0 req) = true
           /\ recommendationOf sortSlice slots (windowAt (x :: tail) 0 req)
                opts req = Some r)
          \/ In r (scanWindows sortSlice slots tail opts req)).
        { destruct (isContiguous (windowAt (x :: tail) 0 req));
            [|right; exact Hin].
          destruct (recommendationOf sortSlice slots (windowAt (x :: tail) 0 req)
                      opts req);
            [|right; exact Hin].
          destruct Hin as [->|Hin]; [left; split; reflexivity|right; exact Hin]. }
        destruct Hcase as [[Hc Hr]|Hin'].
        -- exists 0%nat. repeat split; try assumption; try lia.
        -- apply IH in Hin' as (i & Hi & Hc & Hr).
           exists (S i). rewrite Hshift. repeat split; try assumption.
           cbn [length]. lia.
      * intros (i & Hi & Hc & Hr). destruct i as [|i].
        -- rewrite Hc, Hr. left. reflexivity.
        -- rewrite Hshift in Hc, Hr.
           assert (In r (scanWindows sortSlice slots tail opts req)) as Hin.
           { apply IH. exists i. repeat split; try assumption.
             cbn [length] in Hi. lia. }
           destruct (isContiguous (windowAt (x :: tail) 0 req));
             [|exact Hin].
           destruct (recommendationOf sortSlice slots (windowAt (x :: tail) 0 req)
                       opts req);
             [right|]; exact Hin.
    + apply Z.leb_gt in Elen. cbn [In]. split; [tauto|].
      intros (i & Hi & _). lia.
Qed.

Lemma StronglySorted_firstn {A : Type} (R : A -> A -> Prop) (n : nat) (l : list A) :
  StronglySorted R l -> StronglySorted R (firstn n l).
Proof.
  intros HS. revert n. induction HS as [|x l HS IH Hx]; intros [|n];
    cbn [firstn]; try constructor.
  - apply IH.
  - apply List.Forall_forall. intros y Hy.
    rewrite List.Forall_forall in Hx. apply Hx.
    rewrite <- (firstn_skipn n l). apply in_or_app. left. exact Hy.
Qed.

(** What [BestWindows] returns when it returns: the head of the sorted
    candidates. *)
Lemma BestWindows_Ok (sortSlice : SliceSorter) (slots : list PriceSlot)
  (runMinutes : Z) (c : Constraints) (opts : Options) (topN : Z)
  (recs : list Recommendation) :
  BestWindows sortSlice slots runMinutes c opts topN = Ok recs ->
  0 < runMinutes
  /\ candidateWindows sortSlice slots runMinutes c opts <> []
  /\ exists n : nat,
       (1 <= n)%nat
       /\ recs = firstn n (sortSlice Recommendation lessByScore
                             (candidateWindows sortSlice slots runMinutes c opts)).
Proof.
  unfold BestWindows, candidateWindows.
  destruct (length slots =? 0)%nat; [discriminate|].
  destruct (runMinutes <=? 0) eqn:Erun; [discriminate|].
  apply Z.leb_gt in Erun.
  destruct (Z.of_nat (length (filterByConstraints slots c)) <? requiredSlotsFor runMinutes);
    [discriminate|].
  set (cands := scanWindows sortSlice slots (filterByConstraints slots c) opts
                  (requiredSlotsFor runMinutes)).
  destruct (length cands =? 0)%nat eqn:Ecands; [discriminate|].
  apply Nat.eqb_neq in Ecands.
  intros H. split; [exact Erun|]. split.
  { intros Hnil. rewrite Hnil in Ecands. apply Ecands. reflexivity. }
  set (topN' := if topN <=? 0 then 3 else topN) in *.
  assert (1 <= topN') by (subst topN'; destruct (topN <=? 0) eqn:E; lia).
  destruct (topN' <? Z.of_nat (length (sortSlice Recommendation lessByScore cands))) eqn:Etop.
  - exists (Z.to_nat topN'). split; [lia|]. congruence.
  - exists (S (length (sortSlice Recommendation lessByScore cands))).
    split; [lia|]. rewrite firstn_all2 by lia. congruence.
Qed.

(** C3: [BestWindows] fails with InvalidInput exactly when the slot list is
    empty or runMinutes <= 0; otherwise, with requiredSlots the ceiling of
    runMinutes / 30, it fails with NoFeasibleSlots exactly when fewer
    feasible slots than that survive the filter or no run of that many
    feasible slots is contiguous; in every other case it returns a non-empty
    list. *)
Theorem C3_BestWindows_outcomes :
  forall (sortSlice : SliceSorter), SortPermutes sortSlice ->
  forall (slots : list PriceSlot) (runMinutes : Z) (c : Constraints)
         (opts : Options) (topN : Z),
    let requiredSlots := requiredSlotsFor runMinutes in
    let feasible := filterByConstraints slots c in
    let noRun :=
      forall i : nat,
        Z.of_nat i + requiredSlots <= Z.of_nat (length feasible) ->
        isContiguous (windowAt feasible i requiredSlots) = false in
    let r := BestWindows sortSlice slots runMinutes c opts topN in
    (r = Err ErrInvalidInput <-> slots = [] \/ runMinutes <= 0)
    /\ (slots <> [] -> 0 < runMinutes ->
        (30 * (requiredSlots - 1) < runMinutes <= 30 * requiredSlots)
        /\ (r = Err ErrNoFeasibleSlots <->
            Z.of_nat (length feasible) < requiredSlots \/ noRun)
        /\ (~ (Z.of_nat (length feasible) < requiredSlots \/ noRun) ->
            exists recs, r = Ok recs /\ recs <> [])).
Proof.
  intros sortSlice Hperm slots runMinutes c opts topN req feasible noRun r.
  subst r. unfold BestWindows. fold req. fold feasible.
  destruct (length slots =? 0)%nat eqn:Eslots.
  { apply Nat.eqb_eq in Eslots. apply length_zero_iff_nil in Eslots.
    split; [split; auto|]. intros Hne. congruence. }
  assert (Hslots : slots <> []).
  { intros Hnil. rewrite Hnil in Eslots. discriminate. }
  destruct (runMinutes <=? 0) eqn:Erun.
  { apply Z.leb_le in Erun. split; [split; auto|]. intros _ Hpos. lia. }
  apply Z.leb_gt in Erun.
  pose proof (requiredSlotsFor_pos runMinutes Erun) as Hreq. fold req in Hreq.
  set (cands := scanWindows sortSlice slots feasible opts req).
  assert (Hcands : cands = [] <-> noRun).
  { split.
    - intros Hnil i Hi.
      destruct (isContiguous (windowAt feasible i req)) eqn:Ec; [|reflexivity].
      destruct (recommendationOf_nonempty sortSlice slots
                  (windowAt feasible i req) opts req)
        as [r0 Hr0]; [apply windowAt_nonempty; assumption|].
      assert (In r0 cands) as Hin
        by (apply scanWindows_In; [assumption|exists i; auto]).
      rewrite Hnil in Hin. destruct Hin.
    - intros Hno. destruct cands as [|r0 rest] eqn:E; [reflexivity|].
      assert (In r0 cands) as Hin by (rewrite E; left; reflexivity).
      apply scanWindows_In in Hin as (i & Hi & Hc & _); [|assumption].
      rewrite (Hno i Hi) in Hc. discriminate. }
  destruct (Z.of_nat (length feasible) <? req) eqn:Elen.
  { apply Z.ltb_lt in Elen. split.
    - split; [discriminate|]. intros [H|H]; [contradiction|lia].
    - intros _ _. split; [apply requiredSlotsFor_ceiling|].
      split; [split; auto|]. intros Hn. exfalso. apply Hn. left. exact Elen. }
  apply Z.ltb_ge in Elen.
  destruct (length cands =? 0)%nat eqn:Ecands.
  { apply Nat.eqb_eq in Ecands. apply length_zero_iff_nil in Ecands. split.
    - split; [discriminate|]. intros [H|H]; [contradiction|lia].
    - intros _ _. split; [apply requiredSlotsFor_ceiling|].
      split; [split; auto|].
      + intros _. right. apply Hcands. exact Ecands.
      + intros Hn. exfalso. apply Hn. right. apply Hcands. exact Ecands. }
  apply Nat.eqb_neq in Ecands.
  assert (Hcne : cands <> []).
  { intros Hnil. rewrite Hnil in Ecands. apply Ecands. reflexivity. }
  pose proof (Permutation_length (Hperm Recommendation lessByScore cands)) as Hlen.
  set (sorted := sortSlice Recommendation lessByScore cands) in *.
  set (topN' := if topN <=? 0 then 3 else topN).
  assert (1 <= topN') by (subst topN'; destruct (topN <=? 0) eqn:E; lia).
  split.
  - split; [destruct (topN' <? Z.of_nat (length sorted)); discriminate|].
    intros [H'|H']; [contradiction|lia].
  - intros _ _. split; [apply requiredSlotsFor_ceiling|]. split.
    + split; [destruct (topN' <? Z.of_nat (length sorted)); discriminate|].
      intros [H'|H']; [lia|]. apply Hcands in H'. contradiction.
    + intros _.
      destruct (topN' <? Z.of_nat (length sorted)) eqn:Etop;
        eexists; (split; [reflexivity|]).
      * intros Hnil. apply (f_equal (@length Recommendation)) in Hnil.
        rewrite length_firstn in Hnil.
        change (length (@nil Recommendation)) with 0%nat in Hnil. lia.
      * intros Hnil. apply (f_equal (@length Recommendation)) in Hnil.
        change (length (@nil Recommendation)) with 0%nat in Hnil. lia.
Qed.

(** C3 at the four morning slots, a 60 minute run and no constraints: a
    non-empty list comes back. *)
Lemma C3_BestWindows_outcomes_witness :
  SortPermutes goSortSlice
  /\ exists recs,
       BestWindows goSortSlice fourSlots 60 noConstraints oneKWh 3 = Ok recs
       /\ recs <> [].
Proof.
  split; [apply goSortSlice_permutes|].
  apply (C3_BestWindows_outcomes goSortSlice goSortSlice_permutes
           fourSlots 60 noConstraints oneKWh 3).
  - discriminate.
  - reflexivity.
  - intros [Hlt|Hno].
    + vm_compute in Hlt. discriminate Hlt.
    + specialize (Hno 0%nat ltac:(vm_compute; discriminate)).
      vm_compute in Hno. discriminate Hno.
Defined.

(** C4: every Recommendation [BestWindows] returns comes from a contiguous
    run of requiredSlots feasible slots; its score is the sum, slot by slot
    from 0, of price * (estimatedEnergyUnits / requiredSlots), and its cost
    is that score divided by 100. *)
Theorem C4_score_and_cost :
  forall (sortSlice : SliceSorter), SortPermutes sortSlice ->
  forall (slots : list PriceSlot) (runMinutes : Z) (c : Constraints)
         (opts : Options) (topN : Z) (recs : list Recommendation)
         (rec : Recommendation),
    BestWindows sortSlice slots runMinutes c opts topN = Ok recs ->
    In rec recs ->
    exists i : nat,
      let requiredSlots := requiredSlotsFor runMinutes in
      let feasible := filterByConstraints slots c in
      let window := windowAt feasible i requiredSlots in
      Z.of_nat i + requiredSlots <= Z.of_nat (length feasible)
      /\ Z.of_nat (length window) = requiredSlots
      /\ isContiguous window = true
      /\ rec_Score rec =
           fold_left
             (fun total slot =>
                PrimFloat.add total
                  (PrimFloat.mul (slot_PencePerKWh slot)
                     (PrimFloat.div (o_EstKWh opts) (of_int requiredSlots))))
             window 0%float
      /\ rec_CostGBP rec = PrimFloat.div (rec_Score rec) 100%float.
Proof.
  intros sortSlice Hperm slots runMinutes c opts topN recs rec HOk Hin.
  apply BestWindows_Ok in HOk as (Hrun & _ & n & _ & ->).
  assert (In rec (candidateWindows sortSlice slots runMinutes c opts)) as Hc.
  { apply (Permutation_in _ (Hperm Recommendation lessByScore _)).
    rewrite <- (firstn_skipn n
                  (sortSlice Recommendation lessByScore
                     (candidateWindows sortSlice slots runMinutes c opts))).
    apply in_or_app. left. exact Hin. }
  pose proof (requiredSlotsFor_pos runMinutes Hrun) as Hreq.
  apply scanWindows_In in Hc as (i & Hi & Hcont & Hrec); [|assumption].
  exists i. cbv zeta. split; [exact Hi|]. split.
  { unfold windowAt. rewrite length_firstn, length_skipn. lia. }
  split; [exact Hcont|].
  unfold recommendationOf in Hrec.
  destruct (windowAt (filterByConstraints slots c) i (requiredSlotsFor runMinutes))
    as [|first rest] eqn:Ew; [discriminate|].
  destruct (last (first :: rest)); [|discriminate].
  injection Hrec as <-. cbn [rec_Score rec_CostGBP]. split; reflexivity.
Qed.

(** C4 at the four morning slots (prices 10, 25, 15, 12; 60 minutes; 1 kWh):
    the best window is the last two slots, score 15 * 0.5 + 12 * 0.5. *)
Lemma C4_score_and_cost_witness :
  SortPermutes goSortSlice
  /\ exists rec rest,
       BestWindows goSortSlice fourSlots 60 noConstraints oneKWh 3
         = Ok (rec :: rest)
       /\ exists i : nat,
            rec_Score rec =
              fold_left
                (fun total slot =>
                   PrimFloat.add total
                     (PrimFloat.mul (slot_PencePerKWh slot)
                        (PrimFloat.div 1%float (of_int 2))))
                (windowAt fourSlots i 2) 0%float
            /\ rec_CostGBP rec = PrimFloat.div (rec_Score rec) 100%float.
Proof.
  split; [apply goSortSlice_permutes|].
  destruct (BestWindows goSortSlice fourSlots 60 noConstraints oneKWh 3)
    as [[|rec rest]|e] eqn:E; try (vm_compute in E; discriminate E).
  exists rec, rest. split; [reflexivity|].
  destruct (C4_score_and_cost goSortSlice goSortSlice_permutes
              fourSlots 60 noConstraints oneKWh 3 (rec :: rest) rec E
              (or_introl eq_refl))
    as (i & _ & _ & _ & Hscore & Hcost).
  exists i. split; [exact Hscore|exact Hcost].
Defined.

Lemma lessByScore_strict_weak (l : list Recommendation) :
  forallb (fun r => negb (isNaN (rec_Score r))) l = true ->
  StrictWeakOn lessByScore l.
Proof.
  intros Hnan. rewrite forallb_forall in Hnan.
  assert (Hn : forall r, In r l -> isNaN (rec_Score r) = false).
  { intros r Hr. apply Hnan in Hr. apply negb_true_iff in Hr. exact Hr. }
  unfold lessByScore. repeat split.
  - intros x _. apply lt_irrefl.
  - intros x y z _ _ _. apply lt_trans.
  - intros x y z Hx Hy Hz Hxy Hyz.
    apply le_not_gt. apply (le_trans _ (rec_Score y)).
    + apply not_gt_le; auto.
    + apply not_gt_le; auto.
Qed.

(** C5, as stated, fails.  Thirteen half-hour slots priced 5, 9, 9, 1, 9,
    9, 5, 9, ..., a 30 minute run of 1 kWh, the top three: the windows at
    the first and at the seventh slot both score 5, and [sort.Slice] (here a
    pattern-defeating quicksort, since there are more than 12 candidates)
    returns the later one first. *)
Lemma C5_equal_scores_counterexample :
  startsAndScores
    (BestWindows goSortSlice thirteenSlots 30 noConstraints oneKWh 3)
  = [(Add baseTime (3 * 30 * Minute), 1%float);
     (Add baseTime (6 * 30 * Minute), 5%float);
     (Add baseTime (0 * 30 * Minute), 5%float)]
  /\ Before (Add baseTime (0 * 30 * Minute)) (Add baseTime (6 * 30 * Minute))
     = true.
Proof. split; vm_compute; reflexivity. Qed.

(** C5, amended: when no candidate window's score is NaN, the list
    [BestWindows] returns is sorted non-decreasing by score.  (Windows of
    equal score come in the order [sort.Slice] leaves them in, which need not
    be the order of their starts.) *)
Theorem C5_sorted_by_score :
  forall (sortSlice : SliceSorter), SortSliceSpec sortSlice ->
  forall (slots : list PriceSlot) (runMinutes : Z) (c : Constraints)
         (opts : Options) (topN : Z) (recs : list Recommendation),
    forallb (fun r => negb (isNaN (rec_Score r)))
            (candidateWindows sortSlice slots runMinutes c opts) = true ->
    BestWindows sortSlice slots runMinutes c opts topN = Ok recs ->
    ScoresAscend recs.
Proof.
  intros sortSlice [Hperm Hord] slots runMinutes c opts topN recs Hnan HOk.
  apply BestWindows_Ok in HOk as (_ & _ & n & _ & ->).
  apply StronglySorted_firstn.
  set (cands := candidateWindows sortSlice slots runMinutes c opts) in *.
  pose proof (Hord Recommendation lessByScore cands
                (lessByScore_strict_weak cands Hnan)) as HS.
  assert (Hn : forall r, In r (sortSlice Recommendation lessByScore cands) ->
                         isNaN (rec_Score r) = false).
  { intros r Hr. apply (Permutation_in _ (Hperm _ lessByScore cands)) in Hr.
    rewrite forallb_forall in Hnan. apply Hnan in Hr.
    apply negb_true_iff in Hr. exact Hr. }
  unfold SortedBy in HS.
  induction HS as [|x l HS IH Hx]; constructor.
  - apply IH. intros r Hr. apply Hn. right. exact Hr.
  - apply List.Forall_forall. intros y Hy.
    rewrite List.Forall_forall in Hx.
    apply not_gt_le.
    + apply Hn. left. reflexivity.
    + apply Hn. right. exact Hy.
    + apply (Hx y Hy).
Qed.

(** C5 at the four morning slots: the three windows come back by score. *)
Lemma C5_sorted_by_score_witness :
  SortSliceSpec refSortSlice
  /\ forallb (fun r => negb (isNaN (rec_Score r)))
             (candidateWindows refSortSlice fourSlots 60 noConstraints oneKWh)
     = true
  /\ exists recs,
       BestWindows refSortSlice fourSlots 60 noConstraints oneKWh 3 = Ok recs
       /\ ScoresAscend recs.
Proof.
  split; [apply refSortSlice_spec|].
  split; [vm_compute; reflexivity|].
  destruct (BestWindows refSortSlice fourSlots 60 noConstraints oneKWh 3)
    as [recs|e] eqn:E; [|vm_compute in E; discriminate E].
  exists recs. split; [reflexivity|].
  apply (C5_sorted_by_score refSortSlice refSortSlice_spec
           fourSlots 60 noConstraints oneKWh 3 recs).
  - vm_compute. reflexivity.
  - exact E.
Defined.

(** C1 fails on the code.  For a time of day before the window's start,
    [matchesTimeWindow] compares with today's 22:00 and tomorrow's 07:00, so
    03:00 is not in the window 22:00-07:00 (while 22:30 is); on the
    repository's own test case "60 minute run with quiet hours" the best
    recommendation starts at 03:00. *)
Theorem C1_quiet_hours_after_midnight :
  matchesTimeWindow (Date 2024 12 1 3 0 0 0 UTC)
    (mkTimeWindow "22:00" "07:00" []) = false
  /\ matchesTimeWindow (Date 2024 12 1 22 30 0 0 UTC)
       (mkTimeWindow "22:00" "07:00" []) = true
  /\ startsOf (BestWindows goSortSlice testSlots 60 quietConstraints oneKWh 3)
     = [Date 2024 12 1 3 0 0 0 UTC; Date 2024 12 1 2 30 0 0 UTC;
        Date 2024 12 1 3 30 0 0 UTC].
Proof.
  split; [vm_compute; reflexivity|].
  split; vm_compute; reflexivity.
Qed.

(* ================================================================== *)
(** * The smart orchestrator *)
(* ================================================================== *)

Lemma countMatching_none (prices : list PriceSlot) (start end_ : Time) (slots : Z) :
  (forall p, In p prices -> startsWithin p start end_ = false) ->
  countMatching prices start end_ slots = slots.
Proof.
  revert slots. induction prices as [|p rest IH]; intros slots Hnone;
    [reflexivity|].
  cbn [countMatching]. rewrite (Hnone p) by (left; reflexivity).
  apply IH. intros q Hq. apply Hnone. right. exact Hq.
Qed.

Lemma estimateCost_none (prices : list PriceSlot) (start end_ : Time) (kwh : float64) :
  (forall p, In p prices -> startsWithin p start end_ = false) ->
  estimateCost prices start end_ kwh = 0%float.
Proof.
  intros Hnone. unfold estimateCost.
  rewrite countMatching_none by assumption. reflexivity.
Qed.

Section SmartFacts.

Variable sortSlice : SliceSorter.
Variable localZone : Z.
Variables (washer : Appliance) (dryer : option Appliance).
Variable pricesByDay : gmap string (list PriceSlot).
Variable weatherByDay : gmap string WeatherForecast.
Variables (c : Constraints) (opts : Options).

(** A round of the day loop only appends. *)
Lemma coupledDay_keeps (clock : Clock) (options : list RecommendationOption)
  (dayOffset : Z) (o : RecommendationOption) :
  In o options ->
  In o (coupledDay sortSlice localZone clock washer dryer pricesByDay weatherByDay c opts
          options dayOffset).
Proof.
  intros Hin. unfold coupledDay.
  destruct (pricesByDay !! _) as [prices|]; [|exact Hin].
  destruct (BestWindows _ _ _ _ _ _) as [[|washerSlot rest]|e]; try exact Hin.
  destruct dryer as [d|].
  - destruct (weatherByDay !! _) as [w|].
    + destruct (wf_IsSunny w && _); repeat (apply in_or_app; left); exact Hin.
    + apply in_or_app; left; exact Hin.
  - destruct (weatherByDay !! _); exact Hin.
Qed.

Lemma coupledDays_keeps (clock : Clock) (rounds : nat)
  (options : list RecommendationOption) (dayOffset : Z) (o : RecommendationOption) :
  In o options ->
  In o (coupledDays sortSlice localZone rounds clock washer dryer pricesByDay weatherByDay
          c opts options dayOffset).
Proof.
  revert options dayOffset. induction rounds as [|n IH]; intros options d Hin;
    [exact Hin|].
  cbn [coupledDays]. apply IH. apply coupledDay_keeps. exact Hin.
Qed.

(** Every option a round adds has the shape of its kind. *)
Lemma coupledDay_shape (clock : Clock) (options : list RecommendationOption)
  (dayOffset : Z) :
  Forall (optionShape dryer pricesByDay) options ->
  Forall (optionShape dryer pricesByDay)
    (coupledDay sortSlice localZone clock washer dryer pricesByDay weatherByDay c opts
       options dayOffset).
Proof.
  intros Hall. unfold coupledDay.
  destruct (pricesByDay !! _) as [prices|] eqn:Ep; [|exact Hall].
  destruct (BestWindows _ _ _ _ _ _) as [[|washerSlot rest]|e]; try exact Hall.
  assert (Htumble : forall d savings text,
    dryer = Some d ->
    optionShape dryer pricesByDay
      (mkRecommendationOption (getDayName (clock 1%nat) dayOffset)
         (AddDate (clock 0%nat) 0 0 dayOffset) washerSlot
         (Some (mkRecommendation (rec_End washerSlot)
                  (Add (rec_End washerSlot) (wrapInt64 (a_CycleMinutes d * Minute)))
                  (estimateCost prices (rec_End washerSlot)
                     (Add (rec_End washerSlot) (wrapInt64 (a_CycleMinutes d * Minute)))
                     (a_EstKWh d)) NoReason 0%float))
         (PrimFloat.add (rec_CostGBP washerSlot)
            (estimateCost prices (rec_End washerSlot)
               (Add (rec_End washerSlot) (wrapInt64 (a_CycleMinutes d * Minute)))
               (a_EstKWh d)))
         (weatherByDay !! FormatDate (AddDate (clock 0%nat) 0 0 dayOffset))
         false savings text)).
  { intros d savings text Hd. unfold optionShape. cbn.
    exists d, prices. repeat split; assumption. }
  assert (Hline : forall savings text,
    optionShape dryer pricesByDay
      (mkRecommendationOption (getDayName (clock 1%nat) dayOffset)
         (AddDate (clock 0%nat) 0 0 dayOffset) washerSlot None
         (rec_CostGBP washerSlot)
         (weatherByDay !! FormatDate (AddDate (clock 0%nat) 0 0 dayOffset))
         true savings text)).
  { intros savings text. unfold optionShape. cbn. split; reflexivity. }
  destruct dryer as [d|] eqn:Ed.
  - destruct (weatherByDay !! _) as [w|] eqn:Ew.
    + destruct (wf_IsSunny w && _).
      * apply Forall_app. split; [apply Forall_app; split; [exact Hall|]|].
        -- constructor; [|constructor]. apply Htumble. reflexivity.
        -- constructor; [|constructor]. apply Hline.
      * apply Forall_app. split; [exact Hall|].
        constructor; [|constructor]. apply Htumble. reflexivity.
    + apply Forall_app. split; [exact Hall|].
      constructor; [|constructor]. apply Htumble. reflexivity.
  - destruct (weatherByDay !! _); exact Hall.
Qed.

Lemma coupledDays_shape (clock : Clock) (rounds : nat)
  (options : list RecommendationOption) (dayOffset : Z) :
  Forall (optionShape dryer pricesByDay) options ->
  Forall (optionShape dryer pricesByDay)
    (coupledDays sortSlice localZone rounds clock washer dryer pricesByDay weatherByDay
       c opts options dayOffset).
Proof.
  revert options dayOffset. induction rounds as [|n IH]; intros options d Hall;
    [exact Hall|].
  cbn [coupledDays]. apply IH. apply coupledDay_shape. exact Hall.
Qed.

(** A round for a day with prices, a feasible primary window and a sunny
    forecast adds a line-dry option, when the successor is weather
    dependent. *)
Lemma coupledDay_line_dry (clock : Clock) (options : list RecommendationOption)
  (dayOffset : Z) (d : Appliance) (prices : list PriceSlot)
  (washerSlot : Recommendation) (rest : list Recommendation)
  (forecast : WeatherForecast) :
  dryer = Some d ->
  a_Class d = ClassWeatherDependent ->
  pricesByDay !! FormatDate (AddDate (clock 0%nat) 0 0 dayOffset) = Some prices ->
  BestWindows sortSlice prices (a_CycleMinutes washer) c opts 1
    = Ok (washerSlot :: rest) ->
  weatherByDay !! FormatDate (AddDate (clock 0%nat) 0 0 dayOffset) = Some forecast ->
  wf_IsSunny forecast = true ->
  exists o,
    In o (coupledDay sortSlice localZone clock washer dryer pricesByDay weatherByDay c opts
            options dayOffset)
    /\ ro_UsesNaturalDry o = true
    /\ ro_TotalCostGBP o = rec_CostGBP washerSlot
    /\ ro_PrimarySlot o = washerSlot
    /\ ro_Date o = AddDate (clock 0%nat) 0 0 dayOffset
    /\ ro_CoupledSlot o = None.
Proof.
  intros Hd Hclass Hp Hb Hw Hsun. unfold coupledDay.
  rewrite Hp, Hb, Hw, Hd, Hsun, Hclass.
  change (String.eqb ClassWeatherDependent ClassWeatherDependent) with true.
  cbn [andb]. eexists. split.
  - apply in_or_app. right. left. reflexivity.
  - cbn. repeat split.
Qed.

Lemma coupledDays_line_dry (clock : Clock) (rounds : nat)
  (options : list RecommendationOption) (firstDay dayOffset : Z) (d : Appliance)
  (prices : list PriceSlot) (washerSlot : Recommendation)
  (rest : list Recommendation) (forecast : WeatherForecast) :
  dryer = Some d ->
  a_Class d = ClassWeatherDependent ->
  firstDay <= dayOffset < firstDay + Z.of_nat rounds ->
  pricesByDay !! FormatDate (AddDate (clock 0%nat) 0 0 dayOffset) = Some prices ->
  BestWindows sortSlice prices (a_CycleMinutes washer) c opts 1
    = Ok (washerSlot :: rest) ->
  weatherByDay !! FormatDate (AddDate (clock 0%nat) 0 0 dayOffset) = Some forecast ->
  wf_IsSunny forecast = true ->
  exists o,
    In o (coupledDays sortSlice localZone rounds clock washer dryer pricesByDay weatherByDay
            c opts options firstDay)
    /\ ro_UsesNaturalDry o = true
    /\ ro_TotalCostGBP o = rec_CostGBP washerSlot
    /\ ro_PrimarySlot o = washerSlot
    /\ ro_Date o = AddDate (clock 0%nat) 0 0 dayOffset
    /\ ro_CoupledSlot o = None.
Proof.
  intros Hd Hclass Hrange Hp Hb Hw Hsun.
  revert options firstDay Hrange.
  induction rounds as [|n IH]; intros options firstDay Hrange; [lia|].
  cbn [coupledDays].
  destruct (Z.eq_dec firstDay dayOffset) as [->|Hne].
  - destruct (coupledDay_line_dry clock options dayOffset d prices washerSlot
                rest forecast Hd Hclass Hp Hb Hw Hsun) as (o & Hin & Ho).
    exists o. split; [|exact Ho]. apply coupledDays_keeps. exact Hin.
  - apply IH. lia.
Qed.

End SmartFacts.

(** The loop for the best option keeps "nothing before [i] is cheaper than
    the best so far, nothing before the best is as cheap". *)
Lemma bestOptionLoop_firstCheapest (options : list RecommendationOption)
  (fuel : nat) (i best : Z) :
  0 <= best < i -> i <= Z.of_nat (length options) ->
  (Z.of_nat (length options) - i <= Z.of_nat fuel) ->
  (forall j, 0 <= j < i ->
     lt (totalCostAt options j) (totalCostAt options best) = false) ->
  (forall j, 0 <= j < best ->
     le (totalCostAt options j) (totalCostAt options best) = false) ->
  firstCheapest options (bestOptionLoop fuel options i best).
Proof.
  revert i best. induction fuel as [|fuel IH]; intros i best Hb Hi Hfuel Hmin Hfirst.
  - cbn [bestOptionLoop]. assert (i = Z.of_nat (length options)) as -> by lia.
    repeat split; try lia; assumption.
  - cbn [bestOptionLoop].
    destruct (i <? Z.of_nat (length options)) eqn:Ei.
    + apply Z.ltb_lt in Ei.
      destruct (lt (totalCostAt options i) (totalCostAt options best)) eqn:Elt.
      * apply IH; try lia.
        -- intros j Hj. destruct (Z.eq_dec j i) as [->|Hne]; [apply lt_irrefl|].
           destruct (lt (totalCostAt options j) (totalCostAt options i)) eqn:E;
             [|reflexivity].
           rewrite <- (Hmin j ltac:(lia)). symmetry.
           apply (lt_trans _ _ _ E Elt).
        -- intros j Hj.
           destruct (le (totalCostAt options j) (totalCostAt options i)) eqn:E;
             [|reflexivity].
           rewrite <- (Hmin j ltac:(lia)). symmetry.
           apply (le_lt_trans _ _ _ E Elt).
      * apply IH; try lia; [|assumption].
        intros j Hj. destruct (Z.eq_dec j i) as [->|Hne]; [exact Elt|].
        apply Hmin. lia.
    + apply Z.ltb_ge in Ei. assert (i = Z.of_nat (length options)) as -> by lia.
      repeat split; try lia; assumption.
Qed.

Lemma bestOptionIndex_firstCheapest (options : list RecommendationOption) :
  options <> [] -> firstCheapest options (bestOptionIndex options).
Proof.
  intros Hne. unfold bestOptionIndex.
  assert (1 <= Z.of_nat (length options)).
  { destruct options; [congruence|]. cbn [length]. lia. }
  apply bestOptionLoop_firstCheapest; try lia.
  intros j Hj. assert (j = 0) as -> by lia. apply lt_irrefl.
Qed.

(** When no total cost is NaN: the best cost is at most every cost, and
    strictly below every cost before it. *)
Lemma firstCheapest_without_NaN (options : list RecommendationOption) (best : Z) :
  firstCheapest options best ->
  (forall j, 0 <= j < Z.of_nat (length options) ->
     isNaN (totalCostAt options j) = false) ->
  (forall j, 0 <= j < Z.of_nat (length options) ->
     le (totalCostAt options best) (totalCostAt options j) = true)
  /\ (forall j, 0 <= j < best ->
        lt (totalCostAt options best) (totalCostAt options j) = true).
Proof.
  intros (Hbest & Hmin & Hfirst) Hnan. split.
  - intros j Hj. apply not_gt_le; auto.
  - intros j Hj. apply not_le_gt; auto. apply Hnan. lia.
Qed.

(** The orchestrator reads the clock twice at most. *)
Lemma coupledDays_clock (sortSlice : SliceSorter) (localZone : Z)
  (clock1 clock2 : Clock)
  (rounds : nat) (washer : Appliance) (dryer : option Appliance)
  (pricesByDay : gmap string (list PriceSlot))
  (weatherByDay : gmap string WeatherForecast)
  (c : Constraints) (opts : Options) (options : list RecommendationOption)
  (dayOffset : Z) :
  clock1 0%nat = clock2 0%nat -> clock1 1%nat = clock2 1%nat ->
  coupledDays sortSlice localZone rounds clock1 washer dryer pricesByDay weatherByDay c opts
    options dayOffset
  = coupledDays sortSlice localZone rounds clock2 washer dryer pricesByDay weatherByDay c opts
      options dayOffset.
Proof.
  intros H0 H1. revert options dayOffset.
  induction rounds as [|n IH]; intros options d; [reflexivity|].
  cbn [coupledDays]. rewrite IH. f_equal.
  unfold coupledDay. rewrite H0, H1. reflexivity.
Qed.

(** C6, as stated, fails: the best index is not always that of an option of
    minimal total cost.  With a load of 1e308 kWh and a first day priced 5
    and -5, the cost of the first wash is infinity less infinity, which is
    NaN; the second day, priced 1 and 1, gives a total that is a number.
    No number compares less than NaN, so the loop stays at the first
    option. *)
Lemma C6_NaN_total_counterexample :
  GenerateSmartRecommendations goSortSlice UTC (fixedClock (morningOf 1))
    washingMachine (Some tumbleDryer) swingDays ∅ anyHousehold noConstraints
    hugeLoad
  = Ok (mkSmartRecommendation "Washing Machine" swingOptions 0)
  /\ map (fun o => isNaN (ro_TotalCostGBP o)) swingOptions = [true; false]
  /\ le (totalCostAt swingOptions 0) (totalCostAt swingOptions 1) = false
  /\ ~ firstMinimalTotalCost swingOptions 0.
Proof.
  split; [vm_compute; reflexivity|].
  split; [vm_compute; reflexivity|].
  assert (H : le (totalCostAt swingOptions 0) (totalCostAt swingOptions 1) = false)
    by (vm_compute; reflexivity).
  split; [exact H|].
  intros (_ & Hmin & _). specialize (Hmin 1). rewrite H in Hmin.
  assert (0 <= 1 < Z.of_nat (length swingOptions)) as Hr
    by (vm_compute; split; [discriminate|reflexivity]).
  specialize (Hmin Hr). discriminate.
Qed.

(** C6, amended: for a coupled appliance paired with a weather-dependent
    successor, every checked day that has prices, a feasible primary window
    and a sunny forecast contributes a line-dry option whose total cost is
    the primary slot's cost alone and whose natural-dry flag is set; and,
    when no option's total cost is NaN, the best index is the index of the
    first option that attains the minimal total cost. *)
Theorem C6_line_dry_and_best_option :
  forall (sortSlice : SliceSorter) (localZone : Z) (clock : Clock) (washer dryer : Appliance)
         (pricesByDay : gmap string (list PriceSlot))
         (weatherByDay : gmap string WeatherForecast)
         (household : Household) (c : Constraints) (opts : Options),
    a_Class washer = ClassCoupled ->
    a_Class dryer = ClassWeatherDependent ->
    let r :=
      GenerateSmartRecommendations sortSlice localZone clock washer (Some dryer)
        pricesByDay weatherByDay household c opts in
    (forall (dayOffset : Z) (prices : list PriceSlot)
            (washerSlot : Recommendation) (rest : list Recommendation)
            (forecast : WeatherForecast),
        0 <= dayOffset < daysToCheckOf washer ->
        let checkDate := AddDate (clock 0%nat) 0 0 dayOffset in
        pricesByDay !! FormatDate checkDate = Some prices ->
        BestWindows sortSlice prices (a_CycleMinutes washer) c opts 1
          = Ok (washerSlot :: rest) ->
        weatherByDay !! FormatDate checkDate = Some forecast ->
        wf_IsSunny forecast = true ->
        exists sr o,
          r = Ok sr
          /\ In o (sr_Options sr)
          /\ ro_UsesNaturalDry o = true
          /\ ro_TotalCostGBP o = rec_CostGBP washerSlot
          /\ ro_PrimarySlot o = washerSlot
          /\ ro_Date o = checkDate
          /\ ro_CoupledSlot o = None)
    /\ (forall sr, r = Ok sr ->
          (forall j, 0 <= j < Z.of_nat (length (sr_Options sr)) ->
             isNaN (totalCostAt (sr_Options sr) j) = false) ->
          firstMinimalTotalCost (sr_Options sr) (sr_BestOptionIndex sr)).
Proof.
  intros sortSlice localZone clock washer dryer pricesByDay weatherByDay household c opts
    Hw Hd r.
  assert (Hr : r = generateCoupledRecommendation sortSlice localZone clock washer
                     (Some dryer) pricesByDay weatherByDay household c opts).
  { subst r. unfold GenerateSmartRecommendations. rewrite Hw.
    change (String.eqb ClassCoupled ClassStandalone) with false.
    change (String.eqb ClassCoupled ClassCoupled) with true. reflexivity. }
  rewrite Hr. clear Hr r. unfold generateCoupledRecommendation.
  set (options := coupledDays sortSlice localZone _ clock washer (Some dryer) pricesByDay
                    weatherByDay c opts [] 0).
  split.
  - intros dayOffset prices washerSlot rest forecast Hrange Hp Hb Hf Hsun.
    destruct (coupledDays_line_dry sortSlice localZone washer (Some dryer) pricesByDay
                weatherByDay c opts clock (Z.to_nat (daysToCheckOf washer)) []
                0 dayOffset dryer prices washerSlot rest forecast
                eq_refl Hd ltac:(lia) Hp Hb Hf Hsun) as (o & Hin & Ho).
    fold options in Hin.
    destruct (length options =? 0)%nat eqn:E.
    + apply Nat.eqb_eq in E. apply length_zero_iff_nil in E.
      rewrite E in Hin. destruct Hin.
    + eexists _, o. split; [reflexivity|]. split; [exact Hin|exact Ho].
  - intros sr Hsr.
    destruct (length options =? 0)%nat eqn:E; [discriminate|].
    injection Hsr as <-. cbn [sr_Options sr_BestOptionIndex]. intros Hnan.
    assert (Hfc : firstCheapest options (bestOptionIndex options)).
    { apply bestOptionIndex_firstCheapest.
      intros Hnil. rewrite Hnil in E. discriminate. }
    destruct (firstCheapest_without_NaN options _ Hfc Hnan) as [Hmin Hfirst].
    split; [apply Hfc|]. split; assumption.
Qed.

(** C6 on the scenario: the sunny third day yields a line-dry option at the
    cost of its wash; no total is NaN, and the best index is that of the
    first cheapest option, the fourth. *)
Lemma C6_line_dry_and_best_option_witness :
  a_Class washingMachine = ClassCoupled
  /\ a_Class tumbleDryer = ClassWeatherDependent
  /\ (exists sr o,
        GenerateSmartRecommendations goSortSlice UTC (fixedClock (morningOf 1))
          washingMachine (Some tumbleDryer) threeDays sunnyThird anyHousehold
          noConstraints oneKWh = Ok sr
        /\ In o (sr_Options sr)
        /\ ro_UsesNaturalDry o = true
        /\ ro_TotalCostGBP o = rec_CostGBP thirdDayWindow
        /\ ro_PrimarySlot o = thirdDayWindow
        /\ ro_Date o = AddDate (morningOf 1) 0 0 2
        /\ ro_CoupledSlot o = None)
  /\ (forall j, 0 <= j < Z.of_nat (length scenarioOptions) ->
        isNaN (totalCostAt scenarioOptions j) = false)
  /\ firstMinimalTotalCost scenarioOptions 3.
Proof.
  split; [reflexivity|]. split; [reflexivity|].
  pose proof (C6_line_dry_and_best_option goSortSlice UTC (fixedClock (morningOf 1))
                washingMachine tumbleDryer threeDays sunnyThird anyHousehold
                noConstraints oneKWh eq_refl eq_refl) as H.
  cbv zeta in H. destruct H as [Hline Hbest].
  assert (Hnan : forall j, 0 <= j < Z.of_nat (length scenarioOptions) ->
                   isNaN (totalCostAt scenarioOptions j) = false).
  { intros j Hj. change (Z.of_nat (length scenarioOptions)) with 4 in Hj.
    assert (j = 0 \/ j = 1 \/ j = 2 \/ j = 3) as [->|[->|[->| ->]]] by lia;
      vm_compute; reflexivity. }
  split; [|split; [exact Hnan|]].
  - apply (Hline 2 (slotsFrom 112 [14; 11; 13; 16]%float) thirdDayWindow []
             (mkWeatherForecast (Date 2024 12 3 0 0 0 0 UTC) 6%float 14%float
                5%float 10%float true)).
    + vm_compute. split; [discriminate|reflexivity].
    + vm_compute. reflexivity.
    + vm_compute. reflexivity.
    + vm_compute. reflexivity.
    + reflexivity.
  - apply (Hbest (mkSmartRecommendation "Washing Machine" scenarioOptions 3)).
    + vm_compute. reflexivity.
    + exact Hnan.
Defined.

(** C9, as stated, fails: the orchestrator reads the wall clock.  The same
    arguments give the dishwasher its window on the morning of 1 December
    and an error three days later.  (The texts of the coupled path also
    print their times in the zone of the process: an hour east of UTC the
    same wash is announced an hour later.) *)
Lemma C9_same_arguments_counterexample :
  GenerateSmartRecommendations goSortSlice UTC (fixedClock (morningOf 1))
    dishwasher None threeDays sunnyThird anyHousehold noConstraints oneKWh
    = Ok dishwasherToday
  /\ GenerateSmartRecommendations goSortSlice UTC (fixedClock (morningOf 4))
       dishwasher None threeDays sunnyThird anyHousehold noConstraints oneKWh
     = Err "no feasible slots found"%string
  /\ textStarts
       (GenerateSmartRecommendations goSortSlice UTC (fixedClock (morningOf 1))
          washingMachine (Some tumbleDryer) threeDays sunnyThird anyHousehold
          noConstraints oneKWh)
     = ["09:00"; "08:30"; "08:30"; "08:30"]%string
  /\ textStarts
       (GenerateSmartRecommendations goSortSlice 3600 (fixedClock (morningOf 1))
          washingMachine (Some tumbleDryer) threeDays sunnyThird anyHousehold
          noConstraints oneKWh)
     = ["10:00"; "09:30"; "09:30"; "09:30"]%string.
Proof. repeat split; vm_compute; reflexivity. Qed.

(** For a standalone appliance only the calendar date of the first reading
    matters. *)
Lemma generateStandaloneRecommendation_date (sortSlice : SliceSorter)
  (clock1 clock2 : Clock) (appliance : Appliance)
  (pricesByDay : gmap string (list PriceSlot)) (household : Household)
  (c : Constraints) (opts : Options) :
  FormatDate (clock1 0%nat) = FormatDate (clock2 0%nat) ->
  generateStandaloneRecommendation sortSlice clock1 appliance pricesByDay
    household c opts
  = generateStandaloneRecommendation sortSlice clock2 appliance pricesByDay
      household c opts.
Proof.
  intros H. unfold generateStandaloneRecommendation. rewrite H. reflexivity.
Qed.

(** C9, amended: [GenerateSmartRecommendations] is a deterministic function
    of its arguments, of the wall clock, which it reads on entry and once
    more for a day name, and of the zone of the process: two invocations
    with identical arguments that read the same two times, in the same zone,
    return identical results. *)
Theorem C9_same_arguments_same_clock :
  forall (sortSlice : SliceSorter) (localZone : Z) (clock1 clock2 : Clock)
         (appliance : Appliance) (coupledAppliance : option Appliance)
         (pricesByDay : gmap string (list PriceSlot))
         (weatherByDay : gmap string WeatherForecast)
         (household : Household) (c : Constraints) (opts : Options),
    clock1 0%nat = clock2 0%nat ->
    clock1 1%nat = clock2 1%nat ->
    GenerateSmartRecommendations sortSlice localZone clock1 appliance coupledAppliance
      pricesByDay weatherByDay household c opts
    = GenerateSmartRecommendations sortSlice localZone clock2 appliance coupledAppliance
        pricesByDay weatherByDay household c opts.
Proof.
  intros sortSlice localZone clock1 clock2 appliance coupledAppliance pricesByDay
    weatherByDay household c opts H0 H1.
  unfold GenerateSmartRecommendations.
  destruct (String.eqb (a_Class appliance) ClassStandalone).
  - apply generateStandaloneRecommendation_date. rewrite H0. reflexivity.
  - destruct coupledAppliance as [dryer|]; [|reflexivity].
    destruct (String.eqb (a_Class appliance) ClassCoupled); [|reflexivity].
    unfold generateCoupledRecommendation.
    rewrite (coupledDays_clock sortSlice localZone clock1 clock2 _ _ _ _ _ _ _ _ _ H0 H1).
    reflexivity.
Qed.

(** C9 on the scenario: a clock that moves on after its second reading
    changes nothing. *)
Lemma C9_same_arguments_same_clock_witness :
  fixedClock (morningOf 1) 0%nat = clockThen (morningOf 1) (morningOf 4) 0%nat
  /\ fixedClock (morningOf 1) 1%nat = clockThen (morningOf 1) (morningOf 4) 1%nat
  /\ GenerateSmartRecommendations goSortSlice UTC (fixedClock (morningOf 1))
       washingMachine (Some tumbleDryer) threeDays sunnyThird anyHousehold
       noConstraints oneKWh
     = GenerateSmartRecommendations goSortSlice UTC
         (clockThen (morningOf 1) (morningOf 4))
         washingMachine (Some tumbleDryer) threeDays sunnyThird anyHousehold
         noConstraints oneKWh.
Proof.
  split; [reflexivity|]. split; [reflexivity|].
  apply (C9_same_arguments_same_clock goSortSlice UTC (fixedClock (morningOf 1))
           (clockThen (morningOf 1) (morningOf 4))); reflexivity.
Defined.

(** C10: in the coupled path, when no price slot of the option's day starts
    within the successor's run, [estimateCost] returns 0, so the tumble-dry
    option's coupled slot costs 0 and its total is the primary cost. *)
Theorem C10_unpriced_successor_costs_nothing :
  forall (sortSlice : SliceSorter) (localZone : Z) (clock : Clock) (washer dryer : Appliance)
         (pricesByDay : gmap string (list PriceSlot))
         (weatherByDay : gmap string WeatherForecast)
         (household : Household) (c : Constraints) (opts : Options)
         (sr : SmartRecommendation) (o : RecommendationOption)
         (prices : list PriceSlot),
    generateCoupledRecommendation sortSlice localZone clock washer (Some dryer)
      pricesByDay weatherByDay household c opts = Ok sr ->
    In o (sr_Options sr) ->
    ro_UsesNaturalDry o = false ->
    pricesByDay !! FormatDate (ro_Date o) = Some prices ->
    let successorStart := rec_End (ro_PrimarySlot o) in
    let successorEnd :=
      Add successorStart (wrapInt64 (a_CycleMinutes dryer * Minute)) in
    (forall p, In p prices -> startsWithin p successorStart successorEnd = false) ->
    estimateCost prices successorStart successorEnd (a_EstKWh dryer) = 0%float
    /\ ro_CoupledSlot o
       = Some (mkRecommendation successorStart successorEnd 0%float NoReason
               0%float)
    /\ sameAmount (ro_TotalCostGBP o) (rec_CostGBP (ro_PrimarySlot o)) = true.
Proof.
  intros sortSlice localZone clock washer dryer pricesByDay weatherByDay household c opts
    sr o prices Hsr Hin Htumble Hp successorStart successorEnd Hnone.
  unfold generateCoupledRecommendation in Hsr.
  set (options := coupledDays sortSlice localZone _ clock washer (Some dryer) pricesByDay
                    weatherByDay c opts [] 0) in Hsr.
  destruct (length options =? 0)%nat; [discriminate|].
  injection Hsr as <-. cbn [sr_Options] in Hin.
  assert (Hshape : Forall (optionShape (Some dryer) pricesByDay) options).
  { apply coupledDays_shape. constructor. }
  rewrite List.Forall_forall in Hshape. specialize (Hshape o Hin).
  unfold optionShape in Hshape. rewrite Htumble in Hshape.
  destruct Hshape as (d & prices' & Hd & Hp' & Hslot & Htotal).
  injection Hd as <-. rewrite Hp in Hp'. injection Hp' as <-.
  fold successorStart in Hslot, Htotal. fold successorEnd in Hslot, Htotal.
  pose proof (estimateCost_none prices successorStart successorEnd
                (a_EstKWh dryer) Hnone) as Hzero.
  rewrite Hzero in Hslot, Htotal.
  split; [exact Hzero|]. split; [exact Hslot|].
  rewrite Htotal. apply add_zero_sameAmount.
Qed.

(** C10 on the scenario: today's wash ends at 10:00, where the day's prices
    end, so the tumble-dry option of today prices the dryer at 0. *)
Lemma C10_unpriced_successor_costs_nothing_witness :
  generateCoupledRecommendation goSortSlice UTC (fixedClock (morningOf 1))
    washingMachine (Some tumbleDryer) threeDays sunnyThird anyHousehold
    noConstraints oneKWh
    = Ok (mkSmartRecommendation "Washing Machine" scenarioOptions 3)
  /\ In tumbleToday scenarioOptions
  /\ ro_UsesNaturalDry tumbleToday = false
  /\ threeDays !! FormatDate (ro_Date tumbleToday)
     = Some (slotsFrom 16 [10; 25; 15; 12]%float)
  /\ estimateCost (slotsFrom 16 [10; 25; 15; 12]%float)
       (Add baseTime (20 * 30 * Minute)) (Add baseTime (22 * 30 * Minute))
       2%float = 0%float
  /\ ro_CoupledSlot tumbleToday
     = Some (mkRecommendation (Add baseTime (20 * 30 * Minute))
               (Add baseTime (22 * 30 * Minute)) 0%float NoReason 0%float)
  /\ sameAmount (ro_TotalCostGBP tumbleToday)
       (rec_CostGBP (ro_PrimarySlot tumbleToday)) = true.
Proof.
  assert (Hrun :
    generateCoupledRecommendation goSortSlice UTC (fixedClock (morningOf 1))
      washingMachine (Some tumbleDryer) threeDays sunnyThird anyHousehold
      noConstraints oneKWh
    = Ok (mkSmartRecommendation "Washing Machine" scenarioOptions 3))
    by (vm_compute; reflexivity).
  assert (Hprices :
    threeDays !! FormatDate (ro_Date tumbleToday)
    = Some (slotsFrom 16 [10; 25; 15; 12]%float))
    by (vm_compute; reflexivity).
  split; [exact Hrun|]. split; [left; reflexivity|]. split; [reflexivity|].
  split; [exact Hprices|].
  pose proof (C10_unpriced_successor_costs_nothing goSortSlice UTC
                (fixedClock (morningOf 1)) washingMachine tumbleDryer threeDays
                sunnyThird anyHousehold noConstraints oneKWh
                (mkSmartRecommendation "Washing Machine" scenarioOptions 3)
                tumbleToday (slotsFrom 16 [10; 25; 15; 12]%float)
                Hrun (or_introl eq_refl) eq_refl Hprices) as H.
  cbv zeta in H. apply H.
  intros p [<-|[<-|[<-|[<-|[]]]]]; vm_compute; reflexivity.
Defined.

(* ================================================================== *)
(** * Calendar: the day count of a date, the clock of a time *)
(* ================================================================== *)

Lemma era_day_bounds (doe : Z) :
  0 <= doe < 146097 ->
  let yoe := (doe - doe / 1460 + doe / 36524 - doe / 146096) / 365 in
  0 <= yoe <= 399 /\ 0 <= doe - (365 * yoe + yoe / 4 - yoe / 100) <= 365.
Proof. intros H. cbv zeta. Z.div_mod_to_equations. lia. Qed.

(** The day count of the civil date of a day count is that day count. *)
Lemma civil_round_trip (z : Z) :
  daysFromCivil (fst (fst (civilFromDays z))) (snd (fst (civilFromDays z)))
    (snd (civilFromDays z)) = z
  /\ 1 <= snd (fst (civilFromDays z)) <= 12
  /\ 1 <= snd (civilFromDays z) <= 31.
Proof.
  unfold civilFromDays.
  set (z' := z + 719468).
  set (era := z' / 146097).
  set (doe := z' - era * 146097).
  assert (Hdoe : 0 <= doe < 146097).
  { subst doe era. pose proof (Z.div_mod z' 146097 ltac:(lia)).
    pose proof (Z.mod_pos_bound z' 146097 ltac:(lia)). lia. }
  pose proof (era_day_bounds doe Hdoe) as Hok. cbv zeta in Hok.
  set (yoe := (doe - doe / 1460 + doe / 36524 - doe / 146096) / 365) in *.
  set (doy := doe - (365 * yoe + yoe / 4 - yoe / 100)) in *.
  destruct Hok as [Hyoe Hdoy].
  set (mp := (5 * doy + 2) / 153).
  assert (Hmp : 0 <= mp <= 11).
  { subst mp. split; [apply Z.div_pos; lia|].
    apply Z.lt_succ_r. apply Z.div_lt_upper_bound; lia. }
  assert (Hd : (153 * mp + 2) / 5 <= doy /\ doy - (153 * mp + 2) / 5 <= 30).
  { pose proof (Z.div_mod (5 * doy + 2) 153 ltac:(lia)) as E1.
    pose proof (Z.mod_pos_bound (5 * doy + 2) 153 ltac:(lia)) as B1.
    fold mp in E1.
    pose proof (Z.div_mod (153 * mp + 2) 5 ltac:(lia)) as E2.
    pose proof (Z.mod_pos_bound (153 * mp + 2) 5 ltac:(lia)) as B2.
    lia. }
  set (m := if mp <? 10 then mp + 3 else mp - 9).
  assert (Hm : 1 <= m <= 12 /\ (if 2 <? m then m - 3 else m + 9) = mp).
  { subst m. destruct (mp <? 10) eqn:E.
    - apply Z.ltb_lt in E. split; [lia|].
      destruct (2 <? mp + 3) eqn:E'; [lia|]. apply Z.ltb_ge in E'. lia.
    - apply Z.ltb_ge in E. split; [lia|].
      destruct (2 <? mp - 9) eqn:E'; [|lia]. apply Z.ltb_lt in E'. lia. }
  destruct Hm as (Hm1 & Hm2).
  cbn [fst snd].
  split; [|split; [exact Hm1|lia]].
  unfold daysFromCivil. rewrite Hm2.
  assert (Hy : (if m <=? 2
                then (if m <=? 2 then yoe + era * 400 + 1 else yoe + era * 400) - 1
                else (if m <=? 2 then yoe + era * 400 + 1 else yoe + era * 400))
               = yoe + era * 400).
  { destruct (m <=? 2); lia. }
  rewrite Hy.
  assert (Hera : (yoe + era * 400) / 400 = era).
  { rewrite Z.div_add by lia. rewrite Z.div_small by lia. lia. }
  rewrite Hera.
  replace (yoe + era * 400 - era * 400) with yoe by lia.
  subst doy doe z'. lia.
Qed.

(** [time.Date] of a time's own year, month and day, at a clock time:
    that many seconds after the midnight that begins the time's day. *)
Lemma Date_same_day (t : Time) (hour min : Z) :
  Date (Year t) (Month t) (Day t) hour min 0 0 (zoneOffset t)
  = mkTime ((localDays t * secondsPerDay + hour * 3600 + min * 60 - zoneOffset t)
            * Second) (zoneOffset t).
Proof.
  unfold Date, Year, Month, Day.
  destruct (civil_round_trip (localDays t)) as (Hrt & Hm & Hd).
  set (y := fst (fst (civilFromDays (localDays t)))) in *.
  set (m := snd (fst (civilFromDays (localDays t)))) in *.
  set (d := snd (civilFromDays (localDays t))) in *.
  assert (H0 : (m - 1) / 12 = 0) by (apply Z.div_small; lia).
  assert (H1 : (m - 1) mod 12 = m - 1) by (apply Z.mod_small; lia).
  rewrite H0, H1.
  replace (y + 0) with y by lia. replace (m - 1 + 1) with m by lia.
  assert (Hlin : daysFromCivil y m 1 + (d - 1) = daysFromCivil y m d).
  { unfold daysFromCivil. lia. }
  rewrite Hlin, Hrt. f_equal. lia.
Qed.

Lemma Weekday_range (t : Time) : 0 <= Weekday t <= 6.
Proof.
  unfold Weekday. pose proof (Z.mod_pos_bound (localDays t + 4) 7 ltac:(lia)). lia.
Qed.

Lemma secondOfDay_range (t : Time) : 0 <= secondOfDay t < 86400.
Proof. unfold secondOfDay, secondsPerDay. apply Z.mod_pos_bound. lia. Qed.

Lemma minuteOfDay_div (t : Time) : minuteOfDay t = secondOfDay t / 60.
Proof.
  unfold minuteOfDay, HourOf, MinuteOf.
  pose proof (secondOfDay_range t). Z.div_mod_to_equations. lia.
Qed.

Lemma digitVal_range (c : ascii) : isDigit c = true -> 0 <= digitVal c <= 9.
Proof.
  unfold isDigit, digitVal. intros H. apply andb_true_iff in H as [H1 H2].
  apply Nat.leb_le in H1, H2. lia.
Qed.

Lemma getnum_range (s : string) (fixed : bool) (n : Z) (rest : string) :
  getnum s fixed = Some (n, rest) -> 0 <= n <= 99.
Proof.
  unfold getnum. destruct s as [|c1 s1]; [discriminate|].
  destruct (isDigit c1) eqn:E1; [|discriminate].
  pose proof (digitVal_range c1 E1).
  destruct s1 as [|c2 s2].
  - destruct fixed; [discriminate|]. intros [= <- _]. lia.
  - destruct (isDigit c2) eqn:E2.
    + pose proof (digitVal_range c2 E2). intros [= <- _]. lia.
    + destruct fixed; [discriminate|]. intros [= <- _]. lia.
Qed.

(** A clock time that parses is hour:minute of 1 January of year 0. *)
Lemma ParseClock_Some (s : string) (t : Time) :
  ParseClock s = Some t ->
  exists hour min, 0 <= hour < 24 /\ 0 <= min < 60
                   /\ t = Date 0 1 1 hour min 0 0 UTC.
Proof.
  unfold ParseClock.
  destruct (getnum s false) as [[hour s1]|] eqn:Eh; [|discriminate].
  destruct s1 as [|c s2]; [discriminate|].
  destruct (Ascii.eqb c ":"%char) eqn:Ec.
  2:{ intros H. exfalso. revert H.
      destruct c as [[] [] [] [] [] [] [] []]; discriminate. }
  apply Ascii.eqb_eq in Ec. subst c.
  destruct (getnum s2 true) as [[min s3]|] eqn:Em; [|discriminate].
  destruct s3; [|discriminate].
  destruct ((24 <=? hour) || (60 <=? min)) eqn:Er; [discriminate|].
  apply orb_false_iff in Er as [Er1 Er2]. apply Z.leb_gt in Er1, Er2.
  intros [= <-]. exists hour, min.
  pose proof (getnum_range _ _ _ _ Eh). pose proof (getnum_range _ _ _ _ Em).
  repeat split; lia.
Qed.

Lemma clock_of_Date (hour min : Z) :
  0 <= hour < 24 -> 0 <= min < 60 ->
  HourOf (Date 0 1 1 hour min 0 0 UTC) = hour
  /\ MinuteOf (Date 0 1 1 hour min 0 0 UTC) = min.
Proof.
  intros Hh Hm. unfold HourOf, MinuteOf, secondOfDay, localSeconds, Date.
  cbn [unixNano zoneOffset].
  change ((1 - 1) / 12) with 0. change ((1 - 1) mod 12 + 1) with 1.
  change (daysFromCivil (0 + 0) 1 1 + (1 - 1)) with (-719528).
  unfold secondsPerDay, UTC, Second, Nanosecond.
  Z.div_mod_to_equations. lia.
Qed.

(** [matchesTimeWindow] in terms of the wall clock. *)
Lemma matchesTimeWindow_clock (t : Time) (window : TimeWindow)
  (startTime endTime : Time) :
  parseTimeOfDay (tw_Start window) = Some startTime ->
  parseTimeOfDay (tw_End window) = Some endTime ->
  matchesTimeWindow t window
  = dayListed t window
    && (minuteOfDay startTime <=? minuteOfDay t)
    && ((minuteOfDay t <? minuteOfDay endTime)
        || (minuteOfDay endTime <? minuteOfDay startTime)).
Proof.
  intros Hs He. unfold matchesTimeWindow. rewrite Hs, He.
  assert (Hday :
    (if (0 <? length (tw_DaysOfWeek window))%nat
     then existsb (fun d => d =? (if Weekday t =? 0 then 7 else Weekday t))
            (tw_DaysOfWeek window)
     else true) = dayListed t window).
  { unfold dayListed. destruct (tw_DaysOfWeek window); reflexivity. }
  cbv zeta. rewrite Hday.
  destruct (dayListed t window); [|reflexivity]. cbn [negb andb].
  rewrite !Date_same_day.
  apply ParseClock_Some in Hs as (hs & ms & Hhs & Hms & ->).
  apply ParseClock_Some in He as (he & me & Hhe & Hme & ->).
  assert (Hcs : minuteOfDay (Date 0 1 1 hs ms 0 0 UTC) = 60 * hs + ms).
  { unfold minuteOfDay. destruct (clock_of_Date hs ms Hhs Hms) as [-> ->].
    reflexivity. }
  assert (Hce : minuteOfDay (Date 0 1 1 he me 0 0 UTC) = 60 * he + me).
  { unfold minuteOfDay. destruct (clock_of_Date he me Hhe Hme) as [-> ->].
    reflexivity. }
  rewrite Hcs, Hce, !minuteOfDay_div.
  destruct (clock_of_Date hs ms Hhs Hms) as [-> ->].
  destruct (clock_of_Date he me Hhe Hme) as [-> ->].
  pose proof (secondOfDay_range t) as Hsod.
  assert (Hnano : unixNano t / Second
                  = localDays t * secondsPerDay + secondOfDay t - zoneOffset t).
  { unfold secondOfDay, localDays.
    pose proof (Z.div_mod (localSeconds t) secondsPerDay ltac:(unfold secondsPerDay; lia)).
    unfold localSeconds in *. lia. }
  set (mid := localDays t * secondsPerDay - zoneOffset t) in *.
  unfold Before, Equal, After, Add. cbn [unixNano zoneOffset].
  unfold secondsPerDay, Hour, Minute, Second, Nanosecond in *.
  set (a := unixNano t) in *. set (sod := secondOfDay t) in *.
  replace (localDays t * 86400 + hs * 3600 + ms * 60 - zoneOffset t)
    with (mid + hs * 3600 + ms * 60) by lia.
  replace (localDays t * 86400 + he * 3600 + me * 60 - zoneOffset t)
    with (mid + he * 3600 + me * 60) by lia.
  destruct ((mid + he * 3600 + me * 60) * (1000000000 * 1)
            <? (mid + hs * 3600 + ms * 60) * (1000000000 * 1)) eqn:Eov;
    cbn [unixNano];
    [apply Z.ltb_lt in Eov|apply Z.ltb_ge in Eov];
    apply eq_true_iff_eq;
    rewrite !andb_true_iff, !orb_true_iff, ?Z.eqb_eq, ?Z.ltb_lt, ?Z.leb_le.
    all: Z.div_mod_to_equations; lia.
Qed.

(* ================================================================== *)
(** * Time windows *)
(* ================================================================== *)

(** X1: when the start and the end of a window both parse,
    [matchesTimeWindow] holds exactly when the weekday of [t] is listed (or
    no day is), the wall-clock minute of [t] is not before the start of the
    window and, unless the end of the window is before its start, is before
    the end.  A window that ends before it starts (22:00 to 07:00) so
    matches from its start to midnight, and at no time after midnight. *)
Theorem X1_matchesTimeWindow_by_clock :
  forall (t : Time) (window : TimeWindow) (startTime endTime : Time),
    parseTimeOfDay (tw_Start window) = Some startTime ->
    parseTimeOfDay (tw_End window) = Some endTime ->
    matchesTimeWindow t window
    = dayListed t window
      && (minuteOfDay startTime <=? minuteOfDay t)
      && ((minuteOfDay t <? minuteOfDay endTime)
          || (minuteOfDay endTime <? minuteOfDay startTime)).
Proof. exact matchesTimeWindow_clock. Qed.

(** X1 at three in the morning and the window 22:00 to 07:00. *)
Lemma X1_matchesTimeWindow_by_clock_witness :
  parseTimeOfDay (tw_Start overnight) = Some (Date 0 1 1 22 0 0 0 UTC)
  /\ parseTimeOfDay (tw_End overnight) = Some (Date 0 1 1 7 0 0 0 UTC)
  /\ matchesTimeWindow threeAM overnight
     = dayListed threeAM overnight
       && (minuteOfDay (Date 0 1 1 22 0 0 0 UTC) <=? minuteOfDay threeAM)
       && ((minuteOfDay threeAM <? minuteOfDay (Date 0 1 1 7 0 0 0 UTC))
           || (minuteOfDay (Date 0 1 1 7 0 0 0 UTC)
               <? minuteOfDay (Date 0 1 1 22 0 0 0 UTC))).
Proof.
  split; [reflexivity|]. split; [reflexivity|].
  apply (X1_matchesTimeWindow_by_clock threeAM overnight); reflexivity.
Defined.

Lemma weekday_listed (t : Time) :
  existsb (fun d => d =? (if Weekday t =? 0 then 7 else Weekday t))
    [1; 2; 3; 4; 5; 6; 7] = true.
Proof.
  pose proof (Weekday_range t) as H.
  destruct (Weekday t =? 0) eqn:E; [reflexivity|].
  apply Z.eqb_neq in E.
  assert (Weekday t = 1 \/ Weekday t = 2 \/ Weekday t = 3 \/ Weekday t = 4
          \/ Weekday t = 5 \/ Weekday t = 6) as Hc by lia.
  destruct Hc as [->|[->|[->|[->|[->| ->]]]]]; reflexivity.
Qed.

Lemma matchesTimeWindow_every_day (t : Time) (start finish : string) :
  matchesTimeWindow t (mkTimeWindow start finish [1; 2; 3; 4; 5; 6; 7])
  = matchesTimeWindow t (mkTimeWindow start finish []).
Proof.
  unfold matchesTimeWindow. cbn [tw_DaysOfWeek tw_Start tw_End length Nat.ltb Nat.leb].
  rewrite weekday_listed. reflexivity.
Qed.

(** X2: a window that lists all seven days of the week matches a time
    exactly when the same window with no days listed does. *)
Theorem X2_all_seven_days_is_every_day :
  forall (t : Time) (start finish : string),
    matchesTimeWindow t (mkTimeWindow start finish [1; 2; 3; 4; 5; 6; 7])
    = matchesTimeWindow t (mkTimeWindow start finish []).
Proof. exact matchesTimeWindow_every_day. Qed.

Lemma matchesTimeWindow_malformed (t : Time) (w : TimeWindow) :
  malformed w -> matchesTimeWindow t w = false.
Proof.
  unfold matchesTimeWindow. intros [H|H].
  - rewrite H. destruct (negb _); reflexivity.
  - rewrite H. destruct (negb _); [reflexivity|].
    destruct (parseTimeOfDay (tw_Start w)); reflexivity.
Qed.

Lemma isInTimeWindows_false (t : Time) (ws : list TimeWindow) :
  (forall w, In w ws -> matchesTimeWindow t w = false) ->
  isInTimeWindows t ws = false.
Proof.
  induction ws as [|w ws IH]; intros H; [reflexivity|].
  cbn [isInTimeWindows]. rewrite (H w) by (left; reflexivity).
  apply IH. intros w' Hw'. apply H. right. exact Hw'.
Qed.

Lemma filter_none {A : Type} (p : A -> bool) (l : list A) :
  (forall x, In x l -> p x = false) -> List.filter p l = [].
Proof.
  induction l as [|x l IH]; intros H; [reflexivity|].
  cbn [List.filter]. rewrite (H x) by (left; reflexivity).
  apply IH. intros y Hy. apply H. right. exact Hy.
Qed.

(** X3: when there are allowed windows and each of them has a start or an
    end that [parseTimeOfDay] does not accept, [filterByConstraints] keeps
    no slot, and [BestWindows], on a non-empty slot list and a positive run
    length, fails with NoFeasibleSlots. *)
Theorem X3_malformed_allowed_windows :
  forall (sortSlice : SliceSorter) (slots : list PriceSlot) (runMinutes : Z)
         (c : Constraints) (opts : Options) (topN : Z),
    slots <> [] -> 0 < runMinutes ->
    c_Allowed c <> [] ->
    (forall w, In w (c_Allowed c) -> malformed w) ->
    filterByConstraints slots c = []
    /\ BestWindows sortSlice slots runMinutes c opts topN = Err ErrNoFeasibleSlots.
Proof.
  intros sortSlice slots runMinutes c opts topN Hslots Hrun Hne Hbad.
  assert (Hf : filterByConstraints slots c = []).
  { rewrite filterByConstraints_filter. apply filter_none. intros s _.
    unfold codeKeeps, keepsByTime.
    rewrite (isInTimeWindows_false (slot_Start s) (c_Allowed c)).
    - destruct (c_Allowed c); [congruence|]. cbn [length Nat.eqb orb andb].
      apply andb_false_r.
    - intros w Hw. apply matchesTimeWindow_malformed. apply Hbad. exact Hw. }
  split; [exact Hf|].
  unfold BestWindows. rewrite Hf.
  destruct slots; [congruence|]. cbn [length Nat.eqb].
  destruct (runMinutes <=? 0) eqn:E; [apply Z.leb_le in E; lia|].
  pose proof (requiredSlotsFor_pos runMinutes Hrun).
  destruct (Z.of_nat 0 <? requiredSlotsFor runMinutes) eqn:E'; [reflexivity|].
  apply Z.ltb_ge in E'. lia.
Qed.

(** X3 at the four morning slots with the allowed window 7am to 11pm. *)
Lemma X3_malformed_allowed_windows_witness :
  filterByConstraints fourSlots amPmConstraints = []
  /\ BestWindows goSortSlice fourSlots 60 amPmConstraints oneKWh 3
     = Err ErrNoFeasibleSlots.
Proof.
  apply (X3_malformed_allowed_windows goSortSlice fourSlots 60 amPmConstraints
           oneKWh 3).
  - discriminate.
  - lia.
  - discriminate.
  - intros w [<-|[]]. left. reflexivity.
Defined.

(** X4: below noise level 3 the quiet hours play no part:
    [filterByConstraints] returns the same slots whatever the quiet hours
    are. *)
Theorem X4_quiet_hours_need_noise_level_3 :
  forall (slots : list PriceSlot) (c : Constraints) (quiet : list TimeWindow),
    c_NoiseLevel c < 3 ->
    filterByConstraints slots (withQuietHours c quiet)
    = filterByConstraints slots c.
Proof.
  intros slots c quiet Hn. rewrite !filterByConstraints_filter.
  apply filter_ext. intros s. unfold codeKeeps, keepsByTime, withQuietHours.
  cbn [c_Allowed c_Blocked c_QuietHours c_FinishBy c_StartBy c_PriceCapPence
       c_NoiseLevel].
  destruct (3 <=? c_NoiseLevel c) eqn:E; [apply Z.leb_le in E; lia|].
  reflexivity.
Qed.

(** X4 at the slots of the test day, noise level 1 and quiet hours from 22:00
    to 07:00. *)
Lemma X4_quiet_hours_need_noise_level_3_witness :
  filterByConstraints testSlots
    (withQuietHours noConstraints [mkTimeWindow "22:00" "07:00" []])
  = filterByConstraints testSlots noConstraints.
Proof.
  apply (X4_quiet_hours_need_noise_level_3 testSlots noConstraints).
  vm_compute. reflexivity.
Defined.

(** X5: raising the price cap loses no slot: a slot that
    [filterByConstraints] keeps under the cap [cap1] it keeps under every
    cap [cap2] with [cap1 <= cap2], the other constraints being the same. *)
Theorem X5_price_cap_monotone :
  forall (slots : list PriceSlot) (c : Constraints) (cap1 cap2 : float64)
         (s : PriceSlot),
    le cap1 cap2 = true ->
    In s (filterByConstraints slots (withPriceCap c cap1)) ->
    In s (filterByConstraints slots (withPriceCap c cap2)).
Proof.
  intros slots c cap1 cap2 s Hle Hin.
  apply filterByConstraints_In in Hin as [Hin Hk].
  apply filterByConstraints_In. split; [exact Hin|].
  unfold codeKeeps in *. cbn [withPriceCap c_PriceCapPence] in *.
  apply andb_true_iff in Hk as [Hcap Hk].
  apply andb_true_iff. split; [|exact Hk].
  apply negb_true_iff. apply negb_true_iff in Hcap.
  unfold gt in *.
  change (PrimFloat.ltb cap2 (slot_PencePerKWh s)) with (lt cap2 (slot_PencePerKWh s)).
  change (PrimFloat.ltb cap1 (slot_PencePerKWh s)) with (lt cap1 (slot_PencePerKWh s)) in Hcap.
  destruct (lt cap2 (slot_PencePerKWh s)) eqn:E; [|reflexivity].
  rewrite <- Hcap. symmetry. apply (le_lt_trans _ _ _ Hle E).
Qed.

(** X5 at the four morning slots: the slot priced 10 under the caps 12 and
    20. *)
Lemma X5_price_cap_monotone_witness :
  le 12%float 20%float = true
  /\ In (mkPriceSlot (Add baseTime (16 * 30 * Minute))
           (Add baseTime (17 * 30 * Minute)) 10%float true)
        (filterByConstraints fourSlots (withPriceCap noConstraints 20%float)).
Proof.
  split; [reflexivity|].
  apply (X5_price_cap_monotone fourSlots noConstraints 12%float 20%float).
  - reflexivity.
  - vm_compute. left. reflexivity.
Defined.

(** X6: with no price cap, no allowed and no blocked windows, no StartBy and
    no FinishBy, and a noise level below 3 or no quiet hours,
    [filterByConstraints] returns the slots as they are. *)
Theorem X6_no_constraints_keeps_all :
  forall (slots : list PriceSlot) (c : Constraints),
    c_PriceCapPence c = None ->
    c_Allowed c = [] ->
    c_Blocked c = [] ->
    c_StartBy c = None ->
    c_FinishBy c = None ->
    c_NoiseLevel c < 3 \/ c_QuietHours c = [] ->
    filterByConstraints slots c = slots.
Proof.
  intros slots c Hcap Hallowed Hblocked Hstart Hfinish Hquiet.
  rewrite filterByConstraints_filter.
  induction slots as [|s rest IH]; [reflexivity|].
  cbn [List.filter].
  assert (Hk : codeKeeps c s = true).
  { unfold codeKeeps, keepsByTime.
    rewrite Hcap, Hallowed, Hblocked, Hstart, Hfinish.
    cbn [length Nat.eqb orb andb].
    destruct Hquiet as [Hn|Hq].
    - destruct (3 <=? c_NoiseLevel c) eqn:E; [apply Z.leb_le in E; lia|].
      reflexivity.
    - rewrite Hq. cbn [length Nat.eqb negb]. rewrite andb_false_r. reflexivity. }
  rewrite Hk, IH. reflexivity.
Qed.

(** X6 at the slots of the test day. *)
Lemma X6_no_constraints_keeps_all_witness :
  filterByConstraints testSlots noConstraints = testSlots.
Proof.
  apply (X6_no_constraints_keeps_all testSlots noConstraints);
    try reflexivity.
  left. vm_compute. reflexivity.
Defined.

(** ** The filter and the specification, window by window *)

(** Where no window wraps past midnight, [matchesTimeWindow] is the
    membership of the specification. *)
Lemma matchesTimeWindow_by_day (t : Time) (window : TimeWindow) :
  wrapsMidnight window = false ->
  matchesTimeWindow t window = specMatchesTimeWindow t window.
Proof.
  unfold wrapsMidnight, specMatchesTimeWindow. intros Hw.
  destruct (parseTimeOfDay (tw_Start window)) as [startTime|] eqn:Es.
  - destruct (parseTimeOfDay (tw_End window)) as [endTime|] eqn:Ee.
    + rewrite (matchesTimeWindow_clock t window startTime endTime Es Ee), Hw.
      rewrite orb_false_r, andb_assoc. reflexivity.
    + apply matchesTimeWindow_malformed. right. exact Ee.
  - apply matchesTimeWindow_malformed. left. exact Es.
Qed.

(** Where a window does wrap, [matchesTimeWindow] holds the times from the
    start of the window to midnight and misses those from midnight to its
    end. *)
Lemma matchesTimeWindow_overnight (t : Time) (window : TimeWindow)
  (startTime endTime : Time) :
  parseTimeOfDay (tw_Start window) = Some startTime ->
  parseTimeOfDay (tw_End window) = Some endTime ->
  minuteOfDay endTime < minuteOfDay startTime ->
  matchesTimeWindow t window
  = specMatchesTimeWindow t window
    && negb (minuteOfDay t <? minuteOfDay endTime).
Proof.
  intros Es Ee Hw. unfold specMatchesTimeWindow.
  rewrite (matchesTimeWindow_clock t window startTime endTime Es Ee), Es, Ee.
  apply Z.ltb_lt in Hw. rewrite Hw. rewrite orb_true_r, andb_true_r.
  apply Z.ltb_lt in Hw.
  destruct (dayListed t window); [|reflexivity]. cbn [andb].
  destruct (minuteOfDay startTime <=? minuteOfDay t) eqn:E1;
    destruct (minuteOfDay t <? minuteOfDay endTime) eqn:E2; try reflexivity.
  apply Z.leb_le in E1. apply Z.ltb_lt in E2. lia.
Qed.

Lemma isInTimeWindows_by_day (t : Time) (windows : list TimeWindow) :
  (forall w, In w windows -> wrapsMidnight w = false) ->
  isInTimeWindows t windows = specInTimeWindows t windows.
Proof.
  induction windows as [|w ws IH]; intros H; [reflexivity|].
  cbn [isInTimeWindows specInTimeWindows existsb].
  rewrite (matchesTimeWindow_by_day t w) by (apply H; left; reflexivity).
  fold (specInTimeWindows t ws). rewrite <- IH by (intros w' Hw'; apply H; right; exact Hw').
  destruct (specMatchesTimeWindow t w); reflexivity.
Qed.

(** Away from windows that wrap past midnight, and on prices and caps that
    are numbers, [filterByConstraints] returns the subsequence the
    specification describes. *)
Lemma filterByConstraints_by_day (slots : list PriceSlot) (c : Constraints) :
  (forall w, In w (c_Allowed c ++ c_Blocked c ++ c_QuietHours c) ->
     wrapsMidnight w = false) ->
  (forall s, In s slots -> isNaN (slot_PencePerKWh s) = false) ->
  match c_PriceCapPence c with
  | Some cap => isNaN cap = false
  | None => True
  end ->
  filterByConstraints slots c = List.filter (specKeeps c) slots.
Proof.
  intros Hday Hprice Hcap. rewrite filterByConstraints_filter.
  apply filter_ext_in. intros s Hs. unfold codeKeeps, keepsByTime, specKeeps.
  rewrite !(isInTimeWindows_by_day (slot_Start s)).
  - rewrite !andb_assoc. do 5 f_equal.
    destruct (c_PriceCapPence c) as [cap|]; [|reflexivity].
    unfold gt.
    change (PrimFloat.ltb cap (slot_PencePerKWh s))
      with (lt cap (slot_PencePerKWh s)).
    destruct (lt cap (slot_PencePerKWh s)) eqn:E; cbn [negb].
    + symmetry. apply lt_not_ge. exact E.
    + symmetry. apply not_gt_le; [apply Hprice; exact Hs|exact Hcap|exact E].
  - intros w Hw. apply Hday. apply in_or_app. right. apply in_or_app. right.
    exact Hw.
  - intros w Hw. apply Hday. apply in_or_app. right. apply in_or_app. left.
    exact Hw.
  - intros w Hw. apply Hday. apply in_or_app. left. exact Hw.
Qed.

(* ================================================================== *)
(** * Window search: what comes back *)
(* ================================================================== *)

Lemma BestWindows_Ok_length (sortSlice : SliceSorter) (slots : list PriceSlot)
  (runMinutes : Z) (c : Constraints) (opts : Options) (topN : Z)
  (recs : list Recommendation) :
  BestWindows sortSlice slots runMinutes c opts topN = Ok recs ->
  recs = firstn (Z.to_nat (effectiveTopN topN))
           (sortSlice Recommendation lessByScore
              (candidateWindows sortSlice slots runMinutes c opts)).
Proof.
  unfold BestWindows, candidateWindows, effectiveTopN.
  destruct (length slots =? 0)%nat; [discriminate|].
  destruct (runMinutes <=? 0); [discriminate|].
  destruct (Z.of_nat (length (filterByConstraints slots c)) <? requiredSlotsFor runMinutes);
    [discriminate|].
  set (cands := scanWindows sortSlice slots (filterByConstraints slots c) opts
                  (requiredSlotsFor runMinutes)).
  destruct (length cands =? 0)%nat; [discriminate|].
  set (topN' := if topN <=? 0 then 3 else topN).
  destruct (topN' <? Z.of_nat (length (sortSlice Recommendation lessByScore cands))) eqn:E.
  - intros [= <-]. reflexivity.
  - apply Z.ltb_ge in E. intros [= <-]. rewrite firstn_all2 by lia. reflexivity.
Qed.

(** X7: a successful [BestWindows] returns as many Recommendations as there
    are candidate windows, up to [topN], where a [topN] of zero or less
    counts as 3; it returns at least one. *)
Theorem X7_BestWindows_count :
  forall (sortSlice : SliceSorter), SortPermutes sortSlice ->
  forall (slots : list PriceSlot) (runMinutes : Z) (c : Constraints)
         (opts : Options) (topN : Z) (recs : list Recommendation),
    BestWindows sortSlice slots runMinutes c opts topN = Ok recs ->
    Z.of_nat (length recs)
    = Z.min (effectiveTopN topN)
        (Z.of_nat (length (candidateWindows sortSlice slots runMinutes c opts)))
    /\ 1 <= Z.of_nat (length recs).
Proof.
  intros sortSlice Hperm slots runMinutes c opts topN recs HOk.
  pose proof (BestWindows_Ok_length _ _ _ _ _ _ _ HOk) as ->.
  apply BestWindows_Ok in HOk as (_ & Hne & _).
  pose proof (Permutation_length
                (Hperm Recommendation lessByScore
                   (candidateWindows sortSlice slots runMinutes c opts))) as Hlen.
  rewrite length_firstn, Hlen.
  assert (1 <= effectiveTopN topN).
  { unfold effectiveTopN. destruct (topN <=? 0) eqn:E; lia. }
  destruct (candidateWindows sortSlice slots runMinutes c opts); [congruence|].
  cbn [length]. lia.
Qed.

(** X7 at the four morning slots, a 60 minute run and the top three. *)
Lemma X7_BestWindows_count_witness :
  SortPermutes goSortSlice
  /\ Z.of_nat (length fourSlotsTop3)
     = Z.min (effectiveTopN 3)
         (Z.of_nat (length (candidateWindows goSortSlice fourSlots 60
                              noConstraints oneKWh)))
  /\ 1 <= Z.of_nat (length fourSlotsTop3).
Proof.
  split; [apply goSortSlice_permutes|].
  apply (X7_BestWindows_count goSortSlice goSortSlice_permutes fourSlots 60
           noConstraints oneKWh 3).
  vm_compute. reflexivity.
Defined.

(** X8: asking for fewer gives a prefix: for [0 < m <= n], [BestWindows] with
    [topN = m] returns the first [m] of the Recommendations it returns with
    [topN = n]. *)
Theorem X8_BestWindows_topN_prefix :
  forall (sortSlice : SliceSorter) (slots : list PriceSlot) (runMinutes : Z)
         (c : Constraints) (opts : Options) (n m : Z)
         (recs : list Recommendation),
    0 < m <= n ->
    BestWindows sortSlice slots runMinutes c opts n = Ok recs ->
    BestWindows sortSlice slots runMinutes c opts m
    = Ok (firstn (Z.to_nat m) recs).
Proof.
  intros sortSlice slots runMinutes c opts n m recs Hm.
  unfold BestWindows.
  destruct (length slots =? 0)%nat; [discriminate|].
  destruct (runMinutes <=? 0); [discriminate|].
  destruct (Z.of_nat (length (filterByConstraints slots c)) <? requiredSlotsFor runMinutes);
    [discriminate|].
  set (cands := scanWindows sortSlice slots (filterByConstraints slots c) opts
                  (requiredSlotsFor runMinutes)).
  destruct (length cands =? 0)%nat; [discriminate|].
  set (sorted := sortSlice Recommendation lessByScore cands).
  destruct (n <=? 0) eqn:En; [apply Z.leb_le in En; lia|].
  destruct (m <=? 0) eqn:Em; [apply Z.leb_le in Em; lia|].
  destruct (n <? Z.of_nat (length sorted)) eqn:E1;
    destruct (m <? Z.of_nat (length sorted)) eqn:E2;
    intros [= <-]; f_equal;
    try apply Z.ltb_lt in E1; try apply Z.ltb_ge in E1;
    try apply Z.ltb_lt in E2; try apply Z.ltb_ge in E2; try lia.
  - rewrite firstn_firstn. f_equal. lia.
  - rewrite firstn_all2 by lia. reflexivity.
Qed.

(** X8 at the four morning slots: the top one of the top three. *)
Lemma X8_BestWindows_topN_prefix_witness :
  0 < 1 <= 3
  /\ BestWindows goSortSlice fourSlots 60 noConstraints oneKWh 1
     = Ok (firstn (Z.to_nat 1) fourSlotsTop3).
Proof.
  split; [lia|].
  apply (X8_BestWindows_topN_prefix goSortSlice fourSlots 60 noConstraints oneKWh 3 1).
  - lia.
  - vm_compute. reflexivity.
Defined.

(** Every Recommendation [BestWindows] returns is the Recommendation of a
    contiguous window of feasible slots. *)
Lemma BestWindows_In (sortSlice : SliceSorter) (slots : list PriceSlot)
  (runMinutes : Z) (c : Constraints) (opts : Options) (topN : Z)
  (recs : list Recommendation) (rec : Recommendation) :
  SortPermutes sortSlice ->
  BestWindows sortSlice slots runMinutes c opts topN = Ok recs ->
  In rec recs ->
  exists i : nat,
    Z.of_nat i + requiredSlotsFor runMinutes
      <= Z.of_nat (length (filterByConstraints slots c))
    /\ isContiguous (windowAt (filterByConstraints slots c) i
                       (requiredSlotsFor runMinutes)) = true
    /\ recommendationOf sortSlice slots
         (windowAt (filterByConstraints slots c) i (requiredSlotsFor runMinutes))
         opts (requiredSlotsFor runMinutes) = Some rec.
Proof.
  intros Hperm HOk Hin.
  apply BestWindows_Ok in HOk as (Hrun & _ & n & _ & ->).
  assert (In rec (candidateWindows sortSlice slots runMinutes c opts)) as Hc.
  { apply (Permutation_in _ (Hperm Recommendation lessByScore _)).
    rewrite <- (firstn_skipn n
                  (sortSlice Recommendation lessByScore
                     (candidateWindows sortSlice slots runMinutes c opts))).
    apply in_or_app. left. exact Hin. }
  pose proof (requiredSlotsFor_pos runMinutes Hrun) as Hreq.
  apply scanWindows_In in Hc; assumption.
Qed.

Lemma windowAt_incl (feasible : list PriceSlot) (i : nat) (req : Z) (s : PriceSlot) :
  In s (windowAt feasible i req) -> In s feasible.
Proof.
  unfold windowAt. intros H.
  rewrite <- (firstn_skipn i feasible). apply in_or_app. right.
  rewrite <- (firstn_skipn (Z.to_nat req) (skipn i feasible)).
  apply in_or_app. left. exact H.
Qed.

Lemma last_In {A : Type} (l : list A) (x : A) : last l = Some x -> In x l.
Proof.
  intros H. apply last_Some in H as [l' ->]. apply in_or_app. right. left.
  reflexivity.
Qed.

(** The ends of a returned Recommendation are the start of one feasible slot
    and the end of another. *)
Lemma BestWindows_ends (sortSlice : SliceSorter) (slots : list PriceSlot)
  (runMinutes : Z) (c : Constraints) (opts : Options) (topN : Z)
  (recs : list Recommendation) (rec : Recommendation) :
  SortPermutes sortSlice ->
  BestWindows sortSlice slots runMinutes c opts topN = Ok recs ->
  In rec recs ->
  exists first final : PriceSlot,
    In first (filterByConstraints slots c)
    /\ In final (filterByConstraints slots c)
    /\ rec_Start rec = slot_Start first
    /\ rec_End rec = slot_End final.
Proof.
  intros Hperm HOk Hin.
  destruct (BestWindows_In _ _ _ _ _ _ _ _ Hperm HOk Hin) as (i & _ & _ & Hrec).
  unfold recommendationOf in Hrec.
  destruct (windowAt (filterByConstraints slots c) i (requiredSlotsFor runMinutes))
    as [|first rest] eqn:Ew; [discriminate|].
  destruct (last (first :: rest)) as [final|] eqn:El; [|discriminate].
  injection Hrec as <-. exists first, final. cbn [rec_Start rec_End].
  repeat split.
  - apply (windowAt_incl _ i (requiredSlotsFor runMinutes)). rewrite Ew.
    left. reflexivity.
  - apply (windowAt_incl _ i (requiredSlotsFor runMinutes)). rewrite Ew.
    apply last_In. exact El.
Qed.

Lemma codeKeeps_deadlines (c : Constraints) (s : PriceSlot) :
  codeKeeps c s = true ->
  (forall startBy, c_StartBy c = Some startBy ->
     NotAfter (slot_Start s) startBy = true)
  /\ (forall finishBy, c_FinishBy c = Some finishBy ->
        NotAfter (slot_End s) finishBy = true).
Proof.
  unfold codeKeeps, keepsByTime. intros H.
  apply andb_true_iff in H as [_ H].
  apply andb_true_iff in H as [H Hfinish].
  apply andb_true_iff in H as [_ Hstart].
  split; intros d Hd; rewrite Hd in *; assumption.
Qed.

(** X9: every Recommendation [BestWindows] returns starts no later than
    StartBy and ends no later than FinishBy, where they are set. *)
Theorem X9_BestWindows_deadlines :
  forall (sortSlice : SliceSorter), SortPermutes sortSlice ->
  forall (slots : list PriceSlot) (runMinutes : Z) (c : Constraints)
         (opts : Options) (topN : Z) (recs : list Recommendation)
         (rec : Recommendation),
    BestWindows sortSlice slots runMinutes c opts topN = Ok recs ->
    In rec recs ->
    (forall startBy, c_StartBy c = Some startBy ->
       NotAfter (rec_Start rec) startBy = true)
    /\ (forall finishBy, c_FinishBy c = Some finishBy ->
          NotAfter (rec_End rec) finishBy = true).
Proof.
  intros sortSlice Hperm slots runMinutes c opts topN recs rec HOk Hin.
  destruct (BestWindows_ends _ _ _ _ _ _ _ _ Hperm HOk Hin)
    as (first & final & Hf & Hl & -> & ->).
  apply filterByConstraints_In in Hf as [_ Hf].
  apply filterByConstraints_In in Hl as [_ Hl].
  split.
  - apply (codeKeeps_deadlines c first Hf).
  - apply (codeKeeps_deadlines c final Hl).
Qed.

(** X9 at the four morning slots with FinishBy 09:30. *)
Lemma X9_BestWindows_deadlines_witness :
  SortPermutes goSortSlice
  /\ (forall startBy, c_StartBy finishByHalfNine = Some startBy ->
        NotAfter (rec_Start earlyBest) startBy = true)
  /\ (forall finishBy, c_FinishBy finishByHalfNine = Some finishBy ->
        NotAfter (rec_End earlyBest) finishBy = true).
Proof.
  split; [apply goSortSlice_permutes|].
  apply (X9_BestWindows_deadlines goSortSlice goSortSlice_permutes fourSlots 60
           finishByHalfNine oneKWh 3 (earlyBest :: earlyOthers)).
  - vm_compute. reflexivity.
  - left. reflexivity.
Defined.

(** X10: when no candidate window has a NaN score and the sort routine meets
    its contract, the first Recommendation [BestWindows] returns scores no
    more than any candidate window. *)
Theorem X10_BestWindows_first_is_cheapest :
  forall (sortSlice : SliceSorter), SortSliceSpec sortSlice ->
  forall (slots : list PriceSlot) (runMinutes : Z) (c : Constraints)
         (opts : Options) (topN : Z) (best : Recommendation)
         (others : list Recommendation) (candidate : Recommendation),
    forallb (fun r => negb (isNaN (rec_Score r)))
            (candidateWindows sortSlice slots runMinutes c opts) = true ->
    BestWindows sortSlice slots runMinutes c opts topN = Ok (best :: others) ->
    In candidate (candidateWindows sortSlice slots runMinutes c opts) ->
    le (rec_Score best) (rec_Score candidate) = true.
Proof.
  intros sortSlice [Hperm Hord] slots runMinutes c opts topN best others
    candidate Hnan HOk Hin.
  apply BestWindows_Ok in HOk as (_ & _ & n & Hn & HOk).
  set (cands := candidateWindows sortSlice slots runMinutes c opts) in *.
  pose proof (Hord Recommendation lessByScore cands
                (lessByScore_strict_weak cands Hnan)) as HS.
  apply (Permutation_in _ (Permutation_sym (Hperm _ lessByScore cands))) in Hin.
  rewrite forallb_forall in Hnan.
  assert (Hn' : forall r, In r (sortSlice Recommendation lessByScore cands) ->
                          isNaN (rec_Score r) = false).
  { intros r Hr. apply (Permutation_in _ (Hperm _ lessByScore cands)) in Hr.
    apply Hnan in Hr. apply negb_true_iff in Hr. exact Hr. }
  destruct (sortSlice Recommendation lessByScore cands) as [|x l] eqn:Es.
  { destruct Hin. }
  destruct n as [|n]; [lia|]. cbn [firstn] in HOk. injection HOk as -> _.
  unfold SortedBy in HS. inversion HS as [|? ? _ Hx]; subst.
  destruct Hin as [->|Hin].
  - apply not_gt_le; try (apply Hn'; left; reflexivity).
    apply lt_irrefl.
  - rewrite List.Forall_forall in Hx.
    apply not_gt_le.
    + apply Hn'. left. reflexivity.
    + apply Hn'. right. exact Hin.
    + apply (Hx candidate Hin).
Qed.

(** X10 at the four morning slots, with the reference sort: the first
    Recommendation against the one the library sort puts first. *)
Lemma X10_BestWindows_first_is_cheapest_witness :
  SortSliceSpec refSortSlice
  /\ le (rec_Score refBest) (rec_Score fourSlotsBest) = true.
Proof.
  split; [apply refSortSlice_spec|].
  apply (X10_BestWindows_first_is_cheapest refSortSlice refSortSlice_spec
           fourSlots 60 noConstraints oneKWh 3 refBest refOthers).
  - vm_compute. reflexivity.
  - vm_compute. reflexivity.
  - vm_compute. right. right. left. reflexivity.
Defined.

Lemma isContiguous_tail (x : PriceSlot) (l : list PriceSlot) :
  isContiguous (x :: l) = true -> isContiguous l = true.
Proof.
  destruct l as [|y l]; [reflexivity|]. cbn [isContiguous].
  destruct (negb (Equal (slot_Start y) (slot_End x))); [discriminate|auto].
Qed.

Lemma isContiguous_firstn (n : nat) (l : list PriceSlot) :
  isContiguous l = true -> isContiguous (firstn n l) = true.
Proof.
  revert n. induction l as [|x l IH]; intros n H.
  - destruct n; reflexivity.
  - destruct n as [|n]; [reflexivity|].
    destruct l as [|y l]; [destruct n; reflexivity|].
    destruct n as [|n]; [reflexivity|].
    specialize (IH (S n) (isContiguous_tail _ _ H)).
    cbn [isContiguous] in H. cbn [firstn isContiguous] in *.
    destruct (negb (Equal (slot_Start y) (slot_End x))); [discriminate|].
    exact IH.
Qed.

(** On slots without a gap every position with enough slots left is a
    candidate. *)
Lemma scanWindows_gap_free (sortSlice : SliceSorter) (slots rest : list PriceSlot)
  (opts : Options) (req : Z) :
  1 <= req -> isContiguous rest = true ->
  Z.of_nat (length (scanWindows sortSlice slots rest opts req))
  = Z.max 0 (Z.of_nat (length rest) - req + 1).
Proof.
  intros Hreq. induction rest as [|x tail IH]; intros Hc.
  - cbn [scanWindows length]. lia.
  - rewrite scanWindows_step.
    destruct (req <=? Z.of_nat (length (x :: tail))) eqn:E.
    + apply Z.leb_le in E.
      assert (Hw : isContiguous (windowAt (x :: tail) 0 req) = true).
      { unfold windowAt. cbn [skipn]. apply isContiguous_firstn. exact Hc. }
      rewrite Hw.
      destruct (recommendationOf_nonempty sortSlice slots
                  (windowAt (x :: tail) 0 req) opts req) as [r Hr].
      { apply windowAt_nonempty; lia. }
      rewrite Hr. cbn [length] in *.
      rewrite Nat2Z.inj_succ, (IH (isContiguous_tail _ _ Hc)). lia.
    + apply Z.leb_gt in E. cbn [length] in *. lia.
Qed.

(** X11: on slots without a gap, all of which the constraints keep, with a
    positive run length and at least the required number of slots,
    [BestWindows] succeeds and returns [len(slots) - requiredSlots + 1]
    Recommendations, up to [topN] (3 when [topN] is zero or less). *)
Theorem X11_BestWindows_gap_free :
  forall (sortSlice : SliceSorter), SortPermutes sortSlice ->
  forall (slots : list PriceSlot) (runMinutes : Z) (c : Constraints)
         (opts : Options) (topN : Z),
    isContiguous slots = true ->
    filterByConstraints slots c = slots ->
    0 < runMinutes ->
    requiredSlotsFor runMinutes <= Z.of_nat (length slots) ->
    exists recs,
      BestWindows sortSlice slots runMinutes c opts topN = Ok recs
      /\ Z.of_nat (length recs)
         = Z.min (effectiveTopN topN)
             (Z.of_nat (length slots) - requiredSlotsFor runMinutes + 1).
Proof.
  intros sortSlice Hperm slots runMinutes c opts topN Hc Hall Hrun Hlen.
  pose proof (requiredSlotsFor_pos runMinutes Hrun) as Hreq.
  pose proof (scanWindows_gap_free sortSlice slots slots opts
                (requiredSlotsFor runMinutes) Hreq Hc) as Hn.
  unfold BestWindows. rewrite Hall.
  destruct (length slots =? 0)%nat eqn:E0; [apply Nat.eqb_eq in E0; lia|].
  destruct (runMinutes <=? 0) eqn:E1; [apply Z.leb_le in E1; lia|].
  destruct (Z.of_nat (length slots) <? requiredSlotsFor runMinutes) eqn:E2;
    [apply Z.ltb_lt in E2; lia|].
  set (cands := scanWindows sortSlice slots slots opts (requiredSlotsFor runMinutes)) in *.
  destruct (length cands =? 0)%nat eqn:E3; [apply Nat.eqb_eq in E3; lia|].
  pose proof (Permutation_length (Hperm Recommendation lessByScore cands)) as Hp.
  fold (effectiveTopN topN).
  assert (1 <= effectiveTopN topN).
  { unfold effectiveTopN. destruct (topN <=? 0) eqn:E; lia. }
  destruct (effectiveTopN topN
            <? Z.of_nat (length (sortSlice Recommendation lessByScore cands))) eqn:E4;
    eexists; (split; [reflexivity|]).
  - apply Z.ltb_lt in E4. rewrite length_firstn. lia.
  - apply Z.ltb_ge in E4. lia.
Qed.

(** X11 at the 48 slots of the test day, a 90 minute run and the top five. *)
Lemma X11_BestWindows_gap_free_witness :
  SortPermutes goSortSlice
  /\ exists recs,
       BestWindows goSortSlice testSlots 90 noConstraints oneKWh 5 = Ok recs
       /\ Z.of_nat (length recs) = Z.min (effectiveTopN 5) (48 - 3 + 1).
Proof.
  split; [apply goSortSlice_permutes|].
  apply (X11_BestWindows_gap_free goSortSlice goSortSlice_permutes testSlots 90
           noConstraints oneKWh 5).
  - vm_compute. reflexivity.
  - vm_compute. reflexivity.
  - lia.
  - vm_compute. discriminate.
Defined.

(** A contiguous run of half-hour slots ends where it started plus thirty
    minutes a slot. *)
Lemma contiguous_span (first : PriceSlot) (rest : list PriceSlot)
  (final : PriceSlot) :
  isContiguous (first :: rest) = true ->
  (forall s, In s (first :: rest) -> halfHour s) ->
  last (first :: rest) = Some final ->
  unixNano (slot_End final)
  = unixNano (slot_Start first)
    + Z.of_nat (length (first :: rest)) * (30 * Minute).
Proof.
  revert first. induction rest as [|second rest IH]; intros first Hc Hh Hl.
  - cbn in Hl. injection Hl as <-. rewrite (Hh first) by (left; reflexivity).
    cbn [length]. lia.
  - assert (Hl' : last (second :: rest) = Some final).
    { rewrite <- Hl. reflexivity. }
    pose proof (isContiguous_tail _ _ Hc) as Hc'.
    rewrite (IH second Hc' (fun s Hs => Hh s (or_intror Hs)) Hl').
    cbn [isContiguous] in Hc.
    destruct (Equal (slot_Start second) (slot_End first)) eqn:E;
      [|discriminate].
    unfold Equal in E. apply Z.eqb_eq in E.
    rewrite E, (Hh first) by (left; reflexivity).
    cbn [length]. lia.
Qed.

(** X12: when every slot lasts thirty minutes, every Recommendation
    [BestWindows] returns lasts [requiredSlots] times thirty minutes, which
    is at least the run length. *)
Theorem X12_BestWindows_duration :
  forall (sortSlice : SliceSorter), SortPermutes sortSlice ->
  forall (slots : list PriceSlot) (runMinutes : Z) (c : Constraints)
         (opts : Options) (topN : Z) (recs : list Recommendation)
         (rec : Recommendation),
    (forall s, In s slots -> halfHour s) ->
    BestWindows sortSlice slots runMinutes c opts topN = Ok recs ->
    In rec recs ->
    unixNano (rec_End rec) - unixNano (rec_Start rec)
    = requiredSlotsFor runMinutes * (30 * Minute)
    /\ runMinutes * Minute
       <= unixNano (rec_End rec) - unixNano (rec_Start rec).
Proof.
  intros sortSlice Hperm slots runMinutes c opts topN recs rec Hhalf HOk Hin.
  destruct (BestWindows_In _ _ _ _ _ _ _ _ Hperm HOk Hin) as (i & Hi & Hc & Hrec).
  apply BestWindows_Ok in HOk as (Hrun & _).
  pose proof (requiredSlotsFor_pos runMinutes Hrun) as Hreq.
  pose proof (requiredSlotsFor_ceiling runMinutes) as Hceil.
  set (feasible := filterByConstraints slots c) in *.
  set (req := requiredSlotsFor runMinutes) in *.
  assert (Hlen : Z.of_nat (length (windowAt feasible i req)) = req).
  { unfold windowAt. rewrite length_firstn, length_skipn. lia. }
  unfold recommendationOf in Hrec.
  destruct (windowAt feasible i req) as [|first rest] eqn:Ew; [discriminate|].
  destruct (last (first :: rest)) as [final|] eqn:El; [|discriminate].
  injection Hrec as <-. cbn [rec_Start rec_End].
  assert (Hh : forall s, In s (first :: rest) -> halfHour s).
  { intros s Hs. apply Hhalf. rewrite <- Ew in Hs.
    apply windowAt_incl in Hs. apply filterByConstraints_In in Hs. apply Hs. }
  rewrite (contiguous_span first rest final Hc Hh El), Hlen.
  unfold Minute, Second, Nanosecond in *. lia.
Qed.

(** X12 at the four morning slots and a 60 minute run. *)
Lemma X12_BestWindows_duration_witness :
  SortPermutes goSortSlice
  /\ unixNano (rec_End fourSlotsBest) - unixNano (rec_Start fourSlotsBest)
     = requiredSlotsFor 60 * (30 * Minute)
  /\ 60 * Minute
     <= unixNano (rec_End fourSlotsBest) - unixNano (rec_Start fourSlotsBest).
Proof.
  split; [apply goSortSlice_permutes|].
  apply (X12_BestWindows_duration goSortSlice goSortSlice_permutes fourSlots 60
           noConstraints oneKWh 3 fourSlotsTop3).
  - intros s [<-|[<-|[<-|[<-|[]]]]]; vm_compute; reflexivity.
  - vm_compute. reflexivity.
  - left. reflexivity.
Defined.

Lemma percentileOf_above (allPrices : list float64) (avgPence : float64) (i count : Z) :
  (forall p, In p allPrices -> le avgPence p = false) ->
  percentileOf allPrices avgPence i count = 0%float.
Proof.
  revert i. induction allPrices as [|p rest IH]; intros i H; [reflexivity|].
  cbn [percentileOf]. rewrite (H p) by (left; reflexivity).
  apply IH. intros q Hq. apply H. right. exact Hq.
Qed.

(** X13: when [totalPence / len(window)] is at or below no price of the day
    (it is above them all), the loop of [generateReason] leaves the
    percentile at 0 and the reason is that of the best case: Excellent
    price, bottom 0% of the day. *)
Theorem X13_generateReason_above_every_price :
  forall (sortSlice : SliceSorter), SortPermutes sortSlice ->
  forall (window : list PriceSlot) (totalPence : float64)
         (allSlots : list PriceSlot),
    (forall s, In s allSlots ->
       le (PrimFloat.div totalPence (of_int (Z.of_nat (length window))))
          (slot_PencePerKWh s) = false) ->
    generateReason sortSlice window totalPence allSlots = ExcellentPrice 0%float.
Proof.
  intros sortSlice Hperm window totalPence allSlots Habove.
  unfold generateReason, sortFloat64s.
  rewrite percentileOf_above; [reflexivity|].
  intros p Hp.
  apply (Permutation_in _ (Hperm float64 float64Less _)) in Hp.
  apply in_map_iff in Hp as (s & <- & Hs). apply Habove. exact Hs.
Qed.

(** X13 at the four morning slots (prices up to 25) and a window of one slot
    with a total of 250. *)
Lemma X13_generateReason_above_every_price_witness :
  SortPermutes goSortSlice
  /\ generateReason goSortSlice (firstn 1 fourSlots) 250%float fourSlots
     = ExcellentPrice 0%float.
Proof.
  split; [apply goSortSlice_permutes|].
  apply (X13_generateReason_above_every_price goSortSlice goSortSlice_permutes).
  intros s [<-|[<-|[<-|[<-|[]]]]]; vm_compute; reflexivity.
Defined.

Lemma default_hours_clock (t : Time) :
  isInTimeWindows t defaultAvailable = true ->
  7 * 60 <= minuteOfDay t < 23 * 60 + 30.
Proof.
  unfold defaultAvailable. cbn [isInTimeWindows].
  rewrite matchesTimeWindow_every_day.
  rewrite (matchesTimeWindow_clock t (mkTimeWindow "07:00" "23:30" [])
             (Date 0 1 1 7 0 0 0 UTC) (Date 0 1 1 23 30 0 0 UTC)
             eq_refl eq_refl).
  change (minuteOfDay (Date 0 1 1 7 0 0 0 UTC)) with 420.
  change (minuteOfDay (Date 0 1 1 23 30 0 0 UTC)) with 1410.
  change (dayListed t (mkTimeWindow "07:00" "23:30" [])) with true.
  change (1410 <? 420) with false.
  destruct (_ && _) eqn:E; [|discriminate]. intros _.
  apply andb_true_iff in E as [E1 E2]. cbn [andb] in E1.
  rewrite orb_false_r in E2.
  apply Z.leb_le in E1. apply Z.ltb_lt in E2. lia.
Qed.

(** X14: for an appliance that is started by hand, in a household that has
    set no available hours, every Recommendation [BestWindows] returns under
    the constraints of [ApplyPracticalConstraints] starts from 07:00 on and
    before 23:30 on the wall clock. *)
Theorem X14_manual_default_hours :
  forall (sortSlice : SliceSorter), SortPermutes sortSlice ->
  forall (appliance : Appliance) (household : Household)
         (slots : list PriceSlot) (runMinutes : Z) (c : Constraints)
         (opts : Options) (topN : Z) (recs : list Recommendation)
         (rec : Recommendation),
    a_ControlType appliance = ControlManual ->
    h_AvailableHours household = [] ->
    BestWindows sortSlice slots runMinutes
      (ApplyPracticalConstraints appliance household c) opts topN = Ok recs ->
    In rec recs ->
    7 * 60 <= minuteOfDay (rec_Start rec) < 23 * 60 + 30.
Proof.
  intros sortSlice Hperm appliance household slots runMinutes c opts topN recs
    rec Hmanual Hnone HOk Hin.
  destruct (BestWindows_ends _ _ _ _ _ _ _ _ Hperm HOk Hin)
    as (first & _ & Hf & _ & -> & _).
  apply filterByConstraints_In in Hf as [_ Hf].
  unfold ApplyPracticalConstraints in Hf. rewrite Hmanual, Hnone in Hf.
  change (String.eqb ControlManual ControlManual) with true in Hf.
  cbn [length Nat.ltb Nat.leb] in Hf.
  unfold codeKeeps, keepsByTime in Hf.
  cbn [set_Allowed c_Allowed] in Hf.
  apply andb_true_iff in Hf as [_ Hf].
  repeat (apply andb_true_iff in Hf as [Hf _]).
  apply default_hours_clock. unfold defaultAvailable.
  cbn [isInTimeWindows]. rewrite Hf. reflexivity.
Qed.

(** X14 at the slots of the test day and a dishwasher started by hand. *)
Lemma X14_manual_default_hours_witness :
  SortPermutes goSortSlice
  /\ a_ControlType manualDishwasher = ControlManual
  /\ h_AvailableHours anyHousehold = []
  /\ 7 * 60 <= minuteOfDay (rec_Start manualBest) < 23 * 60 + 30.
Proof.
  split; [apply goSortSlice_permutes|]. split; [reflexivity|].
  split; [reflexivity|].
  apply (X14_manual_default_hours goSortSlice goSortSlice_permutes manualDishwasher
           anyHousehold testSlots 60 noConstraints oneKWh 3
           (manualBest :: manualOthers)).
  - reflexivity.
  - reflexivity.
  - vm_compute. reflexivity.
  - left. reflexivity.
Defined.

(* ================================================================== *)
(** * The smart orchestrator: the options of a wash *)
(* ================================================================== *)

Lemma DryingPairs_app (l1 l2 : list RecommendationOption) :
  DryingPairs l1 -> DryingPairs l2 -> DryingPairs (l1 ++ l2).
Proof.
  intros H1 H2. induction H1; cbn [app].
  - exact H2.
  - apply pairs_tumble; assumption.
  - apply pairs_both; assumption.
Qed.

Lemma DryingPairs_split (l : list RecommendationOption) :
  DryingPairs l ->
  forall before o after,
    l = before ++ o :: after -> ro_UsesNaturalDry o = true ->
    exists earlier t,
      before = earlier ++ [t]
      /\ ro_UsesNaturalDry t = false
      /\ ro_PrimarySlot o = ro_PrimarySlot t
      /\ ro_Date o = ro_Date t
      /\ ro_Day o = ro_Day t
      /\ ro_Weather o = ro_Weather t.
Proof.
  induction 1 as [|t l Ht Hl IH|t o' l Ht Ho' Hp Hd Hn Hw Hl IH];
    intros before o after E Ho.
  - destruct before; discriminate.
  - destruct before as [|b before]; cbn [app] in E.
    + injection E as -> _. congruence.
    + injection E as <- E.
      destruct (IH before o after E Ho) as (earlier & t' & -> & H').
      exists (t :: earlier), t'. split; [reflexivity|exact H'].
  - destruct before as [|b before]; cbn [app] in E.
    + injection E as -> _. congruence.
    + injection E as <- E.
      destruct before as [|b' before]; cbn [app] in E.
      * injection E as <- _. exists [], t. repeat split; assumption.
      * injection E as <- E.
        destruct (IH before o after E Ho) as (earlier & t' & -> & H').
        exists (t :: o' :: earlier), t'. split; [reflexivity|exact H'].
Qed.

Lemma SavingsAgainstFirst_snoc (options : list RecommendationOption)
  (o : RecommendationOption) :
  SavingsAgainstFirst options ->
  ro_SavingsVsToday o
  = match options with
    | first :: _ => PrimFloat.sub (ro_TotalCostGBP first) (ro_TotalCostGBP o)
    | [] => 0%float
    end ->
  SavingsAgainstFirst (options ++ [o]).
Proof.
  destruct options as [|first later]; cbn [app SavingsAgainstFirst].
  - intros _ H. split; [exact H|constructor].
  - intros [H0 Hl] H. split; [exact H0|].
    apply Forall_app. split; [exact Hl|]. constructor; [exact H|constructor].
Qed.

Section CoupledFacts.

Variable sortSlice : SliceSorter.
Variable localZone : Z.
Variables (washer : Appliance) (dryer : option Appliance).
Variable pricesByDay : gmap string (list PriceSlot).
Variable weatherByDay : gmap string WeatherForecast.
Variables (c : Constraints) (opts : Options).

(** What a round of the day loop appends: nothing, a tumble-dry option, or
    a tumble-dry option and the line-dry option of the same wash. *)
Lemma coupledDay_appends (clock : Clock) (options : list RecommendationOption)
  (dayOffset : Z) :
  exists added,
    coupledDay sortSlice localZone clock washer dryer pricesByDay weatherByDay
      c opts options dayOffset = options ++ added
    /\ (length added <= 2)%nat
    /\ DryingPairs added
    /\ (SavingsAgainstFirst options -> SavingsAgainstFirst (options ++ added)).
Proof.
  unfold coupledDay.
  assert (Hnone : exists added,
            options = options ++ added /\ (length added <= 2)%nat
            /\ DryingPairs added
            /\ (SavingsAgainstFirst options -> SavingsAgainstFirst (options ++ added))).
  { exists []. rewrite app_nil_r. repeat split; auto. constructor. }
  destruct (pricesByDay !! _) as [prices|]; [|exact Hnone].
  destruct (BestWindows _ _ _ _ _ _) as [[|washerSlot rest]|e]; try exact Hnone.
  destruct dryer as [d|].
  2:{ destruct (weatherByDay !! _); exact Hnone. }
  set (tumble := mkRecommendationOption _ _ washerSlot (Some _) _ _ false _ _).
  assert (Ht : SavingsAgainstFirst options -> SavingsAgainstFirst (options ++ [tumble])).
  { intros H. apply SavingsAgainstFirst_snoc; [exact H|].
    subst tumble. cbn [ro_SavingsVsToday ro_TotalCostGBP].
    destruct options; reflexivity. }
  assert (Hone : exists added,
            options ++ [tumble] = options ++ added /\ (length added <= 2)%nat
            /\ DryingPairs added
            /\ (SavingsAgainstFirst options -> SavingsAgainstFirst (options ++ added))).
  { exists [tumble]. repeat split; auto.
    apply pairs_tumble; [reflexivity|constructor]. }
  destruct (weatherByDay !! _) as [w|] eqn:Ew; [|exact Hone].
  destruct (wf_IsSunny w && _); [|exact Hone].
  set (line := mkRecommendationOption _ _ washerSlot None _ _ true _ _).
  exists [tumble; line]. rewrite <- app_assoc. cbn [app].
  split; [reflexivity|]. split; [cbn; lia|]. split.
  - apply pairs_both; try reflexivity. constructor.
  - intros H.
    replace (options ++ [tumble; line]) with ((options ++ [tumble]) ++ [line])
      by (rewrite <- app_assoc; reflexivity).
    apply SavingsAgainstFirst_snoc; [apply Ht; exact H|].
    subst line. cbn [ro_SavingsVsToday ro_TotalCostGBP]. reflexivity.
Qed.

Lemma coupledDays_appends (clock : Clock) (rounds : nat)
  (options : list RecommendationOption) (dayOffset : Z) :
  exists added,
    coupledDays sortSlice localZone rounds clock washer dryer pricesByDay
      weatherByDay c opts options dayOffset = options ++ added
    /\ (length added <= 2 * rounds)%nat
    /\ DryingPairs added
    /\ (SavingsAgainstFirst options -> SavingsAgainstFirst (options ++ added)).
Proof.
  revert options dayOffset. induction rounds as [|n IH]; intros options d.
  - exists []. cbn [coupledDays]. rewrite app_nil_r. repeat split; auto.
    constructor.
  - cbn [coupledDays].
    destruct (coupledDay_appends clock options d) as (a1 & -> & Hl1 & Hp1 & Hs1).
    destruct (IH (options ++ a1) (d + 1)) as (a2 & -> & Hl2 & Hp2 & Hs2).
    exists (a1 ++ a2). rewrite app_assoc. split; [reflexivity|].
    split; [rewrite length_app; lia|]. split.
    + apply DryingPairs_app; assumption.
    + intros H. apply Hs2. apply Hs1. exact H.
Qed.

End CoupledFacts.

Lemma daysToCheckOf_range (washer : Appliance) : daysToCheckOf washer <= 3.
Proof.
  unfold daysToCheckOf.
  destruct (a_CanWaitDays washer =? 0);
    match goal with |- context [3 <? ?x] => destruct (3 <? x) eqn:E end;
    try apply Z.ltb_ge in E; lia.
Qed.

Lemma generateCoupledRecommendation_Ok (sortSlice : SliceSorter) (localZone : Z)
  (clock : Clock) (washer : Appliance) (dryer : option Appliance)
  (pricesByDay : gmap string (list PriceSlot))
  (weatherByDay : gmap string WeatherForecast)
  (household : Household) (c : Constraints) (opts : Options)
  (sr : SmartRecommendation) :
  generateCoupledRecommendation sortSlice localZone clock washer dryer
    pricesByDay weatherByDay household c opts = Ok sr ->
  sr_Options sr <> []
  /\ sr_Options sr
     = coupledDays sortSlice localZone (Z.to_nat (daysToCheckOf washer)) clock
         washer dryer pricesByDay weatherByDay c opts [] 0
  /\ sr_BestOptionIndex sr = bestOptionIndex (sr_Options sr)
  /\ sr_ApplianceName sr = a_Name washer.
Proof.
  unfold generateCoupledRecommendation.
  set (options := coupledDays _ _ _ _ _ _ _ _ _ _ _ _).
  destruct (length options =? 0)%nat eqn:E; [discriminate|].
  intros [= <-]. cbn [sr_Options sr_BestOptionIndex sr_ApplianceName].
  repeat split. intros Hnil. rewrite Hnil in E. discriminate.
Qed.

(** X15: a successful [generateCoupledRecommendation] returns at least one
    option and at most two for each day it checks, so at most six. *)
Theorem X15_coupled_option_count :
  forall (sortSlice : SliceSorter) (localZone : Z) (clock : Clock)
         (washer : Appliance) (dryer : option Appliance)
         (pricesByDay : gmap string (list PriceSlot))
         (weatherByDay : gmap string WeatherForecast)
         (household : Household) (c : Constraints) (opts : Options)
         (sr : SmartRecommendation),
    generateCoupledRecommendation sortSlice localZone clock washer dryer
      pricesByDay weatherByDay household c opts = Ok sr ->
    1 <= Z.of_nat (length (sr_Options sr)) <= 2 * daysToCheckOf washer
    /\ 2 * daysToCheckOf washer <= 6.
Proof.
  intros sortSlice localZone clock washer dryer pricesByDay weatherByDay
    household c opts sr HOk.
  apply generateCoupledRecommendation_Ok in HOk as (Hne & Hopts & _).
  destruct (coupledDays_appends sortSlice localZone washer dryer pricesByDay
              weatherByDay c opts clock (Z.to_nat (daysToCheckOf washer)) [] 0)
    as (added & E & Hlen & _).
  rewrite <- Hopts in E. cbn [app] in E. rewrite E in *.
  pose proof (daysToCheckOf_range washer).
  destruct added; [congruence|]. cbn [length] in *. lia.
Qed.

(** X15 on the scenario. *)
Lemma X15_coupled_option_count_witness :
  1 <= Z.of_nat (length scenarioOptions) <= 2 * daysToCheckOf washingMachine
  /\ 2 * daysToCheckOf washingMachine <= 6.
Proof.
  apply (X15_coupled_option_count goSortSlice UTC (fixedClock (morningOf 1))
           washingMachine (Some tumbleDryer) threeDays sunnyThird anyHousehold
           noConstraints oneKWh
           (mkSmartRecommendation "Washing Machine" scenarioOptions 3)).
  vm_compute. reflexivity.
Defined.

(** X16: in the options of a successful [generateCoupledRecommendation],
    SavingsVsToday is 0 for the first option and, for every later option,
    the total cost of the first option less its own: the savings are
    against the first day that has an option, be it today or not. *)
Theorem X16_savings_against_first_option :
  forall (sortSlice : SliceSorter) (localZone : Z) (clock : Clock)
         (washer : Appliance) (dryer : option Appliance)
         (pricesByDay : gmap string (list PriceSlot))
         (weatherByDay : gmap string WeatherForecast)
         (household : Household) (c : Constraints) (opts : Options)
         (sr : SmartRecommendation),
    generateCoupledRecommendation sortSlice localZone clock washer dryer
      pricesByDay weatherByDay household c opts = Ok sr ->
    exists first later,
      sr_Options sr = first :: later
      /\ ro_SavingsVsToday first = 0%float
      /\ Forall (fun o => ro_SavingsVsToday o
                          = PrimFloat.sub (ro_TotalCostGBP first)
                              (ro_TotalCostGBP o))
           later.
Proof.
  intros sortSlice localZone clock washer dryer pricesByDay weatherByDay
    household c opts sr HOk.
  apply generateCoupledRecommendation_Ok in HOk as (Hne & Hopts & _).
  destruct (coupledDays_appends sortSlice localZone washer dryer pricesByDay
              weatherByDay c opts clock (Z.to_nat (daysToCheckOf washer)) [] 0)
    as (added & E & _ & _ & Hs).
  rewrite <- Hopts in E. cbn [app] in E, Hs. rewrite E in *.
  specialize (Hs I).
  destruct added as [|first later]; [congruence|].
  exists first, later. split; [reflexivity|exact Hs].
Qed.

(** X16 on the scenario. *)
Lemma X16_savings_against_first_option_witness :
  exists first later,
    scenarioOptions = first :: later
    /\ ro_SavingsVsToday first = 0%float
    /\ Forall (fun o => ro_SavingsVsToday o
                        = PrimFloat.sub (ro_TotalCostGBP first)
                            (ro_TotalCostGBP o))
         later.
Proof.
  apply (X16_savings_against_first_option goSortSlice UTC
           (fixedClock (morningOf 1)) washingMachine (Some tumbleDryer)
           threeDays sunnyThird anyHousehold noConstraints oneKWh
           (mkSmartRecommendation "Washing Machine" scenarioOptions 3)).
  vm_compute. reflexivity.
Defined.

(** X17: in the options of a successful [generateCoupledRecommendation], an
    option that uses natural drying comes directly after an option that
    does not and has the same wash slot, date, day and weather. *)
Theorem X17_line_dry_follows_tumble_dry :
  forall (sortSlice : SliceSorter) (localZone : Z) (clock : Clock)
         (washer : Appliance) (dryer : option Appliance)
         (pricesByDay : gmap string (list PriceSlot))
         (weatherByDay : gmap string WeatherForecast)
         (household : Household) (c : Constraints) (opts : Options)
         (sr : SmartRecommendation)
         (before : list RecommendationOption) (o : RecommendationOption)
         (after : list RecommendationOption),
    generateCoupledRecommendation sortSlice localZone clock washer dryer
      pricesByDay weatherByDay household c opts = Ok sr ->
    sr_Options sr = before ++ o :: after ->
    ro_UsesNaturalDry o = true ->
    exists earlier t,
      before = earlier ++ [t]
      /\ ro_UsesNaturalDry t = false
      /\ ro_PrimarySlot o = ro_PrimarySlot t
      /\ ro_Date o = ro_Date t
      /\ ro_Day o = ro_Day t
      /\ ro_Weather o = ro_Weather t.
Proof.
  intros sortSlice localZone clock washer dryer pricesByDay weatherByDay
    household c opts sr before o after HOk Hsplit Hnat.
  apply generateCoupledRecommendation_Ok in HOk as (_ & Hopts & _).
  destruct (coupledDays_appends sortSlice localZone washer dryer pricesByDay
              weatherByDay c opts clock (Z.to_nat (daysToCheckOf washer)) [] 0)
    as (added & E & _ & Hp & _).
  rewrite <- Hopts in E. cbn [app] in E. rewrite E in *.
  apply (DryingPairs_split added Hp before o after Hsplit Hnat).
Qed.

(** X17 on the scenario: the fourth option after the first three. *)
Lemma X17_line_dry_follows_tumble_dry_witness :
  ro_UsesNaturalDry lineDryThird = true
  /\ exists earlier t,
       firstn 3 scenarioOptions = earlier ++ [t]
       /\ ro_UsesNaturalDry t = false
       /\ ro_PrimarySlot lineDryThird = ro_PrimarySlot t
       /\ ro_Date lineDryThird = ro_Date t
       /\ ro_Day lineDryThird = ro_Day t
       /\ ro_Weather lineDryThird = ro_Weather t.
Proof.
  split; [reflexivity|].
  apply (X17_line_dry_follows_tumble_dry goSortSlice UTC
           (fixedClock (morningOf 1)) washingMachine (Some tumbleDryer)
           threeDays sunnyThird anyHousehold noConstraints oneKWh
           (mkSmartRecommendation "Washing Machine" scenarioOptions 3)
           (firstn 3 scenarioOptions) lineDryThird []).
  - vm_compute. reflexivity.
  - vm_compute. reflexivity.
  - reflexivity.
Defined.

Section LineDryFacts.

Variable sortSlice : SliceSorter.
Variable localZone : Z.
Variables (washer : Appliance) (dryer : option Appliance).
Variable pricesByDay : gmap string (list PriceSlot).
Variable weatherByDay : gmap string WeatherForecast.
Variables (c : Constraints) (opts : Options).

Lemma coupledDay_grounds (clock : Clock) (options : list RecommendationOption)
  (dayOffset : Z) :
  Forall (lineDryGrounds dryer weatherByDay) options ->
  Forall (lineDryGrounds dryer weatherByDay)
    (coupledDay sortSlice localZone clock washer dryer pricesByDay weatherByDay
       c opts options dayOffset).
Proof.
  intros Hall. unfold coupledDay.
  destruct (pricesByDay !! _) as [prices|]; [|exact Hall].
  destruct (BestWindows _ _ _ _ _ _) as [[|washerSlot rest]|e]; try exact Hall.
  destruct dryer as [d|] eqn:Ed.
  2:{ destruct (weatherByDay !! _); exact Hall. }
  assert (Htumble : forall day date slot coupled total weather savings text,
            lineDryGrounds (Some d) weatherByDay
              (mkRecommendationOption day date slot coupled total weather false
                 savings text)).
  { intros. unfold lineDryGrounds. cbn [ro_UsesNaturalDry]. discriminate. }
  destruct (weatherByDay !! _) as [w|] eqn:Ew.
  - destruct (wf_IsSunny w) eqn:Esun; cbn [andb].
    + destruct (String.eqb (a_Class d) ClassWeatherDependent) eqn:Ecl.
      * apply Forall_app. split; [apply Forall_app; split; [exact Hall|]|].
        -- constructor; [apply Htumble|constructor].
        -- constructor; [|constructor]. intros _.
           exists d, w. cbn [ro_Date ro_Weather].
           apply String.eqb_eq in Ecl. repeat split; assumption.
      * apply Forall_app. split; [exact Hall|].
        constructor; [apply Htumble|constructor].
    + apply Forall_app. split; [exact Hall|].
      constructor; [apply Htumble|constructor].
  - apply Forall_app. split; [exact Hall|].
    constructor; [apply Htumble|constructor].
Qed.

Lemma coupledDays_grounds (clock : Clock) (rounds : nat)
  (options : list RecommendationOption) (dayOffset : Z) :
  Forall (lineDryGrounds dryer weatherByDay) options ->
  Forall (lineDryGrounds dryer weatherByDay)
    (coupledDays sortSlice localZone rounds clock washer dryer pricesByDay
       weatherByDay c opts options dayOffset).
Proof.
  revert options dayOffset. induction rounds as [|n IH]; intros options d Hall;
    [exact Hall|].
  cbn [coupledDays]. apply IH. apply coupledDay_grounds. exact Hall.
Qed.

End LineDryFacts.

(** X18: an option of a successful [generateCoupledRecommendation] uses
    natural drying only if the successor appliance is weather dependent and
    the forecast kept under the date of the option is sunny; the option
    carries that forecast. *)
Theorem X18_line_dry_only_when_sunny :
  forall (sortSlice : SliceSorter) (localZone : Z) (clock : Clock)
         (washer : Appliance) (dryer : option Appliance)
         (pricesByDay : gmap string (list PriceSlot))
         (weatherByDay : gmap string WeatherForecast)
         (household : Household) (c : Constraints) (opts : Options)
         (sr : SmartRecommendation) (o : RecommendationOption),
    generateCoupledRecommendation sortSlice localZone clock washer dryer
      pricesByDay weatherByDay household c opts = Ok sr ->
    In o (sr_Options sr) ->
    ro_UsesNaturalDry o = true ->
    exists (d : Appliance) (forecast : WeatherForecast),
      dryer = Some d
      /\ a_Class d = ClassWeatherDependent
      /\ weatherByDay !! FormatDate (ro_Date o) = Some forecast
      /\ ro_Weather o = Some forecast
      /\ wf_IsSunny forecast = true.
Proof.
  intros sortSlice localZone clock washer dryer pricesByDay weatherByDay
    household c opts sr o HOk Hin Hnat.
  apply generateCoupledRecommendation_Ok in HOk as (_ & Hopts & _).
  pose proof (coupledDays_grounds sortSlice localZone washer dryer pricesByDay
                weatherByDay c opts clock (Z.to_nat (daysToCheckOf washer)) [] 0
                (List.Forall_nil _)) as H.
  rewrite <- Hopts in H. rewrite List.Forall_forall in H.
  apply (H o Hin Hnat).
Qed.

(** X18 on the scenario: line drying on the sunny third day. *)
Lemma X18_line_dry_only_when_sunny_witness :
  In lineDryThird scenarioOptions
  /\ ro_UsesNaturalDry lineDryThird = true
  /\ exists (d : Appliance) (forecast : WeatherForecast),
       Some tumbleDryer = Some d
       /\ a_Class d = ClassWeatherDependent
       /\ sunnyThird !! FormatDate (ro_Date lineDryThird) = Some forecast
       /\ ro_Weather lineDryThird = Some forecast
       /\ wf_IsSunny forecast = true.
Proof.
  assert (Hin : In lineDryThird scenarioOptions)
    by (vm_compute; right; right; right; left; reflexivity).
  split; [exact Hin|]. split; [reflexivity|].
  apply (X18_line_dry_only_when_sunny goSortSlice UTC (fixedClock (morningOf 1))
           washingMachine (Some tumbleDryer) threeDays sunnyThird anyHousehold
           noConstraints oneKWh
           (mkSmartRecommendation "Washing Machine" scenarioOptions 3)
           lineDryThird).
  - vm_compute. reflexivity.
  - exact Hin.
  - reflexivity.
Defined.

Lemma BestWindows_Ok_nonempty (sortSlice : SliceSorter) (slots : list PriceSlot)
  (runMinutes : Z) (c : Constraints) (opts : Options) (topN : Z)
  (recs : list Recommendation) :
  SortPermutes sortSlice ->
  BestWindows sortSlice slots runMinutes c opts topN = Ok recs -> recs <> [].
Proof.
  intros Hperm HOk.
  apply BestWindows_Ok in HOk as (_ & Hne & n & Hn & ->).
  pose proof (Permutation_length
                (Hperm Recommendation lessByScore
                   (candidateWindows sortSlice slots runMinutes c opts))) as Hlen.
  destruct (sortSlice Recommendation lessByScore
              (candidateWindows sortSlice slots runMinutes c opts)) as [|x l].
  - destruct (candidateWindows sortSlice slots runMinutes c opts);
      [congruence|discriminate].
  - destruct n; [lia|]. discriminate.
Qed.

(** X19: [generateStandaloneRecommendation] fails, with [no feasible slots
    found], exactly when there are no prices under the date of today or
    [BestWindows] fails on them.  When it succeeds it returns one option,
    for Today: the best window of today with its cost, no coupled slot and
    no natural drying, under the name of the appliance and with best index
    0. *)
Theorem X19_standalone_outcomes :
  forall (sortSlice : SliceSorter), SortPermutes sortSlice ->
  forall (clock : Clock) (appliance : Appliance)
         (pricesByDay : gmap string (list PriceSlot)) (household : Household)
         (c : Constraints) (opts : Options),
    let r := generateStandaloneRecommendation sortSlice clock appliance
               pricesByDay household c opts in
    let today := FormatDate (clock 0%nat) in
    (r = Err "no feasible slots found"%string <->
       pricesByDay !! today = None
       \/ exists prices e,
            pricesByDay !! today = Some prices
            /\ BestWindows sortSlice prices (a_CycleMinutes appliance) c opts 1
               = Err e)
    /\ (forall sr, r = Ok sr ->
          exists prices best,
            pricesByDay !! today = Some prices
            /\ BestWindows sortSlice prices (a_CycleMinutes appliance) c opts 1
               = Ok [best]
            /\ sr_ApplianceName sr = a_Name appliance
            /\ sr_BestOptionIndex sr = 0
            /\ exists o,
                 sr_Options sr = [o]
                 /\ ro_Day o = "Today"%string
                 /\ ro_PrimarySlot o = best
                 /\ ro_Date o = rec_Start best
                 /\ ro_TotalCostGBP o = rec_CostGBP best
                 /\ ro_CoupledSlot o = None
                 /\ ro_UsesNaturalDry o = false).
Proof.
  intros sortSlice Hperm clock appliance pricesByDay household c opts r today.
  subst r today. unfold generateStandaloneRecommendation.
  destruct (pricesByDay !! FormatDate (clock 0%nat)) as [prices|] eqn:Ep.
  2:{ cbn [length Nat.eqb]. split; [split; auto|]. intros sr H. discriminate. }
  destruct (BestWindows sortSlice prices (a_CycleMinutes appliance) c opts 1)
    as [recs|e] eqn:Eb.
  - pose proof (BestWindows_Ok_nonempty _ _ _ _ _ _ _ Hperm Eb) as Hne.
    pose proof (BestWindows_Ok_length _ _ _ _ _ _ _ Eb) as Hlen.
    destruct recs as [|best rest]; [congruence|].
    assert (rest = []) as ->.
    { apply (f_equal (@length _)) in Hlen. rewrite length_firstn in Hlen.
      cbn [length] in Hlen. change (Z.to_nat (effectiveTopN 1)) with 1%nat in Hlen.
      destruct rest; [reflexivity|]. cbn [length] in Hlen. lia. }
    cbn [length Nat.eqb]. split.
    + split; [discriminate|]. intros [H|(p & e & H & He)]; [discriminate|].
      injection H as <-. congruence.
    + intros sr [= <-]. exists prices, best.
      split; [reflexivity|]. split; [exact Eb|].
      cbn [sr_ApplianceName sr_BestOptionIndex sr_Options].
      split; [reflexivity|]. split; [reflexivity|].
      eexists. split; [reflexivity|]. cbn. repeat split.
  - cbn [length Nat.eqb]. split.
    + split; [|reflexivity]. intros _. right. exists prices, e. auto.
    + intros sr H. discriminate.
Qed.

(** X19 for the dishwasher on 4 December, a day without prices. *)
Lemma X19_standalone_outcomes_witness :
  SortPermutes goSortSlice
  /\ (generateStandaloneRecommendation goSortSlice (fixedClock (morningOf 4))
        dishwasher threeDays anyHousehold noConstraints oneKWh
      = Err "no feasible slots found"%string <->
      threeDays !! FormatDate (fixedClock (morningOf 4) 0%nat) = None
      \/ exists prices e,
           threeDays !! FormatDate (fixedClock (morningOf 4) 0%nat) = Some prices
           /\ BestWindows goSortSlice prices (a_CycleMinutes dishwasher)
                noConstraints oneKWh 1 = Err e).
Proof.
  split; [apply goSortSlice_permutes|].
  apply (X19_standalone_outcomes goSortSlice goSortSlice_permutes
           (fixedClock (morningOf 4)) dishwasher threeDays anyHousehold
           noConstraints oneKWh).
Defined.

Lemma countMatching_filter (prices : list PriceSlot) (start end_ : Time) (n : Z) :
  countMatching (List.filter (fun p => startsWithin p start end_) prices)
    start end_ n
  = countMatching prices start end_ n.
Proof.
  revert n. induction prices as [|p rest IH]; intros n; [reflexivity|].
  cbn [List.filter countMatching].
  destruct (startsWithin p start end_) eqn:E.
  - cbn [countMatching]. rewrite E. apply IH.
  - apply IH.
Qed.

Lemma sumMatching_filter (prices : list PriceSlot) (start end_ : Time)
  (kwhPerSlot total : float64) :
  sumMatching (List.filter (fun p => startsWithin p start end_) prices)
    start end_ kwhPerSlot total
  = sumMatching prices start end_ kwhPerSlot total.
Proof.
  revert total. induction prices as [|p rest IH]; intros total; [reflexivity|].
  cbn [List.filter sumMatching].
  destruct (startsWithin p start end_) eqn:E.
  - cbn [sumMatching]. rewrite E. apply IH.
  - apply IH.
Qed.

(** X20: [estimateCost] depends on the slots that start at or after [start]
    and before [end] only: leaving out all other slots does not change the
    estimate. *)
Theorem X20_estimateCost_slots_starting_within :
  forall (prices : list PriceSlot) (start end_ : Time) (kwh : float64),
    estimateCost (List.filter (fun p => startsWithin p start end_) prices)
      start end_ kwh
    = estimateCost prices start end_ kwh.
Proof.
  intros prices start end_ kwh. unfold estimateCost.
  rewrite countMatching_filter, sumMatching_filter. reflexivity.
Qed.

(* ================================================================== *)
(** * Package [prices]: the order of the slots *)
(* ================================================================== *)

Lemma bubbleFrom_length (a : PriceSlot) (r : list PriceSlot) :
  length (bubbleFrom a r) = S (length r).
Proof.
  revert a. induction r as [|b r IH]; intros a; [reflexivity|].
  cbn [bubbleFrom]. destruct (After _ _); cbn [length]; rewrite IH; reflexivity.
Qed.

Lemma bubbleFrom_perm (a : PriceSlot) (r : list PriceSlot) :
  Permutation (bubbleFrom a r) (a :: r).
Proof.
  revert a. induction r as [|b r IH]; intros a; [reflexivity|].
  cbn [bubbleFrom]. destruct (After _ _).
  - rewrite IH. apply perm_swap.
  - rewrite IH. reflexivity.
Qed.

(** A pass ends with a slot that starts latest. *)
Lemma bubbleFrom_last (a : PriceSlot) (r : list PriceSlot) :
  exists init m,
    bubbleFrom a r = init ++ [m]
    /\ Forall (fun x => NotAfter (slot_Start x) (slot_Start m) = true) (a :: r).
Proof.
  revert a. induction r as [|b r IH]; intros a.
  - exists [], a. split; [reflexivity|].
    constructor; [|constructor]. unfold NotAfter. lia.
  - cbn [bubbleFrom]. destruct (After (slot_Start a) (slot_Start b)) eqn:E.
    + destruct (IH a) as (init & m & -> & Hall).
      exists (b :: init), m. split; [reflexivity|].
      inversion Hall as [|? ? Ha Hr]; subst.
      constructor; [exact Ha|]. constructor; [|exact Hr].
      unfold After, NotAfter in *. lia.
    + destruct (IH b) as (init & m & -> & Hall).
      exists (a :: init), m. split; [reflexivity|].
      inversion Hall as [|? ? Hb Hr]; subst.
      constructor; [|exact Hall].
      unfold After, NotAfter in *. lia.
Qed.

Lemma bubbleFrom_sorted (a : PriceSlot) (r : list PriceSlot) :
  StartsAscend (a :: r) -> bubbleFrom a r = a :: r.
Proof.
  revert a. induction r as [|b r IH]; intros a H; [reflexivity|].
  cbn [bubbleFrom]. inversion H as [|? ? Hs Ha]; subst.
  inversion Ha as [|? ? Hab _]; subst.
  destruct (After (slot_Start a) (slot_Start b)) eqn:E.
  - unfold After, NotAfter in *. lia.
  - rewrite (IH b Hs). reflexivity.
Qed.

(** The inner loop is the pass over the slots from [j] to the end of the
    unsorted front. *)
Lemma sortSlotsByTime_inner_bubble (r pre suf : list PriceSlot) (a : PriceSlot)
  (fuel : nat) (i : Z) :
  (length r <= fuel)%nat ->
  i = Z.of_nat (length suf) ->
  sortSlotsByTime_inner fuel (pre ++ a :: r ++ suf) i (Z.of_nat (length pre))
  = pre ++ bubbleFrom a r ++ suf.
Proof.
  revert pre a fuel. induction r as [|b r IH]; intros pre a fuel Hfuel Hi.
  - cbn [app bubbleFrom].
    destruct fuel as [|fuel]; [reflexivity|]. cbn [sortSlotsByTime_inner].
    rewrite length_app. cbn [length].
    destruct (_ <? _) eqn:E; [apply Z.ltb_lt in E; lia|reflexivity].
  - destruct fuel as [|fuel]; [cbn [length] in Hfuel; lia|].
    cbn [sortSlotsByTime_inner].
    rewrite length_app. cbn [length app]. rewrite length_app.
    destruct (_ <? _) eqn:E; [|apply Z.ltb_ge in E; lia].
    rewrite Nat2Z.id.
    replace (Z.to_nat (Z.of_nat (length pre) + 1)) with (S (length pre)) by lia.
    assert (Ha : (pre ++ a :: b :: r ++ suf) !! length pre = Some a).
    { rewrite lookup_app_r by lia. rewrite Nat.sub_diag. reflexivity. }
    assert (Hb : (pre ++ a :: b :: r ++ suf) !! S (length pre) = Some b).
    { rewrite lookup_app_r by lia.
      replace (S (length pre) - length pre)%nat with 1%nat by lia. reflexivity. }
    rewrite Ha, Hb. cbn [bubbleFrom].
    destruct (After (slot_Start a) (slot_Start b)) eqn:Eab.
    + unfold GoSort.Swap. rewrite Nat2Z.id.
      replace (Z.to_nat (Z.of_nat (length pre) + 1)) with (S (length pre)) by lia.
      rewrite Ha, Hb.
      assert (Hsw : <[length pre := b]> (<[S (length pre) := a]>
                       (pre ++ a :: b :: r ++ suf))
                    = (pre ++ [b]) ++ a :: r ++ suf).
      { rewrite !insert_app_r_alt by lia.
        rewrite Nat.sub_diag.
        replace (S (length pre) - length pre)%nat with 1%nat by lia.
        cbn. rewrite <- app_assoc. reflexivity. }
      rewrite Hsw.
      replace (Z.of_nat (length pre) + 1) with (Z.of_nat (length (pre ++ [b])))
        by (rewrite length_app; cbn [length]; lia).
      rewrite IH by (cbn [length] in Hfuel; lia).
      rewrite <- app_assoc. reflexivity.
    + replace (pre ++ a :: b :: r ++ suf) with ((pre ++ [a]) ++ b :: r ++ suf)
        by (rewrite <- app_assoc; reflexivity).
      replace (Z.of_nat (length pre) + 1) with (Z.of_nat (length (pre ++ [a])))
        by (rewrite length_app; cbn [length]; lia).
      rewrite IH by (cbn [length] in Hfuel; lia).
      rewrite <- app_assoc. reflexivity.
Qed.

Lemma bubbleState_done (a : PriceSlot) (back : list PriceSlot) :
  bubbleState [a] back -> StartsAscend (a :: back).
Proof.
  intros [Hs Hf]. inversion Hf; subst. constructor; assumption.
Qed.

Lemma sortSlotsByTime_outer_spec (fuel : nat) (front back : list PriceSlot) :
  (length front <= S fuel)%nat ->
  bubbleState front back ->
  let out := sortSlotsByTime_outer fuel (front ++ back) (Z.of_nat (length back)) in
  Permutation out (front ++ back) /\ StartsAscend out
  /\ (StartsAscend (front ++ back) -> out = front ++ back).
Proof.
  revert front back. induction fuel as [|fuel IH]; intros front back Hlen Hst.
  - cbn [sortSlotsByTime_outer]. cbv zeta.
    split; [reflexivity|]. split; [|auto].
    destruct front as [|a [|b front]]; cbn [length] in Hlen; try lia.
    + apply Hst.
    + apply bubbleState_done. exact Hst.
  - cbn [sortSlotsByTime_outer]. cbv zeta. rewrite length_app.
    destruct (_ <? _) eqn:E.
    + apply Z.ltb_lt in E.
      destruct front as [|a r]; [cbn [length] in E; lia|].
      assert (Hin : sortSlotsByTime_inner (length (a :: r) + length back)
                      ((a :: r) ++ back) (Z.of_nat (length back)) 0
                    = bubbleFrom a r ++ back).
      { apply (sortSlotsByTime_inner_bubble r [] back a);
          [cbn [length]; lia|reflexivity]. }
      rewrite Hin.
      destruct (bubbleFrom_last a r) as (init & m & Eb & Hmax).
      rewrite Eb, <- app_assoc. cbn [app].
      destruct Hst as [Hback Hfront].
      assert (Hperm : Permutation (init ++ [m]) (a :: r))
        by (rewrite <- Eb; apply bubbleFrom_perm).
      assert (Hm : In m (a :: r)).
      { apply (Permutation_in _ Hperm). apply in_or_app. right. left. reflexivity. }
      assert (Hinit : forall x, In x init -> In x (a :: r)).
      { intros x Hx. apply (Permutation_in _ Hperm). apply in_or_app. left. exact Hx. }
      rewrite List.Forall_forall in Hfront, Hmax.
      assert (Hst' : bubbleState init (m :: back)).
      { split.
        - constructor; [exact Hback|]. apply (Hfront m Hm).
        - apply List.Forall_forall. intros x Hx. constructor.
          + apply Hmax. apply Hinit. exact Hx.
          + apply Hfront. apply Hinit. exact Hx. }
      assert (Hl : length init = length r).
      { pose proof (bubbleFrom_length a r) as Hl. rewrite Eb, length_app in Hl.
        cbn [length] in Hl. lia. }
      replace (Z.of_nat (length back) + 1) with (Z.of_nat (length (m :: back)))
        by (cbn [length]; lia).
      destruct (IH init (m :: back) ltac:(cbn [length] in Hlen; lia) Hst')
        as (Hp & Hs & Hid).
      split; [|split; [exact Hs|]].
      * rewrite Hp. change (init ++ m :: back) with (init ++ [m] ++ back).
        rewrite app_assoc, Hperm. reflexivity.
      * intros Hsorted.
        assert (Hfr : StartsAscend (a :: r)).
        { clear - Hsorted. unfold StartsAscend in *.
          change (a :: r ++ back) with ((a :: r) ++ back) in Hsorted.
          revert Hsorted. generalize (a :: r). intros l.
          induction l as [|x l IHl]; intros H; [constructor|].
          cbn [app] in H. inversion H as [|? ? Hs Hx]; subst.
          constructor; [apply IHl; exact Hs|].
          apply Forall_app in Hx. apply Hx. }
        pose proof (bubbleFrom_sorted a r Hfr) as Hsame.
        rewrite Eb in Hsame.
        assert (Heq : init ++ m :: back = a :: r ++ back).
        { change (init ++ m :: back) with (init ++ [m] ++ back).
          rewrite app_assoc, Hsame. reflexivity. }
        rewrite Hid; [exact Heq|]. rewrite Heq. exact Hsorted.
    + apply Z.ltb_ge in E. split; [reflexivity|]. split; [|auto].
      destruct front as [|a [|b front]]; cbn [length] in E; try lia.
      * apply Hst.
      * apply bubbleState_done. exact Hst.
Qed.

Lemma sortSlotsByTime_spec (slots : list PriceSlot) :
  Permutation (sortSlotsByTime slots) slots
  /\ StartsAscend (sortSlotsByTime slots)
  /\ (StartsAscend slots -> sortSlotsByTime slots = slots).
Proof.
  unfold sortSlotsByTime.
  pose proof (sortSlotsByTime_outer_spec (length slots) slots []) as H.
  cbn [length] in H. rewrite app_nil_r in H. apply H; [lia|].
  split; [constructor|]. apply List.Forall_forall. intros x _. constructor.
Qed.

(** X21: [sortSlotsByTime] returns the slots it was given, rearranged so
    that no slot starts after a later one. *)
Theorem X21_sortSlotsByTime_sorts :
  forall slots : list PriceSlot,
    Permutation (sortSlotsByTime slots) slots
    /\ StartsAscend (sortSlotsByTime slots).
Proof. intros slots. split; apply sortSlotsByTime_spec. Qed.

(** X22: [sortSlotsByTime] leaves slots that are in ascending order of
    their starts as they are, slots with equal starts included. *)
Theorem X22_sortSlotsByTime_keeps_sorted :
  forall slots : list PriceSlot,
    StartsAscend slots -> sortSlotsByTime slots = slots.
Proof. intros slots. apply sortSlotsByTime_spec. Qed.

(** X22 at the four morning slots. *)
Lemma X22_sortSlotsByTime_keeps_sorted_witness :
  StartsAscend fourSlots /\ sortSlotsByTime fourSlots = fourSlots.
Proof.
  assert (H : StartsAscend fourSlots).
  { unfold StartsAscend.
    repeat (constructor; [|repeat (constructor; [vm_compute; reflexivity|])]);
      constructor. }
  split; [exact H|].
  apply (X22_sortSlotsByTime_keeps_sorted fourSlots H).
Defined.

(** The four morning slots, handed over latest first. *)
Example sortSlotsByTime_reversed :
  sortSlotsByTime (rev fourSlots) = fourSlots.
Proof. vm_compute. reflexivity. Qed.

(* ================================================================== *)
(** * Package [weather] *)
(* ================================================================== *)

(** [time.Parse] with the layout 2006-01-02, on examples. *)
Example parse_date_examples :
  ParseDate "2024-12-01" = Some (Date 2024 12 1 0 0 0 0 UTC)
  /\ ParseDate "2024-02-29" = Some (Date 2024 2 29 0 0 0 0 UTC)
  /\ ParseDate "2023-02-29" = None
  /\ ParseDate "2024-13-01" = None
  /\ ParseDate "2024-1-01" = None
  /\ ParseDate "2024-12-01T00:00" = None
  /\ ParseDate "24-12-01" = None.
Proof. vm_compute. repeat split. Qed.

Lemma absDuration_Sub (a t : Time) :
  - 2 ^ 63 < unixNano a - unixNano t < 2 ^ 63 ->
  absDuration (Sub a t) = Z.abs (unixNano a - unixNano t).
Proof.
  intros H. unfold absDuration, Sub, minDuration, maxDuration, wrapInt64.
  cbv zeta.
  destruct (unixNano a - unixNano t <? - 2 ^ 63) eqn:E1;
    [apply Z.ltb_lt in E1; lia|].
  destruct (2 ^ 63 - 1 <? unixNano a - unixNano t) eqn:E2;
    [apply Z.ltb_lt in E2; lia|].
  destruct (unixNano a - unixNano t <? 0) eqn:E3.
  - apply Z.ltb_lt in E3.
    replace (- (unixNano a - unixNano t) + 2 ^ 63)
      with (2 ^ 63 - (unixNano a - unixNano t)) by lia.
    rewrite Z.mod_small by lia. lia.
  - apply Z.ltb_ge in E3. lia.
Qed.

(** The loop keeps: the closest so far is at [closest], nothing before [i]
    is closer, nothing before [closest] is as close. *)
Lemma closestLoop_spec (t : Time) (rest pre : list WeatherSlot)
  (closest : nat) (w : WeatherSlot) :
  pre !! closest = Some w ->
  (forall j x, pre !! j = Some x -> distanceTo t w <= distanceTo t x) ->
  (forall j x, pre !! j = Some x -> (j < closest)%nat ->
               distanceTo t w < distanceTo t x) ->
  exists (best : nat) (b : WeatherSlot),
    closestLoop rest t (Z.of_nat (length pre)) (Z.of_nat closest)
      (distanceTo t w) = Z.of_nat best
    /\ (pre ++ rest) !! best = Some b
    /\ (forall j x, (pre ++ rest) !! j = Some x ->
                    distanceTo t b <= distanceTo t x)
    /\ (forall j x, (pre ++ rest) !! j = Some x -> (j < best)%nat ->
                    distanceTo t b < distanceTo t x).
Proof.
  revert pre closest w. induction rest as [|s rest IH];
    intros pre closest w Hw Hmin Hfirst.
  - cbn [closestLoop]. rewrite app_nil_r. exists closest, w. auto.
  - cbn [closestLoop]. fold (distanceTo t s).
    assert (Hlen : (closest < length pre)%nat)
      by (apply lookup_lt_Some in Hw; exact Hw).
    replace (pre ++ s :: rest) with ((pre ++ [s]) ++ rest)
      by (rewrite <- app_assoc; reflexivity).
    replace (Z.of_nat (length pre) + 1) with (Z.of_nat (length (pre ++ [s])))
      by (rewrite length_app; cbn [length]; lia).
    assert (Hsnoc : forall j x, (pre ++ [s]) !! j = Some x ->
              (pre !! j = Some x /\ (j < length pre)%nat)
              \/ (j = length pre /\ x = s)).
    { intros j x Hj. destruct (Nat.lt_ge_cases j (length pre)) as [Hlt|Hge].
      - left. rewrite lookup_app_l in Hj by exact Hlt. auto.
      - right. rewrite lookup_app_r in Hj by exact Hge.
        destruct (j - length pre)%nat as [|k] eqn:Ek; cbn in Hj.
        + injection Hj as <-. split; [lia|reflexivity].
        + destruct k; discriminate. }
    destruct (distanceTo t s <? distanceTo t w) eqn:E.
    + apply Z.ltb_lt in E.
      apply (IH (pre ++ [s]) (length pre) s).
      * rewrite lookup_app_r by lia. rewrite Nat.sub_diag. reflexivity.
      * intros j x Hj. destruct (Hsnoc j x Hj) as [[Hp _]|[_ ->]]; [|lia].
        specialize (Hmin j x Hp). lia.
      * intros j x Hj Hlt. destruct (Hsnoc j x Hj) as [[Hp _]|[-> _]]; [|lia].
        specialize (Hmin j x Hp). lia.
    + apply Z.ltb_ge in E.
      apply (IH (pre ++ [s]) closest w).
      * rewrite lookup_app_l by exact Hlen. exact Hw.
      * intros j x Hj. destruct (Hsnoc j x Hj) as [[Hp _]|[_ ->]]; [|lia].
        apply (Hmin j x Hp).
      * intros j x Hj Hlt. destruct (Hsnoc j x Hj) as [[Hp _]|[-> _]]; [|lia].
        apply (Hfirst j x Hp Hlt).
Qed.

Lemma lookup_In {A : Type} (l : list A) (i : nat) (x : A) :
  l !! i = Some x -> In x l.
Proof.
  revert i. induction l as [|y l IH]; intros i H; [destruct i; discriminate|].
  destruct i as [|i]; cbn in H.
  - injection H as ->. left. reflexivity.
  - right. apply (IH i H).
Qed.

(** X23: [GetWeatherForTime] returns nothing for no slots.  For slots whose
    times are all within the range of a Duration (about 292 years) of [t],
    it returns the slot nearest in time to [t], and of several equally near
    the first. *)
Theorem X23_GetWeatherForTime_nearest :
  forall (slots : list WeatherSlot) (t : Time),
    (forall x, In x slots ->
       - 2 ^ 63 < unixNano (ws_Time x) - unixNano t < 2 ^ 63) ->
    (slots = [] -> GetWeatherForTime slots t = None)
    /\ (slots <> [] ->
        exists (i : nat) (w : WeatherSlot),
          GetWeatherForTime slots t = Some w
          /\ slots !! i = Some w
          /\ forall (j : nat) (x : WeatherSlot),
               slots !! j = Some x ->
               Z.abs (unixNano (ws_Time w) - unixNano t)
               <= Z.abs (unixNano (ws_Time x) - unixNano t)
               /\ ((j < i)%nat ->
                   Z.abs (unixNano (ws_Time w) - unixNano t)
                   < Z.abs (unixNano (ws_Time x) - unixNano t))).
Proof.
  intros slots t Hnear. split; [intros ->; reflexivity|].
  intros Hne. destruct slots as [|first rest]; [congruence|].
  unfold GetWeatherForTime.
  destruct (closestLoop_spec t rest [first] 0 first eq_refl)
    as (best & b & Hloop & Hb & Hmin & Hfirst).
  - intros j x Hj. destruct j; cbn in Hj; [|discriminate].
    injection Hj as <-. lia.
  - intros j x _ Hlt. lia.
  - cbn [length app] in *. fold (distanceTo t first).
    change (Z.of_nat 1) with 1 in Hloop. change (Z.of_nat 0) with 0 in Hloop.
    rewrite Hloop, Nat2Z.id. exists best, b.
    split; [exact Hb|]. split; [exact Hb|].
    intros j x Hj.
    pose proof (Hnear b (lookup_In _ _ _ Hb)) as Rb.
    pose proof (Hnear x (lookup_In _ _ _ Hj)) as Rx.
    specialize (Hmin j x Hj). specialize (Hfirst j x Hj).
    unfold distanceTo in Hmin, Hfirst.
    rewrite !absDuration_Sub in Hmin, Hfirst by assumption.
    split; [exact Hmin|exact Hfirst].
Qed.

(** X23 at 10:00, as far from the slot of 09:00 as from that of 11:00. *)
Lemma X23_GetWeatherForTime_nearest_witness :
  noonSlots <> []
  /\ exists (i : nat) (w : WeatherSlot),
       GetWeatherForTime noonSlots tenOClock = Some w
       /\ noonSlots !! i = Some w
       /\ forall (j : nat) (x : WeatherSlot),
            noonSlots !! j = Some x ->
            Z.abs (unixNano (ws_Time w) - unixNano tenOClock)
            <= Z.abs (unixNano (ws_Time x) - unixNano tenOClock)
            /\ ((j < i)%nat ->
                Z.abs (unixNano (ws_Time w) - unixNano tenOClock)
                < Z.abs (unixNano (ws_Time x) - unixNano tenOClock)).
Proof.
  split; [discriminate|].
  apply (X23_GetWeatherForTime_nearest noonSlots tenOClock).
  - intros x [<-|[<-|[<-|[]]]]; vm_compute; split; reflexivity.
  - discriminate.
Defined.

Lemma dailyForecasts_goodDrying (data : dailyForecastResponse)
  (times : list string) (i : Z) (forecasts : list WeatherForecast) :
  dailyForecasts data times i = Some forecasts ->
  Forall (fun f => wf_IsSunny f = goodDrying f) forecasts.
Proof.
  revert i forecasts. induction times as [|s rest IH]; intros i forecasts.
  - cbn [dailyForecasts]. intros [= <-]. constructor.
  - cbn [dailyForecasts]. destruct (ParseDate s) as [date|]; [|apply IH].
    destruct (d_MaxTemp data !! Z.to_nat i) as [maxTemp|]; [|discriminate].
    destruct (d_MinTemp data !! Z.to_nat i) as [minTemp|]; [|discriminate].
    destruct (dailyForecasts data rest (i + 1)) as [fs|] eqn:E; [|discriminate].
    intros [= <-]. constructor; [reflexivity|]. apply (IH (i + 1)). exact E.
Qed.

(** X24: in every forecast [GetForecast] makes of a reply, IsSunny says
    exactly that the forecast has more than three hours of sunshine, a
    probability of rain below 30 and a maximum temperature above 12. *)
Theorem X24_forecast_sunny_means_good_drying :
  forall (data : dailyForecastResponse) (forecasts : list WeatherForecast)
         (f : WeatherForecast),
    GetForecast_decoded data = Some forecasts ->
    In f forecasts ->
    wf_IsSunny f
    = gt (wf_SunshineHours f) 3%float && lt (wf_PrecipProb f) 30%float
      && gt (wf_MaxTempC f) 12%float.
Proof.
  intros data forecasts f H Hin. unfold GetForecast_decoded in H.
  apply dailyForecasts_goodDrying in H. rewrite List.Forall_forall in H.
  apply (H f Hin).
Qed.

(** X24 at the reply for three days and its third day. *)
Lemma X24_forecast_sunny_means_good_drying_witness :
  GetForecast_decoded threeDayReply = Some threeDayForecasts
  /\ In sunnyThirdForecast threeDayForecasts
  /\ wf_IsSunny sunnyThirdForecast
     = gt (wf_SunshineHours sunnyThirdForecast) 3%float
       && lt (wf_PrecipProb sunnyThirdForecast) 30%float
       && gt (wf_MaxTempC sunnyThirdForecast) 12%float.
Proof.
  assert (H : GetForecast_decoded threeDayReply = Some threeDayForecasts)
    by (vm_compute; reflexivity).
  assert (Hin : In sunnyThirdForecast threeDayForecasts)
    by (vm_compute; right; right; left; reflexivity).
  split; [exact H|]. split; [exact Hin|].
  apply (X24_forecast_sunny_means_good_drying threeDayReply threeDayForecasts
           sunnyThirdForecast H Hin).
Defined.

Lemma dailyForecasts_no_sunshine (data : dailyForecastResponse)
  (times : list string) (i : Z) (forecasts : list WeatherForecast) :
  d_SunshineHours data = [] ->
  dailyForecasts data times i = Some forecasts ->
  Forall (fun f => wf_IsSunny f = false) forecasts.
Proof.
  intros Hnone. revert i forecasts.
  induction times as [|s rest IH]; intros i forecasts.
  - cbn [dailyForecasts]. intros [= <-]. constructor.
  - cbn [dailyForecasts]. destruct (ParseDate s) as [date|]; [|apply IH].
    rewrite Hnone. cbn [lookup]. rewrite lookup_nil.
    destruct (d_MaxTemp data !! Z.to_nat i) as [maxTemp|]; [|discriminate].
    destruct (d_MinTemp data !! Z.to_nat i) as [minTemp|]; [|discriminate].
    destruct (dailyForecasts data rest (i + 1)) as [fs|] eqn:E; [|discriminate].
    intros [= <-]. constructor; [reflexivity|]. apply (IH (i + 1)). exact E.
Qed.

(** X25: when a reply has no sunshine durations, no forecast made of it is
    sunny, whatever its temperatures and rain. *)
Theorem X25_forecast_without_sunshine_data :
  forall (data : dailyForecastResponse) (forecasts : list WeatherForecast)
         (f : WeatherForecast),
    d_SunshineHours data = [] ->
    GetForecast_decoded data = Some forecasts ->
    In f forecasts ->
    wf_IsSunny f = false.
Proof.
  intros data forecasts f Hnone H Hin. unfold GetForecast_decoded in H.
  apply (dailyForecasts_no_sunshine data _ _ _ Hnone) in H.
  rewrite List.Forall_forall in H. apply (H f Hin).
Qed.

(** X25 at the reply without sunshine durations and its third day. *)
Lemma X25_forecast_without_sunshine_data_witness :
  In cloudyThirdForecast noSunshineForecasts
  /\ wf_IsSunny cloudyThirdForecast = false.
Proof.
  assert (Hin : In cloudyThirdForecast noSunshineForecasts)
    by (vm_compute; right; right; left; reflexivity).
  split; [exact Hin|].
  apply (X25_forecast_without_sunshine_data noSunshineReply noSunshineForecasts
           cloudyThirdForecast).
  - reflexivity.
  - vm_compute. reflexivity.
  - exact Hin.
Defined.

Lemma dailyForecasts_dates (data : dailyForecastResponse)
  (times : list string) (i : Z) :
  0 <= i ->
  i + Z.of_nat (length times) <= Z.of_nat (length (d_MaxTemp data)) ->
  i + Z.of_nat (length times) <= Z.of_nat (length (d_MinTemp data)) ->
  exists forecasts,
    dailyForecasts data times i = Some forecasts
    /\ map wf_Date forecasts = parsedDates times.
Proof.
  revert i. induction times as [|s rest IH]; intros i Hi Hmax Hmin.
  - exists []. split; reflexivity.
  - cbn [dailyForecasts length parsedDates flat_map] in *.
    destruct (IH (i + 1)) as (fs & Hfs & Hdates); try lia.
    destruct (ParseDate s) as [date|].
    + destruct (lookup_lt_is_Some_2 (d_MaxTemp data) (Z.to_nat i) ltac:(lia))
        as [maxTemp ->].
      destruct (lookup_lt_is_Some_2 (d_MinTemp data) (Z.to_nat i) ltac:(lia))
        as [minTemp ->].
      rewrite Hfs. eexists. split; [reflexivity|].
      cbn [map wf_Date app]. rewrite Hdates. reflexivity.
    + exists fs. split; [exact Hfs|exact Hdates].
Qed.

(** X26: when a reply has a maximum and a minimum temperature for each of
    its dates, the conversion of [GetForecast] reads no index out of range
    and returns one forecast for each date that parses, in the order of the
    reply; a date that does not parse is passed over. *)
Theorem X26_forecast_needs_temperatures :
  forall data : dailyForecastResponse,
    (length (d_Time data) <= length (d_MaxTemp data))%nat ->
    (length (d_Time data) <= length (d_MinTemp data))%nat ->
    exists forecasts,
      GetForecast_decoded data = Some forecasts
      /\ map wf_Date forecasts = parsedDates (d_Time data).
Proof.
  intros data Hmax Hmin. unfold GetForecast_decoded.
  apply dailyForecasts_dates; lia.
Qed.

(** X26 at a reply whose second date does not parse. *)
Lemma X26_forecast_needs_temperatures_witness :
  exists forecasts,
    GetForecast_decoded oddReply = Some forecasts
    /\ map wf_Date forecasts = parsedDates (d_Time oddReply).
Proof.
  apply (X26_forecast_needs_temperatures oddReply); cbn; lia.
Defined.

(* ================================================================== *)
(** * The recommendation handlers *)
(* ================================================================== *)

Lemma splitSlots_In (priceSlots : list PriceSlot) (now todayEnd : Time)
  (s : PriceSlot) :
  (In s (fst (splitSlots priceSlots now todayEnd)) ->
     In s priceSlots /\ After (slot_Start s) now = true
     /\ Before (slot_Start s) todayEnd = true)
  /\ (In s (snd (splitSlots priceSlots now todayEnd)) ->
        In s priceSlots /\ After (slot_Start s) todayEnd = true).
Proof.
  induction priceSlots as [|slot rest IH]; [cbn; tauto|].
  cbn [splitSlots].
  destruct (splitSlots rest now todayEnd) as [todaySlots tomorrowSlots].
  cbn [fst snd] in IH. destruct IH as [IH1 IH2].
  destruct (After (slot_Start slot) now && Before (slot_Start slot) todayEnd) eqn:E1.
  - apply andb_true_iff in E1 as [Ea Eb]. cbn [fst snd]. split.
    + intros [<-|H]; [split; [left; reflexivity|auto]|].
      destruct (IH1 H) as (? & ? & ?). split; [right; assumption|auto].
    + intros H. destruct (IH2 H). split; [right; assumption|auto].
  - destruct (After (slot_Start slot) todayEnd) eqn:E2; cbn [fst snd]; split.
    + intros H. destruct (IH1 H) as (? & ? & ?). split; [right; assumption|auto].
    + intros [<-|H]; [split; [left; reflexivity|auto]|].
      destruct (IH2 H). split; [right; assumption|auto].
    + intros H. destruct (IH1 H) as (? & ? & ?). split; [right; assumption|auto].
    + intros H. destruct (IH2 H). split; [right; assumption|auto].
Qed.

Lemma BestWindows_one (sortSlice : SliceSorter) (slots : list PriceSlot)
  (runMinutes : Z) (c : Constraints) (opts : Options)
  (recs : list Recommendation) :
  BestWindows sortSlice slots runMinutes c opts 1 = Ok recs ->
  (length recs <= 1)%nat.
Proof.
  intros H. apply BestWindows_Ok_length in H. rewrite H, length_firstn.
  change (Z.to_nat (effectiveTopN 1)) with 1%nat. lia.
Qed.

(** The best windows of an appliance: two at most, each starting at a slot
    that starts after [now], or after the end of today. *)
Lemma bestRecsFor_spec (sortSlice : SliceSorter) (now : Time)
  (priceSlots : list PriceSlot) (household : Household) (a : Appliance) :
  SortPermutes sortSlice ->
  (length (bestRecsFor sortSlice now priceSlots household a) <= 2)%nat
  /\ forall rec, In rec (bestRecsFor sortSlice now priceSlots household a) ->
       exists s, In s priceSlots /\ rec_Start rec = slot_Start s
                 /\ (After (slot_Start s) now = true
                     \/ After (slot_Start s) (todayEndOf now) = true).
Proof.
  intros Hperm. unfold bestRecsFor.
  pose proof (fun s => splitSlots_In priceSlots now (todayEndOf now) s) as Hsplit.
  destruct (splitSlots priceSlots now (todayEndOf now)) as [todaySlots tomorrowSlots].
  cbn [fst snd] in Hsplit.
  set (constraints := ApplyPracticalConstraints a household (constraintsOf a household)).
  set (opts := optionsOf a household).
  assert (Htoday : forall recs,
            BestWindows sortSlice todaySlots (a_CycleMinutes a) constraints opts 1
              = Ok recs ->
            (length recs <= 1)%nat
            /\ forall rec, In rec recs ->
                 exists s, In s priceSlots /\ rec_Start rec = slot_Start s
                           /\ (After (slot_Start s) now = true
                               \/ After (slot_Start s) (todayEndOf now) = true)).
  { intros recs HOk. split; [apply (BestWindows_one _ _ _ _ _ _ HOk)|].
    intros rec Hin.
    destruct (BestWindows_ends _ _ _ _ _ _ _ _ Hperm HOk Hin)
      as (first & _ & Hf & _ & Hs & _).
    apply filterByConstraints_In in Hf as [Hf _].
    apply Hsplit in Hf as (Hp & Ha & _). exists first. auto. }
  assert (Htomorrow : forall recs,
            BestWindows sortSlice tomorrowSlots (a_CycleMinutes a) constraints opts 1
              = Ok recs ->
            (length recs <= 1)%nat
            /\ forall rec, In rec recs ->
                 exists s, In s priceSlots /\ rec_Start rec = slot_Start s
                           /\ (After (slot_Start s) now = true
                               \/ After (slot_Start s) (todayEndOf now) = true)).
  { intros recs HOk. split; [apply (BestWindows_one _ _ _ _ _ _ HOk)|].
    intros rec Hin.
    destruct (BestWindows_ends _ _ _ _ _ _ _ _ Hperm HOk Hin)
      as (first & _ & Hf & _ & Hs & _).
    apply filterByConstraints_In in Hf as [Hf _].
    apply Hsplit in Hf as (Hp & Ha). exists first. auto. }
  set (first :=
         if (0 <? length todaySlots)%nat
         then match BestWindows sortSlice todaySlots (a_CycleMinutes a) constraints opts 1 with
              | Ok todayRecs => if (0 <? length todayRecs)%nat then [] ++ todayRecs else []
              | Err _ => []
              end
         else []).
  assert (Hfirst : (length first <= 1)%nat
            /\ forall rec, In rec first ->
                 exists s, In s priceSlots /\ rec_Start rec = slot_Start s
                           /\ (After (slot_Start s) now = true
                               \/ After (slot_Start s) (todayEndOf now) = true)).
  { subst first. destruct (0 <? length todaySlots)%nat; [|cbn; split; [lia|tauto]].
    destruct (BestWindows sortSlice todaySlots _ _ _ _) as [recs|e] eqn:E;
      [|cbn; split; [lia|tauto]].
    destruct (0 <? length recs)%nat; [|cbn; split; [lia|tauto]].
    cbn [app]. apply Htoday. reflexivity. }
  destruct Hfirst as [Hl1 Hin1].
  destruct (0 <? length tomorrowSlots)%nat; [|split; [lia|exact Hin1]].
  destruct (BestWindows sortSlice tomorrowSlots _ _ _ _) as [recs|e] eqn:E;
    [|split; [lia|exact Hin1]].
  destruct (0 <? length recs)%nat; [|split; [lia|exact Hin1]].
  destruct (Htomorrow recs eq_refl) as [Hl2 Hin2].
  split; [rewrite length_app; lia|].
  intros rec Hin. apply in_app_or in Hin as [Hin|Hin]; auto.
Qed.

Lemma recommendationResults_In (sortSlice : SliceSorter) (clock : Clock) (k : nat)
  (currentDate : string) (priceSlots : list PriceSlot) (household : Household)
  (appliances : list Appliance) (r : RecommendationResponse) :
  In r (recommendationResults sortSlice clock k currentDate priceSlots household
          appliances) ->
  exists (a : Appliance) (j : nat),
    In a appliances
    /\ a_Enabled a = true
    /\ ShouldShowRecommendation a "" currentDate = true
    /\ rr_Appliance r = a_Name a
    /\ rr_Recommendations r = bestRecsFor sortSlice (clock j) priceSlots household a
    /\ rr_Recommendations r <> []
    /\ (k <= j)%nat.
Proof.
  revert k. induction appliances as [|a rest IH]; intros k; [intros []|].
  cbn [recommendationResults].
  assert (Hrest : forall k',
            (k <= k')%nat ->
            In r (recommendationResults sortSlice clock k' currentDate priceSlots
                    household rest) ->
            exists (a0 : Appliance) (j : nat),
              In a0 (a :: rest) /\ a_Enabled a0 = true
              /\ ShouldShowRecommendation a0 "" currentDate = true
              /\ rr_Appliance r = a_Name a0
              /\ rr_Recommendations r
                 = bestRecsFor sortSlice (clock j) priceSlots household a0
              /\ rr_Recommendations r <> []
              /\ (k <= j)%nat).
  { intros k' Hk H. destruct (IH k' H) as (a0 & j & Hin & H').
    exists a0, j. split; [right; exact Hin|].
    destruct H' as (? & ? & ? & ? & ? & ?). repeat split; try assumption. lia. }
  destruct (a_Enabled a) eqn:Een; cbn [negb]; [|apply Hrest; lia].
  destruct (ShouldShowRecommendation a "" currentDate) eqn:Eshow; cbn [negb];
    [|apply Hrest; lia].
  destruct (length (bestRecsFor sortSlice (clock k) priceSlots household a) =? 0)%nat
    eqn:Elen; [apply Hrest; lia|].
  intros [<-|H]; [|apply (Hrest (S k)); [lia|exact H]].
  exists a, k. cbn [rr_Appliance rr_Recommendations].
  repeat split; try assumption; try reflexivity; try lia.
  - left. reflexivity.
  - intros Hnil. rewrite Hnil in Elen. discriminate.
Qed.

(** [ShouldShowRecommendation] looks at the usage frequency only. *)
Lemma ShouldShowRecommendation_true (a : Appliance) (lastRunDate currentDate : string) :
  ShouldShowRecommendation a lastRunDate currentDate = true ->
  a_UsageFrequency a = FrequencyDaily
  \/ a_UsageFrequency a = Frequency3xWeek
  \/ a_UsageFrequency a = FrequencyWeekly.
Proof.
  unfold ShouldShowRecommendation.
  destruct (String.eqb (a_UsageFrequency a) FrequencyDaily) eqn:E1;
    [apply String.eqb_eq in E1; auto|].
  destruct (String.eqb (a_UsageFrequency a) Frequency3xWeek) eqn:E2;
    [apply String.eqb_eq in E2; auto|].
  destruct (String.eqb (a_UsageFrequency a) FrequencyWeekly) eqn:E3;
    [apply String.eqb_eq in E3; auto|].
  destruct (String.eqb (a_UsageFrequency a) FrequencyOnDemand); discriminate.
Qed.

(** X27: when [handleGetRecommendations] answers with data, every entry of
    the answer is for an enabled appliance of the household whose usage
    frequency is daily, three times a week or weekly; it has one or two
    Recommendations, and each of them starts at the start of a fetched slot
    that lies after the reading of the clock in the round of that
    appliance, or after 23:59:59 of the day of that reading. *)
Theorem X27_handleGetRecommendations_lists :
  forall (sortSlice : SliceSorter), SortPermutes sortSlice ->
  forall (clock : Clock) (fetched : result string (list PriceSlot))
         (storedHousehold : result string Household)
         (storedAppliances : result string (list Appliance))
         (status : Z) (results : list RecommendationResponse)
         (r : RecommendationResponse),
    handleGetRecommendations sortSlice clock fetched storedHousehold
      storedAppliances = RespondJSON status results ->
    In r results ->
    exists (priceSlots : list PriceSlot) (appliances : list Appliance)
           (a : Appliance) (j : nat),
      fetched = Ok priceSlots
      /\ storedAppliances = Ok appliances
      /\ In a appliances
      /\ rr_Appliance r = a_Name a
      /\ a_Enabled a = true
      /\ (a_UsageFrequency a = FrequencyDaily
          \/ a_UsageFrequency a = Frequency3xWeek
          \/ a_UsageFrequency a = FrequencyWeekly)
      /\ 1 <= Z.of_nat (length (rr_Recommendations r)) <= 2
      /\ forall rec, In rec (rr_Recommendations r) ->
           exists s, In s priceSlots /\ rec_Start rec = slot_Start s
                     /\ (After (slot_Start s) (clock j) = true
                         \/ After (slot_Start s) (todayEndOf (clock j)) = true).
Proof.
  intros sortSlice Hperm clock fetched storedHousehold storedAppliances status
    results r Hresp Hin.
  unfold handleGetRecommendations in Hresp.
  destruct fetched as [priceSlots|e]; [|discriminate].
  destruct storedHousehold as [household|e]; [|discriminate].
  destruct storedAppliances as [appliances|e]; [|discriminate].
  injection Hresp as _ <-.
  apply recommendationResults_In in Hin
    as (a & j & Ha & Hen & Hshow & Hname & Hrecs & Hne & _).
  exists priceSlots, appliances, a, j.
  destruct (bestRecsFor_spec sortSlice (clock j) priceSlots household a Hperm)
    as [Hlen Hstarts].
  rewrite <- Hrecs in Hlen, Hstarts.
  repeat split; try assumption; try reflexivity.
  - apply (ShouldShowRecommendation_true a "" _ Hshow).
  - destruct (rr_Recommendations r); [congruence|cbn [length]; lia].
  - lia.
Qed.

(** X27 on the morning of 1 December, with the slots of the test day. *)
Lemma X27_handleGetRecommendations_lists_witness :
  SortPermutes goSortSlice
  /\ exists (priceSlots : list PriceSlot) (appliances : list Appliance)
            (a : Appliance) (j : nat),
       (Ok testSlots : result string (list PriceSlot)) = Ok priceSlots
       /\ (Ok laundry : result string (list Appliance)) = Ok appliances
       /\ In a appliances
       /\ rr_Appliance washerAnswer = a_Name a
       /\ a_Enabled a = true
       /\ (a_UsageFrequency a = FrequencyDaily
           \/ a_UsageFrequency a = Frequency3xWeek
           \/ a_UsageFrequency a = FrequencyWeekly)
       /\ 1 <= Z.of_nat (length (rr_Recommendations washerAnswer)) <= 2
       /\ forall rec, In rec (rr_Recommendations washerAnswer) ->
            exists s, In s priceSlots /\ rec_Start rec = slot_Start s
                      /\ (After (slot_Start s) (fixedClock (morningOf 1) j) = true
                          \/ After (slot_Start s)
                               (todayEndOf (fixedClock (morningOf 1) j)) = true).
Proof.
  split; [apply goSortSlice_permutes|].
  apply (X27_handleGetRecommendations_lists goSortSlice goSortSlice_permutes
           (fixedClock (morningOf 1)) (Ok testSlots) (Ok anyHousehold)
           (Ok laundry) 200 laundryAnswer washerAnswer).
  - vm_compute. reflexivity.
  - left. reflexivity.
Defined.

Lemma GenerateSmartRecommendations_index (sortSlice : SliceSorter) (localZone : Z)
  (clock : Clock) (appliance : Appliance) (coupledAppliance : option Appliance)
  (pricesByDay : gmap string (list PriceSlot))
  (weatherByDay : gmap string WeatherForecast)
  (household : Household) (c : Constraints) (opts : Options)
  (sr : SmartRecommendation) :
  GenerateSmartRecommendations sortSlice localZone clock appliance
    coupledAppliance pricesByDay weatherByDay household c opts = Ok sr ->
  0 <= sr_BestOptionIndex sr < Z.of_nat (length (sr_Options sr)).
Proof.
  unfold GenerateSmartRecommendations.
  destruct (String.eqb (a_Class appliance) ClassStandalone).
  - unfold generateStandaloneRecommendation.
    destruct (pricesByDay !! _) as [prices|]; [|discriminate].
    destruct (BestWindows _ _ _ _ _ _) as [[|rec0 rest]|e]; try discriminate.
    cbn [length Nat.eqb]. intros [= <-]. cbn [sr_BestOptionIndex sr_Options length].
    lia.
  - destruct coupledAppliance as [dryer|]; [|discriminate].
    destruct (String.eqb (a_Class appliance) ClassCoupled); [|discriminate].
    intros HOk.
    apply generateCoupledRecommendation_Ok in HOk as (Hne & _ & Hidx & _).
    rewrite Hidx. apply (bestOptionIndex_firstCheapest _ Hne).
Qed.

Lemma keepFutureOptions_spec (now : Time) (smartRec kept : SmartRecommendation) :
  0 <= sr_BestOptionIndex smartRec ->
  keepFutureOptions now smartRec = Some kept ->
  0 <= sr_BestOptionIndex kept < Z.of_nat (length (sr_Options kept))
  /\ sr_Options kept
     = List.filter (fun opt => After (rec_Start (ro_PrimarySlot opt)) now)
         (sr_Options smartRec)
  /\ sr_ApplianceName kept = sr_ApplianceName smartRec.
Proof.
  intros Hidx. unfold keepFutureOptions.
  set (futureOptions := List.filter _ _).
  destruct (0 <? length futureOptions)%nat eqn:E; [|discriminate].
  apply Nat.ltb_lt in E. intros [= <-].
  cbn [sr_BestOptionIndex sr_Options sr_ApplianceName].
  split; [|split; reflexivity].
  destruct (Z.of_nat (length futureOptions) <=? sr_BestOptionIndex smartRec) eqn:E';
    [apply Z.leb_le in E'|apply Z.leb_gt in E']; lia.
Qed.

Lemma smartResults_In (sortSlice : SliceSorter) (localZone : Z)
  (readings : nat -> Readings) (n : nat) (appliances : list Appliance)
  (household : Household) (pricesByDay : gmap string (list PriceSlot))
  (weatherByDay : gmap string WeatherForecast) (rest : list Appliance)
  (kept : SmartRecommendation) :
  In kept (smartResults sortSlice localZone readings n appliances household
             pricesByDay weatherByDay rest) ->
  exists (a : Appliance) (j : nat),
    In a rest
    /\ smartResultFor sortSlice localZone (readings j) appliances household
         pricesByDay weatherByDay a = Some kept.
Proof.
  revert n. induction rest as [|a rest IH]; intros n; [intros []|].
  cbn [smartResults].
  destruct (smartResultFor sortSlice localZone (readings n) appliances household
              pricesByDay weatherByDay a) as [sr|] eqn:E.
  - intros [<-|H].
    + exists a, n. split; [left; reflexivity|exact E].
    + destruct (IH _ H) as (a0 & j & Hin & H'). exists a0, j.
      split; [right; exact Hin|exact H'].
  - intros H. destruct (IH _ H) as (a0 & j & Hin & H'). exists a0, j.
    split; [right; exact Hin|exact H'].
Qed.

(** X28: every entry the appliance loop of [handleSmartRecommendations]
    appends is for an enabled appliance of class coupled whose coupled
    appliance is among the appliances; it has at least one option, its best
    index is the index of one of its options, and every option has a wash
    slot that starts after the reading of the clock that followed the
    engine in that round. *)
Theorem X28_smart_results_are_valid :
  forall (sortSlice : SliceSorter) (localZone : Z) (readings : nat -> Readings)
         (appliances : list Appliance) (household : Household)
         (pricesByDay : gmap string (list PriceSlot))
         (weatherByDay : gmap string WeatherForecast)
         (kept : SmartRecommendation),
    In kept (smartResults sortSlice localZone readings 0 appliances household
               pricesByDay weatherByDay appliances) ->
    exists (a dryer : Appliance) (j : nat),
      In a appliances /\ In dryer appliances
      /\ a_Enabled a = true
      /\ a_Class a = ClassCoupled
      /\ a_ID dryer = a_CoupledApplianceID a
      /\ sr_ApplianceName kept = a_Name a
      /\ sr_Options kept <> []
      /\ 0 <= sr_BestOptionIndex kept < Z.of_nat (length (sr_Options kept))
      /\ forall o, In o (sr_Options kept) ->
           After (rec_Start (ro_PrimarySlot o)) (rd_after (readings j)) = true.
Proof.
  intros sortSlice localZone readings appliances household pricesByDay
    weatherByDay kept Hin.
  apply smartResults_In in Hin as (a & j & Ha & Hfor).
  unfold smartResultFor in Hfor.
  destruct (a_Enabled a) eqn:Een; [|discriminate].
  destruct (String.eqb (a_Class a) ClassCoupled) eqn:Ecl; [|discriminate].
  cbn [negb orb] in Hfor. apply String.eqb_eq in Ecl.
  destruct (ShouldShowRecommendation a "" _); [|discriminate]. cbn [negb] in Hfor.
  destruct (GenerateSmartRecommendations _ _ _ _ _ _ _ _ _ _) as [smartRec|e] eqn:Eg;
    [|discriminate].
  pose proof (GenerateSmartRecommendations_index _ _ _ _ _ _ _ _ _ _ _ Eg) as Hidx.
  destruct (keepFutureOptions_spec _ _ _ (proj1 Hidx) Hfor) as (Hkept & Hopts & Hname).
  assert (Hdryer : exists dryer, findCoupled appliances a = Some dryer).
  { unfold GenerateSmartRecommendations in Eg. rewrite Ecl in Eg.
    change (String.eqb ClassCoupled ClassStandalone) with false in Eg.
    destruct (findCoupled appliances a) as [d|]; [eauto|discriminate]. }
  destruct Hdryer as [dryer Hd].
  assert (Hfound : In dryer appliances /\ a_ID dryer = a_CoupledApplianceID a).
  { unfold findCoupled in Hd.
    destruct (negb (String.eqb (a_CoupledApplianceID a) "")); [|discriminate].
    apply find_some in Hd as [Hd1 Hd2]. apply String.eqb_eq in Hd2. auto. }
  assert (Hname' : sr_ApplianceName smartRec = a_Name a).
  { unfold GenerateSmartRecommendations in Eg. rewrite Ecl, Hd in Eg.
    change (String.eqb ClassCoupled ClassStandalone) with false in Eg.
    change (String.eqb ClassCoupled ClassCoupled) with true in Eg.
    apply generateCoupledRecommendation_Ok in Eg as (_ & _ & _ & Hn). exact Hn. }
  exists a, dryer, j. destruct Hfound as [Hf1 Hf2].
  repeat split; try assumption; try lia.
  - congruence.
  - intros Hnil. rewrite Hnil in Hkept. cbn [length] in Hkept. lia.
  - intros o Ho. rewrite Hopts in Ho. apply filter_In in Ho as [_ Ho]. exact Ho.
Qed.

(** X28 on the scenario, on the morning of 1 December. *)
Lemma X28_smart_results_are_valid_witness :
  exists (a dryer : Appliance) (j : nat),
    In a laundry /\ In dryer laundry
    /\ a_Enabled a = true
    /\ a_Class a = ClassCoupled
    /\ a_ID dryer = a_CoupledApplianceID a
    /\ sr_ApplianceName washerSmartAnswer = a_Name a
    /\ sr_Options washerSmartAnswer <> []
    /\ 0 <= sr_BestOptionIndex washerSmartAnswer
       < Z.of_nat (length (sr_Options washerSmartAnswer))
    /\ forall o, In o (sr_Options washerSmartAnswer) ->
         After (rec_Start (ro_PrimarySlot o)) (rd_after (morningReadings j))
         = true.
Proof.
  apply (X28_smart_results_are_valid goSortSlice UTC morningReadings laundry
           anyHousehold threeDays sunnyThird washerSmartAnswer).
  vm_compute. left. reflexivity.
Defined.

Lemma weatherByDayOf_In_from (forecasts : list WeatherForecast)
  (m : gmap string WeatherForecast) (key : string) (f : WeatherForecast) :
  fold_left (fun m f => <[FormatDate (wf_Date f) := f]> m) forecasts m !! key
    = Some f ->
  In f forecasts \/ m !! key = Some f.
Proof.
  revert m. induction forecasts as [|g rest IH]; intros m H.
  - right. exact H.
  - cbn [fold_left] in H. destruct (IH _ H) as [Hin|Hm].
    + left. right. exact Hin.
    + destruct (decide (FormatDate (wf_Date g) = key)) as [<-|Hne].
      * rewrite lookup_insert_eq in Hm. injection Hm as <-. left. left. reflexivity.
      * rewrite lookup_insert_ne in Hm by exact Hne. right. exact Hm.
Qed.

Lemma weatherByDayOf_In (forecasts : list WeatherForecast) (key : string)
  (f : WeatherForecast) :
  weatherByDayOf forecasts !! key = Some f -> In f forecasts.
Proof.
  intros H. apply weatherByDayOf_In_from in H as [H|H]; [exact H|].
  rewrite lookup_empty in H. discriminate.
Qed.

(** X29: from the reply of the weather service to the options: when the
    weather map is built from the forecasts [GetForecast] makes of a reply,
    an option of [generateCoupledRecommendation] that uses natural drying
    carries one of these forecasts, with more than three hours of sunshine,
    a probability of rain below 30 and a maximum temperature above 12. *)
Theorem X29_line_dry_needs_good_forecast :
  forall (sortSlice : SliceSorter) (localZone : Z) (clock : Clock)
         (washer : Appliance) (dryer : option Appliance)
         (pricesByDay : gmap string (list PriceSlot))
         (data : dailyForecastResponse) (forecasts : list WeatherForecast)
         (household : Household) (c : Constraints) (opts : Options)
         (sr : SmartRecommendation) (o : RecommendationOption),
    GetForecast_decoded data = Some forecasts ->
    generateCoupledRecommendation sortSlice localZone clock washer dryer
      pricesByDay (weatherByDayOf forecasts) household c opts = Ok sr ->
    In o (sr_Options sr) ->
    ro_UsesNaturalDry o = true ->
    exists f : WeatherForecast,
      ro_Weather o = Some f
      /\ In f forecasts
      /\ gt (wf_SunshineHours f) 3%float = true
      /\ lt (wf_PrecipProb f) 30%float = true
      /\ gt (wf_MaxTempC f) 12%float = true.
Proof.
  intros sortSlice localZone clock washer dryer pricesByDay data forecasts
    household c opts sr o Hdata HOk Hin Hnat.
  apply generateCoupledRecommendation_Ok in HOk as (_ & Hopts & _).
  pose proof (coupledDays_grounds sortSlice localZone washer dryer pricesByDay
                (weatherByDayOf forecasts) c opts clock
                (Z.to_nat (daysToCheckOf washer)) [] 0 (List.Forall_nil _)) as H.
  rewrite <- Hopts in H. rewrite List.Forall_forall in H.
  destruct (H o Hin Hnat) as (d & f & _ & _ & Hmap & Hw & Hsun).
  apply weatherByDayOf_In in Hmap.
  unfold GetForecast_decoded in Hdata.
  apply dailyForecasts_goodDrying in Hdata.
  rewrite List.Forall_forall in Hdata. specialize (Hdata f Hmap).
  rewrite Hsun in Hdata. symmetry in Hdata. unfold goodDrying in Hdata.
  apply andb_true_iff in Hdata as [Hdata H3].
  apply andb_true_iff in Hdata as [H1 H2].
  exists f. auto.
Qed.

(** X29 on the scenario, with the weather map of the reply for three
    days. *)
Lemma X29_line_dry_needs_good_forecast_witness :
  In forecastLineDry forecastOptions
  /\ ro_UsesNaturalDry forecastLineDry = true
  /\ exists f : WeatherForecast,
       ro_Weather forecastLineDry = Some f
       /\ In f threeDayForecasts
       /\ gt (wf_SunshineHours f) 3%float = true
       /\ lt (wf_PrecipProb f) 30%float = true
       /\ gt (wf_MaxTempC f) 12%float = true.
Proof.
  assert (Hin : In forecastLineDry forecastOptions).
  { vm_compute.
    repeat (first [left; reflexivity | right]). }
  split; [exact Hin|]. split; [reflexivity|].
  apply (X29_line_dry_needs_good_forecast goSortSlice UTC
           (fixedClock (morningOf 1)) washingMachine (Some tumbleDryer)
           threeDays threeDayReply threeDayForecasts anyHousehold noConstraints
           oneKWh
           (mkSmartRecommendation "Washing Machine" forecastOptions
              (bestOptionIndex forecastOptions)) forecastLineDry).
  - vm_compute. reflexivity.
  - vm_compute. reflexivity.
  - exact Hin.
  - reflexivity.
Defined.
